(** * Calendar controller: scope reconciliation and weekday scheduling

    A shallow embedding of [src/controllers/calendar.controller.js]:
    the two date helpers ([getRandomWeekdayDates],
    [calculateBusinessDueDate]), the title rewriting done during a
    content-type migration, and the three handlers that write tasks
    ([updateScope], [generateTasks], [updateTaskDate]), run against a
    list-based model of the tables the Prisma client talks to. *)

From Stdlib Require Import ZArith String Ascii Bool Lia Arith DecimalString.
From Stdlib Require Import List Permutation Sorted.
Import ListNotations.

Local Open Scope Z_scope.

(* ================================================================== *)
(** * Part I: definitions *)
(* ================================================================== *)

(** ** JavaScript [Date]

    A [Date] is its time value: milliseconds counted from the epoch in
    the server's time zone.  The zone is taken to have a fixed offset
    from UTC, so that local midnight falls on the multiples of
    [MS_PER_DAY] and [getTime] arithmetic and [setDate] arithmetic
    agree.  Only valid dates are modelled.  This is the setting of the
    two date helpers; for [updateTaskDate] the zone is a parameter and
    a date of this module is the local reading of a time value. *)
Module JsDate.

Definition Date := Z.

Definition MS_PER_HOUR : Z := 60 * 60 * 1000.
Definition MS_PER_DAY : Z := 24 * MS_PER_HOUR.

(** Number of the local calendar day holding [t] (day 0 is 1970-01-01). *)
Definition dayNumber (t : Date) : Z := t / MS_PER_DAY.

(** Milliseconds elapsed since local midnight. *)
Definition timeOfDay (t : Date) : Z := t mod MS_PER_DAY.

(** [Date.prototype.getDay]: 0 is Sunday, 6 is Saturday; day 0 was a
    Thursday. *)
Definition getDay (t : Date) : Z := (dayNumber t + 4) mod 7.

(** [d.setHours(12, 0, 0, 0)]. *)
Definition setHoursNoon (t : Date) : Date :=
  dayNumber t * MS_PER_DAY + 12 * MS_PER_HOUR.

(** [d.setDate(d.getDate() + k)]. *)
Definition addDays (t : Date) (k : Z) : Date := t + k * MS_PER_DAY.

(** The test [day !== 0 && day !== 6] both helpers use. *)
Definition notWeekend (day : Z) : bool :=
  negb (day =? 0) && negb (day =? 6).

(** Building a date from a day number and a time of day, for examples. *)
Definition mkDate (day hours minutes : Z) : Date :=
  day * MS_PER_DAY + hours * MS_PER_HOUR + minutes * 60 * 1000.

End JsDate.
Import JsDate.

(** ** [calculateBusinessDueDate]

    The [while (count < daysBefore)] loop, with the number of
    iterations still allowed as fuel; [None] is "out of fuel". *)
Fixpoint dueDateLoop (fuel : nat) (date : Date) (count daysBefore : Z)
  : option Date :=
  if count <? daysBefore then
    match fuel with
    | O => None
    | S fuel' =>
        let date := addDays date (-1) in
        let day := getDay date in
        if notWeekend day
        then dueDateLoop fuel' date (count + 1) daysBefore
        else dueDateLoop fuel' date count daysBefore
    end
  else Some date.

(** Three iterations per business day are always enough: a step back
    crosses at most one weekend. *)
Definition calculateBusinessDueDate (publishDate : Date) (daysBefore : Z)
  : option Date :=
  let date := setHoursNoon publishDate in
  dueDateLoop (3 * Z.to_nat daysBefore) date 0 daysBefore.

(** The default parameter [daysBefore = 2]. *)
Definition calculateBusinessDueDate_default (publishDate : Date)
  : option Date :=
  calculateBusinessDueDate publishDate 2.

(** ** [getRandomWeekdayDates] *)

(** The [while (current <= end)] loop; [weekdays.push] appends, so the
    dates come out in increasing order. *)
Fixpoint weekdayLoop (fuel : nat) (current end_ : Date)
  : option (list Date) :=
  if current <=? end_ then
    match fuel with
    | O => None
    | S fuel' =>
        let day := getDay current in
        let rest := weekdayLoop fuel' (addDays current 1) end_ in
        if notWeekend day
        then option_map (cons (setHoursNoon current)) rest
        else rest
    end
  else Some [].

(** Number of iterations of the loop above. *)
Definition weekdayLoopFuel (start end_ : Date) : nat :=
  Z.to_nat ((end_ - start) / MS_PER_DAY + 1).

(** [arr.slice(0, count)] for a count that is a non-negative integer,
    as at every call site. *)
Definition slice0 {A} (count : nat) (l : list A) : list A := firstn count l.

Section RandomWeekdays.

(** [weekdays.sort(() => 0.5 - Math.random())]: the comparator ignores
    its arguments, so all that is known of the outcome is that the
    array holds the same elements in some order. *)
Variable shuffle : list Date -> list Date.

Definition getRandomWeekdayDates (startDate endDate : Date) (count : nat)
  : option (list Date) :=
  let start := startDate in
  let end_ := endDate in
  match weekdayLoop (weekdayLoopFuel start end_) start end_ with
  | Some weekdays => Some (slice0 count (shuffle weekdays))
  | None => None
  end.

End RandomWeekdays.

(** *** What the specification calls the weekdays of a range *)

(** Day numbers [lo], [lo + 1], ..., [lo + len - 1]. *)
Fixpoint daysFrom (lo : Z) (len : nat) : list Z :=
  match len with
  | O => []
  | S len' => lo :: daysFrom (lo + 1) len'
  end.

Definition isWeekdayNumber (k : Z) : bool := notWeekend ((k + 4) mod 7).

(** The Monday-to-Friday calendar days from the day of [startDate] to
    the day of [endDate], both included. *)
Definition rangeWeekdays (startDate endDate : Date) : list Z :=
  filter isWeekdayNumber
    (daysFrom (dayNumber startDate)
       (Z.to_nat (dayNumber endDate - dayNumber startDate + 1))).

(** Number of Monday-to-Friday days among [lo .. hi - 1]. *)
Definition weekdaysBetween (lo hi : Z) : nat :=
  length (filter isWeekdayNumber (daysFrom lo (Z.to_nat (hi - lo)))).

Definition isWeekday (t : Date) : Prop := 1 <= getDay t <= 5.

(** Noon of day number [k], the form in which dates are handed out. *)
Definition noonOfDay (k : Z) : Date := k * MS_PER_DAY + 12 * MS_PER_HOUR.

(** Iterations the due-date loop needs before its counter moves, seen
    from a date: three from a Monday, two from a Sunday, one otherwise. *)
Definition stepsToCount (date : Date) : Z :=
  if getDay date =? 1 then 3 else if getDay date =? 0 then 2 else 1.


(** ** JavaScript strings

    Strings are sequences of 8-bit characters.  Case conversion acts on
    the ASCII letters, which is what [toUpperCase] and [toLowerCase] do
    on the texts handled here: content types are identifiers of the
    schema's enumeration (ASCII letters, digits, underscores). *)
Module JsString.

Local Open Scope string_scope.

Definition charToUpper (c : ascii) : ascii :=
  let n := nat_of_ascii c in
  if (97 <=? n)%nat && (n <=? 122)%nat then ascii_of_nat (n - 32) else c.

Definition charToLower (c : ascii) : ascii :=
  let n := nat_of_ascii c in
  if (65 <=? n)%nat && (n <=? 90)%nat then ascii_of_nat (n + 32) else c.

Fixpoint mapString (f : ascii -> ascii) (s : string) : string :=
  match s with
  | EmptyString => EmptyString
  | String c s' => String (f c) (mapString f s')
  end.

Definition toUpperCase : string -> string := mapString charToUpper.
Definition toLowerCase : string -> string := mapString charToLower.

Fixpoint takeStr (n : nat) (s : string) : string :=
  match n, s with
  | S n', String c s' => String c (takeStr n' s')
  | _, _ => EmptyString
  end.

Fixpoint dropStr (n : nat) (s : string) : string :=
  match n, s with
  | S n', String _ s' => dropStr n' s'
  | _, _ => s
  end.

(** [s.charAt(0)] and [s.slice(1)]. *)
Definition charAt0 (s : string) : string := takeStr 1 s.
Definition slice1 (s : string) : string := dropStr 1 s.

(** [s.startsWith(p)], character by character. *)
Fixpoint startsWith (p s : string) : bool :=
  match p, s with
  | EmptyString, _ => true
  | String a p', String b s' => Ascii.eqb a b && startsWith p' s'
  | String _ _, EmptyString => false
  end.

(** [s.replace(p, r)] with a string pattern: only the first occurrence
    of [p] is replaced. *)
Fixpoint replaceFirst (p r s : string) : string :=
  if startsWith p s then r ++ dropStr (String.length p) s
  else match s with
       | EmptyString => EmptyString
       | String c s' => String c (replaceFirst p r s')
       end.

(** Does the pattern match at the head of [s] under the [i] flag?  For a
    pattern of literal characters the flag compares characters after
    upper-casing. *)
Fixpoint matchesAtCI (p s : string) : bool :=
  match p, s with
  | EmptyString, _ => true
  | String a p', String b s' =>
      Ascii.eqb (charToUpper a) (charToUpper b) && matchesAtCI p' s'
  | String _ _, EmptyString => false
  end.

(** [s.replace(new RegExp(p, "gi"), f)] for a non-empty pattern [p] of
    literal characters: scanning from the left, each match is replaced
    by [f] of the matched text and the scan resumes after the match.
    [skip] counts the characters of the current match still to pass. *)
Fixpoint regexReplaceFrom (p : string) (f : string -> string)
  (skip : nat) (s : string) : string :=
  match s with
  | EmptyString => EmptyString
  | String c s' =>
      match skip with
      | S k => regexReplaceFrom p f k s'
      | O =>
          if matchesAtCI p s
          then f (takeStr (String.length p) s)
                 ++ regexReplaceFrom p f (String.length p - 1) s'
          else String c (regexReplaceFrom p f 0 s')
      end
  end.

Definition regexReplaceGI (p : string) (f : string -> string) (s : string)
  : string :=
  regexReplaceFrom p f 0 s.

(** Template-literal rendering of a non-negative integer. *)
Definition numberToString (n : nat) : string :=
  NilZero.string_of_uint (Nat.to_uint n).

End JsString.
Import JsString.


(** ** The tables

    Rows carry the columns the handlers read or write.  Identifiers are
    numbers; a table is the list of its rows, in the order in which an
    unordered [findMany] returns them. *)

Definition Id := nat.
Bind Scope nat_scope with Id.

Record Brand := mkBrand {
  brand_id : Id;
  brand_name : string
}.

Record Calendar := mkCalendar {
  calendar_id : Id;
  calendar_brandId : Id
}.

Record CalendarScope := mkScope {
  scope_id : Id;
  scope_calendarId : Id;
  scope_contentType : string;
  scope_quantity : Z;
  scope_completed : Z
}.

Record Task := mkTask {
  task_id : Id;
  task_title : string;
  task_description : option string;
  task_status : string;
  task_priority : string;
  task_brandId : Id;
  task_calendarId : Id;
  task_contentType : string;
  task_publishDate : option Date;
  task_dueDate : option Date;
  task_createdById : Id
}.

Record ActivityLog := mkLog {
  log_action : string;
  log_entity : string;
  log_entityId : Id;
  log_userId : Id
}.

Record Store := mkStore {
  brands : list Brand;
  calendars : list Calendar;
  scopes : list CalendarScope;
  tasks : list Task;
  activityLog : list ActivityLog
}.

Definition withScopes (st : Store) (l : list CalendarScope) : Store :=
  mkStore (brands st) (calendars st) l (tasks st) (activityLog st).

Definition withTasks (st : Store) (l : list Task) : Store :=
  mkStore (brands st) (calendars st) (scopes st) l (activityLog st).

Definition withActivityLog (st : Store) (l : list ActivityLog) : Store :=
  mkStore (brands st) (calendars st) (scopes st) (tasks st) l.

(** An identifier no row of the table carries yet. *)
Definition freshId (used : list Id) : Id := S (list_max used).

(** ** The Prisma client: a state and exception monad over the store *)

Inductive PrismaError :=
| P2002             (* unique constraint failed *)
| P2025             (* record to update not found *)
| ValidationError.  (* the data of a write is malformed, e.g. an invalid Date *)

Inductive Result (A : Type) :=
| Ok (a : A)
| Throw (e : PrismaError).
Arguments Ok {A} a.
Arguments Throw {A} e.

Definition Prisma (A : Type) : Type := Store -> Store * Result A.

Definition ret {A} (a : A) : Prisma A := fun st => (st, Ok a).

Definition throw {A} (e : PrismaError) : Prisma A := fun st => (st, Throw e).

(** [await]: what was written before an exception stays written. *)
Definition bind {A B} (m : Prisma A) (k : A -> Prisma B) : Prisma B :=
  fun st =>
    match m st with
    | (st', Ok a) => k a st'
    | (st', Throw e) => (st', Throw e)
    end.

Definition tryCatch {A} (m : Prisma A) (handler : PrismaError -> Prisma A)
  : Prisma A :=
  fun st =>
    match m st with
    | (st', Ok a) => (st', Ok a)
    | (st', Throw e) => handler e st'
    end.

Declare Scope prisma_scope.
Delimit Scope prisma_scope with prisma.
Notation "x <- m ;; k" := (bind m (fun x => k))
  (at level 61, m at next level, right associativity) : prisma_scope.
Notation "m ;; k" := (bind m (fun _ => k))
  (at level 61, right associativity) : prisma_scope.
Local Open Scope prisma_scope.

(** [prisma.$transaction([...])]: the writes are made in order and, if
    one throws, the store is put back as it was. *)
Fixpoint runAll {A} (ops : list (Prisma A)) : Prisma (list A) :=
  match ops with
  | [] => ret []
  | op :: ops' => a <- op ;; rest <- runAll ops' ;; ret (a :: rest)
  end.

Definition transaction {A} (ops : list (Prisma A)) : Prisma (list A) :=
  fun st =>
    match runAll ops st with
    | (st', Ok results) => (st', Ok results)
    | (_, Throw e) => (st, Throw e)
    end.

(** What a handler sends back: [res.status(s).json(body)] (200 when no
    status is set), a [{ message }] body, or [next(error)]. *)
Inductive Response (A : Type) :=
| Json (status : nat) (body : A)
| Message (status : nat) (message : string)
| Next (error : PrismaError).
Arguments Json {A} status body.
Arguments Message {A} status message.
Arguments Next {A} error.

(** The handler as Express sees it; an exception that escapes goes to
    [next]. *)
Definition respond {A} (m : Prisma (Response A)) (st : Store)
  : Store * Response A :=
  match m st with
  | (st', Ok r) => (st', r)
  | (st', Throw e) => (st', Next e)
  end.

(** ** Queries and writes *)

(** [Array.prototype.sort(cmp)]: a stable sort.  Each element goes in
    front of the first later-sorted element it does not have to follow. *)
Fixpoint insertSorted {A} (cmp : A -> A -> Z) (x : A) (l : list A) : list A :=
  match l with
  | [] => [x]
  | y :: l' => if cmp x y <=? 0 then x :: l else y :: insertSorted cmp x l'
  end.

Definition jsSort {A} (cmp : A -> A -> Z) (l : list A) : list A :=
  fold_right (insertSorted cmp) [] l.

(** [where: { calendarId, contentType }] on tasks. *)
Definition taskWhere (calendarId : Id) (contentType : string) (t : Task)
  : bool :=
  (task_calendarId t =? calendarId)%nat
  && (task_contentType t =? contentType)%string.

Definition task_findMany (calendarId : Id) (contentType : string)
  : Prisma (list Task) :=
  fun st => (st, Ok (filter (taskWhere calendarId contentType) (tasks st))).

Definition task_count (calendarId : Id) (contentType : string) : Prisma nat :=
  fun st =>
    (st, Ok (length (filter (taskWhere calendarId contentType) (tasks st)))).

(** [where: { id }]. *)
Definition hasId (id : Id) (t : Task) : bool := (task_id t =? id)%nat.

Definition hasScopeId (id : Id) (s : CalendarScope) : bool :=
  (scope_id s =? id)%nat.

(** [prisma.task.create]: the new row goes last, under a fresh id. *)
Definition task_create (data : Id -> Task) : Prisma Task :=
  fun st =>
    let t := data (freshId (map task_id (tasks st))) in
    (withTasks st (tasks st ++ [t]), Ok t).

(** [prisma.task.update({ where: { id }, data })]; the row keeps its
    place in the table. *)
Definition task_update (id : Id) (data : Task -> Task) : Prisma Task :=
  fun st =>
    match find (hasId id) (tasks st) with
    | None => (st, Throw P2025)
    | Some t =>
        (withTasks st
           (map (fun x => if hasId id x then data x else x) (tasks st)),
         Ok (data t))
    end.

(** [where: { id: { in: ids } }]. *)
Definition idIn (ids : list Id) (t : Task) : bool :=
  existsb (Nat.eqb (task_id t)) ids.

(** [prisma.task.deleteMany({ where: { id: { in: ids } } })]. *)
Definition task_deleteMany (ids : list Id) : Prisma unit :=
  fun st =>
    (withTasks st
       (filter (fun t => negb (idIn ids t)) (tasks st)),
     Ok tt).

(** A scope together with its calendar and the calendar's brand
    ([include: { calendar: { include: { brand: true } } }]). *)
Record ScopeWithCalendar := mkScopeWithCalendar {
  sc_scope : CalendarScope;
  sc_calendar : Calendar;
  sc_brand : Brand
}.

Definition findCalendar (st : Store) (calendarId : Id) : option Calendar :=
  find (fun c => (calendar_id c =? calendarId)%nat) (calendars st).

Definition findBrand (st : Store) (brandId : Id) : option Brand :=
  find (fun b => (brand_id b =? brandId)%nat) (brands st).

(** The foreign keys make the two inner lookups succeed whenever the
    scope exists. *)
Definition calendarScope_findUnique (scopeId : Id)
  : Prisma (option ScopeWithCalendar) :=
  fun st =>
    (st,
     Ok match find (hasScopeId scopeId) (scopes st) with
        | None => None
        | Some s =>
            match findCalendar st (scope_calendarId s) with
            | None => None
            | Some c =>
                match findBrand st (calendar_brandId c) with
                | None => None
                | Some b => Some (mkScopeWithCalendar s c b)
                end
            end
        end).

(** The [updateData] object: a field is present or left out. *)
Record ScopeUpdate := mkScopeUpdate {
  upd_quantity : option Z;
  upd_completed : option Z;
  upd_contentType : option string
}.

Definition applyScopeUpdate (data : ScopeUpdate) (s : CalendarScope)
  : CalendarScope :=
  mkScope (scope_id s) (scope_calendarId s)
    (match upd_contentType data with
     | Some ct => ct
     | None => scope_contentType s
     end)
    (match upd_quantity data with Some q => q | None => scope_quantity s end)
    (match upd_completed data with Some c => c | None => scope_completed s end).

(** Another scope of the calendar already has the content type: the
    unique index on (calendarId, contentType), the one the upsert of
    [generateTasks] names [calendarId_contentType]. *)
Definition scopeTaken (st : Store) (scopeId calendarId : Id)
  (contentType : string) : bool :=
  existsb
    (fun s => negb (hasScopeId scopeId s)
              && (scope_calendarId s =? calendarId)%nat
              && (scope_contentType s =? contentType)%string)
    (scopes st).

Definition calendarScope_update (scopeId : Id) (data : ScopeUpdate)
  : Prisma CalendarScope :=
  fun st =>
    match find (hasScopeId scopeId) (scopes st) with
    | None => (st, Throw P2025)
    | Some s =>
        let s' := applyScopeUpdate data s in
        if match upd_contentType data with
           | Some ct => scopeTaken st scopeId (scope_calendarId s) ct
           | None => false
           end
        then (st, Throw P2002)
        else
          (withScopes st
             (map (fun x => if hasScopeId scopeId x then s' else x)
                (scopes st)),
           Ok s')
    end.

(** [prisma.calendarScope.upsert] on the (calendarId, contentType) key,
    on the rows of the table; a created scope starts with the column
    default for [completed], taken to be 0. *)
Definition upsertScopeRows (rows : list CalendarScope) (calendarId : Id)
  (contentType : string) (quantity : Z)
  : list CalendarScope * CalendarScope :=
  let hit s := (scope_calendarId s =? calendarId)%nat
               && (scope_contentType s =? contentType)%string in
  match find hit rows with
  | Some s =>
      let s' := applyScopeUpdate (mkScopeUpdate (Some quantity) None None) s in
      (map (fun x => if hasScopeId (scope_id s) x then s' else x) rows, s')
  | None =>
      let s' := mkScope (freshId (map scope_id rows))
                  calendarId contentType quantity 0 in
      (rows ++ [s'], s')
  end.

Definition calendarScope_upsert (calendarId : Id) (contentType : string)
  (quantity : Z) : Prisma CalendarScope :=
  fun st =>
    let (rows, s) := upsertScopeRows (scopes st) calendarId contentType quantity in
    (withScopes st rows, Ok s).

(** A calendar with [include: { brand: true, tasks: true }]. *)
Record CalendarWithTasks := mkCalendarWithTasks {
  cw_calendar : Calendar;
  cw_brand : Brand;
  cw_tasks : list Task
}.

Definition calendar_findUnique (calendarId : Id)
  : Prisma (option CalendarWithTasks) :=
  fun st =>
    (st,
     Ok match findCalendar st calendarId with
        | None => None
        | Some c =>
            match findBrand st (calendar_brandId c) with
            | None => None
            | Some b =>
                Some (mkCalendarWithTasks c b
                        (filter (fun t => (task_calendarId t =? calendarId)%nat)
                           (tasks st)))
            end
        end).

Definition activityLog_create (entry : ActivityLog) : Prisma unit :=
  fun st => (withActivityLog st (activityLog st ++ [entry]), Ok tt).

(** [for (let i = 0; i < n; i++)] around a body that awaits, carrying
    what the body accumulates; [i] is the next index, [n] the number of
    rounds left. *)
Fixpoint forRange {T} (i n : nat) (body : nat -> T -> Prisma T) (acc : T)
  : Prisma T :=
  match n with
  | O => ret acc
  | S n' => acc' <- body i acc ;; forRange (S i) n' body acc'
  end.

(** [for (const x of xs)]. *)
Fixpoint forOf {A T} (xs : list A) (body : A -> T -> Prisma T) (acc : T)
  : Prisma T :=
  match xs with
  | [] => ret acc
  | x :: xs' => acc' <- body x acc ;; forOf xs' body acc'
  end.

(** ** Texts derived from a content type *)

Local Open Scope string_scope.

(** [contentType.replace("_", " ")]. *)
Definition typeString (contentType : string) : string :=
  replaceFirst "_" " " contentType.

(** The replacer passed to [task.title.replace(regex, ...)]. *)
Definition titleReplacement (newTypeString match_ : string) : string :=
  if (charAt0 match_ =? toUpperCase (charAt0 match_))%string
  then toUpperCase (charAt0 newTypeString)
       ++ toLowerCase (slice1 newTypeString)
  else toLowerCase newTypeString.

Definition migratedTitle (oldContentType newContentType title : string)
  : string :=
  let oldTypeString := typeString oldContentType in
  let newTypeString := typeString newContentType in
  regexReplaceGI oldTypeString (titleReplacement newTypeString) title.

(** [task.description ? task.description.replace(regex, ...) : ""]; the
    empty string is falsy like [null]. *)
Definition migratedDescription (oldContentType newContentType : string)
  (description : option string) : string :=
  let oldTypeString := typeString oldContentType in
  let newTypeString := typeString newContentType in
  match description with
  | Some (String c d) =>
      regexReplaceGI oldTypeString (fun _ => toLowerCase newTypeString)
        (String c d)
  | _ => ""
  end.

(** The [data] of the migration update. *)
Definition withMigration (contentType title description : string)
  (row : Task) : Task :=
  mkTask (task_id row) title (Some description) (task_status row)
    (task_priority row) (task_brandId row) (task_calendarId row)
    contentType (task_publishDate row) (task_dueDate row)
    (task_createdById row).

(** The [data] of the tasks both handlers create; [n] is the number put
    after the [#]. *)
Definition newTask (contentType brandName : string)
  (brandId calendarId userId : Id) (n : nat) (id : Id) : Task :=
  mkTask id
    (typeString contentType ++ " #" ++ numberToString n)
    (Some ("Create " ++ replaceFirst "_" " " (toLowerCase contentType)
           ++ " for " ++ brandName))
    "TODO" "MEDIUM" brandId calendarId contentType None None userId.

(** Deletion priority of the decrease branch. *)
Definition statusScore (t : Task) : Z :=
  if (task_status t =? "TODO")%string then 2
  else if (task_status t =? "IN_PROGRESS")%string then 1 else 0.

Definition byScoreDesc (a b : Task) : Z :=
  let scoreA := statusScore a in
  let scoreB := statusScore b in
  scoreB - scoreA.

Local Close Scope string_scope.

(** ** The handlers

    The fields of a scope request arrive parsed: [quantity] and
    [completed] are the integers [Number.parseInt] yields, [None] is a
    field left out of the body.  The publish date of [updateTaskDate]
    is the value as the body holds it. *)

(** JavaScript truthiness of an optional string. *)
Definition truthy (s : option string) : bool :=
  match s with
  | Some (String _ _) => true
  | _ => false
  end.

(** The values [updateScope] derives from the request and the scope as
    found: [quantity !== undefined ? ... : currentScope.quantity],
    [contentType || currentScope.contentType],
    [contentType && contentType !== currentScope.contentType], and the
    [updateData] object. *)
Definition newQuantityOf (quantity : option Z) (current : CalendarScope) : Z :=
  match quantity with
  | Some q => q
  | None => scope_quantity current
  end.

Definition newContentTypeOf (contentType : option string)
  (current : CalendarScope) : string :=
  match contentType with
  | Some ct => if truthy contentType then ct else scope_contentType current
  | None => scope_contentType current
  end.

Definition isTypeChangingOf (contentType : option string)
  (current : CalendarScope) : bool :=
  match contentType with
  | Some ct => truthy contentType
               && negb (ct =? scope_contentType current)%string
  | None => false
  end.

Definition updateDataOf (quantity completed : option Z)
  (contentType : option string) (current : CalendarScope) : ScopeUpdate :=
  mkScopeUpdate
    (match quantity with
     | Some _ => Some (newQuantityOf quantity current)
     | None => None
     end)
    completed
    (if isTypeChangingOf contentType current
     then Some (newContentTypeOf contentType current)
     else None).

Section Handlers.

(** Where [ORDER BY ... DESC] puts the rows without a publish date is
    the database's choice. *)
Variable nullsFirst : bool.

Definition publishDateDesc (a b : Task) : Z :=
  match task_publishDate a, task_publishDate b with
  | Some x, Some y => y - x
  | None, None => 0
  | None, Some _ => if nullsFirst then -1 else 1
  | Some _, None => if nullsFirst then 1 else -1
  end.

(** [findMany] with [orderBy: { publishDate: 'desc' }]; rows with the
    same publish date stay in table order. *)
Definition task_findMany_publishDateDesc (calendarId : Id)
  (contentType : string) : Prisma (list Task) :=
  fun st =>
    (st,
     Ok (jsSort publishDateDesc
           (filter (taskWhere calendarId contentType) (tasks st)))).

(** [tasksToMigrate.map(task => ... prisma.task.update(...))]: one
    update for each task fetched, its data computed from the task as it
    was fetched. *)
Definition migrationUpdates (oldContentType newContentType : string)
  (tasksToMigrate : list Task) : list (Prisma Task) :=
  map (fun task =>
         let newTitle :=
           migratedTitle oldContentType newContentType (task_title task) in
         let newDescription :=
           migratedDescription oldContentType newContentType
             (task_description task) in
         task_update (task_id task)
           (withMigration newContentType newTitle newDescription))
    tasksToMigrate.

(** Step 3 of [updateScope]: the migration of the tasks of the old
    content type, in one transaction. *)
Definition migrateTasks (calendarId : Id)
  (oldContentType newContentType : string) : Prisma unit :=
  tasksToMigrate <- task_findMany calendarId oldContentType ;;
  let updatePromises :=
    migrationUpdates oldContentType newContentType tasksToMigrate in
  _ <- transaction updatePromises ;;
  ret tt.

(** Case A of step 4. *)
Definition addTasks (cur : ScopeWithCalendar) (newContentType : string)
  (userId : Id) (quantityDiff : Z) : Prisma unit :=
  let calendarId := scope_calendarId (sc_scope cur) in
  existingCount <- task_count calendarId newContentType ;;
  forRange 0 (Z.to_nat quantityDiff)
    (fun i _ =>
       _ <- task_create
              (newTask newContentType (brand_name (sc_brand cur))
                 (calendar_brandId (sc_calendar cur)) calendarId userId
                 (existingCount + i + 1)) ;;
       ret tt)
    tt.

(** Case B of step 4. *)
Definition removeTasks (cur : ScopeWithCalendar) (newContentType : string)
  (quantityDiff : Z) : Prisma unit :=
  let countToRemove := Z.abs quantityDiff in
  allTasks <- task_findMany_publishDateDesc
                (scope_calendarId (sc_scope cur)) newContentType ;;
  let sortedTasks := jsSort byScoreDesc allTasks in
  let tasksToDelete := slice0 (Z.to_nat countToRemove) sortedTasks in
  let idsToDelete := map task_id tasksToDelete in
  if (0 <? length idsToDelete)%nat
  then task_deleteMany idsToDelete
  else ret tt.

Definition updateScope (scopeId userId : Id)
  (quantity completed : option Z) (contentType : option string)
  : Store -> Store * Response CalendarScope :=
  respond
    (tryCatch
       (currentScope <- calendarScope_findUnique scopeId ;;
        match currentScope with
        | None => ret (Message 404 "Scope not found")
        | Some cur =>
            let current := sc_scope cur in
            let newQuantity := newQuantityOf quantity current in
            let newContentType := newContentTypeOf contentType current in
            let isTypeChanging := isTypeChangingOf contentType current in
            let updateData :=
              updateDataOf quantity completed contentType current in
            scope <- calendarScope_update scopeId updateData ;;
            _ <- (if isTypeChanging
                  then migrateTasks (scope_calendarId current)
                         (scope_contentType current) newContentType
                  else ret tt) ;;
            let quantityDiff := newQuantity - scope_quantity current in
            _ <- (if quantityDiff >? 0
                  then addTasks cur newContentType userId quantityDiff
                  else if quantityDiff <? 0
                  then removeTasks cur newContentType quantityDiff
                  else ret tt) ;;
            ret (Json 200 scope)
        end)
       (fun error =>
          match error with
          | P2002 =>
              ret (Message 400
                     "A scope with this content type already exists.")
          | _ => ret (Next error)
          end)).

End Handlers.

(** One entry of the [scopes] array of a bulk request. *)
Record ScopeData := mkScopeData {
  sd_contentType : string;
  sd_quantity : Z
}.

Record Generated := mkGenerated {
  gen_message : string;
  gen_tasks : list Task
}.

(** The body of the [for (const scopeData of scopes)] loop of
    [generateTasks]; [calendar] is the calendar as it was read before
    the loop. *)
Definition generateForScope (calendarId userId : Id)
  (calendar : CalendarWithTasks) (scopeData : ScopeData)
  (createdTasks : list Task) : Prisma (list Task) :=
  let contentType := sd_contentType scopeData in
  let quantity := sd_quantity scopeData in
  let existingTasksOfType :=
    length (filter (fun t => (task_contentType t =? contentType)%string)
              (cw_tasks calendar)) in
  let tasksToCreate := Z.max 0 (quantity - Z.of_nat existingTasksOfType) in
  if tasksToCreate =? 0 then ret createdTasks
  else
    _ <- calendarScope_upsert calendarId contentType quantity ;;
    forRange 0 (Z.to_nat tasksToCreate)
      (fun i createdTasks =>
         task <- task_create
                   (newTask contentType (brand_name (cw_brand calendar))
                      (calendar_brandId (cw_calendar calendar))
                      (calendar_id (cw_calendar calendar)) userId
                      (existingTasksOfType + i + 1)) ;;
         ret (createdTasks ++ [task]))
      createdTasks.

(** [scopes] is [None] when the body has no array under that name. *)
Definition generateTasks (calendarId userId : Id)
  (scopes : option (list ScopeData)) : Store -> Store * Response Generated :=
  respond
    match scopes with
    | None => ret (Message 400 "Scopes array is required")
    | Some scopes =>
        calendar <- calendar_findUnique calendarId ;;
        match calendar with
        | None => ret (Message 404 "Calendar not found")
        | Some calendar =>
            createdTasks <- forOf scopes
                              (generateForScope calendarId userId calendar) [] ;;
            _ <- activityLog_create
                   (mkLog "GENERATE" "CalendarTasks" calendarId userId) ;;
            ret (Json 201
                   (mkGenerated
                      ("Generated "
                       ++ numberToString (length createdTasks)
                       ++ " new tasks")%string
                      createdTasks))
        end
    end.

(** The [data] of the update of [updateTaskDate]. *)
Definition withDates (publishDate dueDate : Date) (row : Task) : Task :=
  mkTask (task_id row) (task_title row) (task_description row)
    (task_status row) (task_priority row) (task_brandId row)
    (task_calendarId row) (task_contentType row)
    (Some publishDate) (Some dueDate) (task_createdById row).

(** *** Time values and the server's time zone

    [updateTaskDate] is where the time value of a date (milliseconds
    from the epoch, UTC) and its local reading meet: the weekend test
    reads the local day, the due date is computed on the time value.
    A zone gives, for each time value, the offset of local time from
    UTC in milliseconds; the local reading of a time value is a date of
    [JsDate]. *)
Definition TimeZone := Z -> Z.

Definition wallClock (zone : TimeZone) (t : Z) : Date := t + zone t.

Definition utc : TimeZone := fun _ => 0.

(** The offsets of America/New_York around 2024: UTC-4 from 10 March
    2024, 07:00 UTC, to 3 November 2024, 06:00 UTC, and UTC-5 before
    and after. *)
Definition newYork2024 : TimeZone :=
  fun t =>
    if (mkDate 19792 7 0 <=? t) && (t <? mkDate 20030 6 0)
    then -4 * MS_PER_HOUR
    else -5 * MS_PER_HOUR.

(** [TimeClip]: a time value further than 8.64e15 ms from the epoch is
    [NaN] and the date invalid, here [None]. *)
Definition MAX_TIME : Z := 8640000000000000.

Definition timeClip (t : Z) : option Z :=
  if Z.abs t <=? MAX_TIME then Some t else None.

(** A field of the JSON body; numbers are taken to be integers, objects
    and arrays are left out. *)
Inductive BodyValue :=
| JsUndefined            (* the field is not in the body *)
| JsNull
| JsBool (b : bool)
| JsNumber (n : Z)
| JsString (s : string).

(** JavaScript truthiness: [!value] is false. *)
Definition truthyValue (v : BodyValue) : bool :=
  match v with
  | JsUndefined => false
  | JsNull => false
  | JsBool b => b
  | JsNumber n => negb (n =? 0)
  | JsString s => truthy (Some s)
  end.

(** [new Date(value)]: a string goes through [Date.parse], whose
    outcome outside the ISO format is the engine's choice and is a
    parameter here ([None] is [NaN]); any other value goes through
    [ToNumber]. *)
Definition newDateOf (parse : string -> option Z) (v : BodyValue)
  : option Z :=
  match v with
  | JsUndefined => None
  | JsNull => Some 0
  | JsBool b => Some (if b then 1 else 0)
  | JsNumber n => timeClip n
  | JsString s =>
      match parse s with
      | Some t => timeClip t
      | None => None
      end
  end.

(** [dayOfWeek === 0 || dayOfWeek === 6]; [getDay] of an invalid date
    is [NaN], equal to neither. *)
Definition isWeekendDay (dayOfWeek : option Z) : bool :=
  match dayOfWeek with
  | Some d => (d =? 0) || (d =? 6)
  | None => false
  end.

(** The client checks the data of a write before it sends it: an
    invalid [Date] is refused with a validation error. *)
Definition updateTaskDate (zone : TimeZone) (parse : string -> option Z)
  (taskId userId : Id) (publishDate : BodyValue)
  : Store -> Store * Response Task :=
  respond
    (if negb (truthyValue publishDate)
     then ret (Message 400 "Posting date is required")
     else
       let newDate := newDateOf parse publishDate in
       let dayOfWeek := option_map (fun t => getDay (wallClock zone t)) newDate in
       if isWeekendDay dayOfWeek
       then ret (Message 400 "Cannot assign tasks to Saturday or Sunday")
       else
         let dueDate :=
           match newDate with
           | Some t => timeClip (t - 2 * 24 * 60 * 60 * 1000)
           | None => None
           end in
         task <- match newDate, dueDate with
                 | Some newDate, Some dueDate =>
                     task_update taskId (withDates newDate dueDate)
                 | _, _ => throw ValidationError
                 end ;;
         _ <- activityLog_create (mkLog "UPDATE" "Task" (task_id task) userId) ;;
         ret (Json 200 task)).

(** ** What the database guarantees, and the tables between the steps *)

(** The unique index on (calendarId, contentType) of scopes. *)
Definition scopesUnique (st : Store) : Prop :=
  forall s1 s2,
    In s1 (scopes st) -> In s2 (scopes st) ->
    scope_calendarId s1 = scope_calendarId s2 ->
    scope_contentType s1 = scope_contentType s2 ->
    s1 = s2.

(** The primary key of tasks. *)
Definition taskIdsUnique (st : Store) : Prop :=
  NoDup (map task_id (tasks st)).

(** Tasks of a calendar with a content type. *)
Definition tasksOfType (st : Store) (calendarId : Id) (contentType : string)
  : list Task :=
  filter (taskWhere calendarId contentType) (tasks st).

(** What the migration makes of a row: a task of the calendar with the
    old content type is relabelled and its texts rewritten, any other
    row stays. *)
Definition migrateRow (calendarId : Id)
  (oldContentType newContentType : string) (row : Task) : Task :=
  if taskWhere calendarId oldContentType row
  then withMigration newContentType
         (migratedTitle oldContentType newContentType (task_title row))
         (migratedDescription oldContentType newContentType
            (task_description row))
         row
  else row.

(** The task table once steps 2 and 3 of [updateScope] are done. *)
Definition tasksAfterMigration (contentType : option string)
  (current : CalendarScope) (rows : list Task) : list Task :=
  if isTypeChangingOf contentType current
  then map (migrateRow (scope_calendarId current) (scope_contentType current)
              (newContentTypeOf contentType current)) rows
  else rows.

(** The effect on a row of the update made for the fetched task [m]. *)
Definition applyUpdate (data : Task -> Task -> Task) (x m : Task) : Task :=
  if hasId (task_id m) x then data m x else x.




(** The scope row as step 2 writes it, and the store after steps 2
    and 3. *)
Definition scopeAfterUpdate (quantity completed : option Z)
  (contentType : option string) (current : CalendarScope) : CalendarScope :=
  applyScopeUpdate (updateDataOf quantity completed contentType current) current.

Definition storeAfterMigration (scopeId : Id) (quantity completed : option Z)
  (contentType : option string) (current : CalendarScope) (st : Store)
  : Store :=
  withTasks
    (withScopes st
       (map (fun x => if hasScopeId scopeId x
                      then scopeAfterUpdate quantity completed contentType current
                      else x)
          (scopes st)))
    (tasksAfterMigration contentType current (tasks st)).

(** Step 4 of [updateScope]. *)
Definition reconcileQuantity (nullsFirst : bool) (cur : ScopeWithCalendar)
  (newContentType : string) (userId : Id) (quantityDiff : Z) : Prisma unit :=
  if quantityDiff >? 0
  then addTasks cur newContentType userId quantityDiff
  else if quantityDiff <? 0
  then removeTasks nullsFirst cur newContentType quantityDiff
  else ret tt.

(** Tasks with a given deletion priority. *)
Definition hasScore (k : Z) (t : Task) : bool := statusScore t =? k.

(** The order in which the decrease branch considers the candidates:
    the TODO tasks, then those in progress, then the others, each
    group in the order of retrieval. *)
Definition deletionOrder (retrieved : list Task) : list Task :=
  filter (hasScore 2) retrieved ++ filter (hasScore 1) retrieved
  ++ filter (hasScore 0) retrieved.

(** [max(0, quantity - existing)] as a number of rounds. *)
Definition neededTasks (existing : nat) (quantity : Z) : nat :=
  Z.to_nat (Z.max 0 (quantity - Z.of_nat existing)).

(** The scope rows after a bulk request: one upsert for each entry that
    asks for more tasks than the calendar had when the request came in,
    none for the others. *)
Definition scopesAfterGenerate (st0 : Store) (calendarId : Id)
  (requests : list ScopeData) (rows : list CalendarScope)
  : list CalendarScope :=
  fold_left
    (fun rows sd =>
       if (neededTasks
             (length (tasksOfType st0 calendarId (sd_contentType sd)))
             (sd_quantity sd) =? 0)%nat
       then rows
       else fst (upsertScopeRows rows calendarId
                   (sd_contentType sd) (sd_quantity sd)))
    requests rows.

(** ** What rewriting a text means

    The label of the specification: every underscore of the stored
    content type turned into a space. *)
Definition underscoresToSpaces (s : string) : string :=
  mapString (fun c => if Ascii.eqb c "_" then " "%char else c) s.

Fixpoint underscoreCount (s : string) : nat :=
  match s with
  | EmptyString => 0
  | String c s' => ((if Ascii.eqb c "_" then 1 else 0) + underscoreCount s')%nat
  end.

(** Two texts equal up to the case of ASCII letters. *)
Definition sameIgnoringCase (a b : string) : Prop :=
  toUpperCase a = toUpperCase b.

(** An occurrence of [p], in any case, starts the text [s]. *)
Definition occursAtHead (p s : string) : Prop :=
  exists m rest, s = (m ++ rest)%string /\ sameIgnoringCase m p.

(** [out] is [s] with the occurrences of [p], found from the left and
    not overlapping, each replaced by [f] of the text that matched. *)
Inductive Rewritten (p : string) (f : string -> string)
  : string -> string -> Prop :=
| Rewritten_end : Rewritten p f "" ""
| Rewritten_match m rest out :
    sameIgnoringCase m p ->
    Rewritten p f rest out ->
    Rewritten p f (m ++ rest) (f m ++ out)
| Rewritten_keep c rest out :
    ~ occursAtHead p (String c rest) ->
    Rewritten p f rest out ->
    Rewritten p f (String c rest) (String c out).

(** ** A sample calendar

    Brand Acme, one calendar, a scope of three blog posts and one of a
    video, and the tasks that go with them. *)
Module Sample.

Local Open Scope string_scope.

Definition acme : Brand := mkBrand 1 "Acme".
Definition january : Calendar := mkCalendar 10 1.
Definition blogScope : CalendarScope := mkScope 100 10 "BLOG_POST" 3 0.
Definition videoScope : CalendarScope := mkScope 101 10 "VIDEO" 1 0.

Definition blogTask (id : Id) (n : nat) (status : string)
  (publishDate : option Date) : Task :=
  mkTask id ("BLOG POST #" ++ numberToString n)
    (Some "Create blog post for Acme") status "MEDIUM" 1 10 "BLOG_POST"
    publishDate None 7.

Definition videoTask : Task :=
  mkTask 204 "VIDEO #1" (Some "Create video for Acme") "TODO" "MEDIUM"
    1 10 "VIDEO" None None 7.

(** Only the blog scope, three blog tasks in different states. *)
Definition blogOnly : Store :=
  mkStore [acme] [january] [blogScope]
    [blogTask 201 1 "COMPLETED" (Some (mkDate 19730 12 0));
     blogTask 202 2 "TODO" (Some (mkDate 19725 12 0));
     blogTask 203 3 "IN_PROGRESS" None]
    [].

(** The same with the video scope and its task. *)
Definition blogAndVideo : Store :=
  mkStore [acme] [january] [blogScope; videoScope]
    (tasks blogOnly ++ [videoTask]) [].

(** The blog scope alone, with a video task no scope accounts for. *)
Definition blogAndStrayVideo : Store :=
  mkStore [acme] [january] [blogScope] (tasks blogOnly ++ [videoTask]) [].

End Sample.

(** ** A second sample: two calendars of the same brand *)
Module SampleTwo.

Local Open Scope string_scope.

Definition february : Calendar := mkCalendar 11 1.
Definition februaryScope : CalendarScope := mkScope 110 11 "BLOG_POST" 1 0.

Definition februaryTask : Task :=
  mkTask 301 "BLOG POST #1" (Some "Create blog post for Acme") "TODO" "MEDIUM"
    1 11 "BLOG_POST" None None 7.

Definition twoCalendars : Store :=
  mkStore [Sample.acme] [Sample.january; february]
    [Sample.blogScope; februaryScope]
    (tasks Sample.blogOnly ++ [februaryTask]) [].

End SampleTwo.

(** ** [deleteScope]

    [prisma.calendarScope.delete({ where: { id } })] removes the row,
    or throws when there is none.  No column of a task refers to a
    scope, so the tasks are not concerned. *)
Definition calendarScope_delete (scopeId : Id) : Prisma CalendarScope :=
  fun st =>
    match find (hasScopeId scopeId) (scopes st) with
    | None => (st, Throw P2025)
    | Some s =>
        (withScopes st
           (filter (fun x => negb (hasScopeId scopeId x)) (scopes st)),
         Ok s)
    end.

Definition deleteScope (scopeId : Id) : Store -> Store * Response unit :=
  respond
    (_ <- calendarScope_delete scopeId ;;
     ret (Message 200 "Scope deleted successfully")).

(** ** Texts and labels: occurrence, letters *)

(** Does [p] occur somewhere in [s], in any case? *)
Fixpoint containsCI (p s : string) : bool :=
  matchesAtCI p s
  || match s with
     | EmptyString => false
     | String _ s' => containsCI p s'
     end.

Definition isUpperLetter (c : ascii) : bool :=
  (65 <=? nat_of_ascii c)%nat && (nat_of_ascii c <=? 90)%nat.

Definition isLetter (c : ascii) : bool :=
  isUpperLetter c
  || ((97 <=? nat_of_ascii c)%nat && (nat_of_ascii c <=? 122)%nat).

(** A text with no ASCII letter in it. *)
Fixpoint withoutLetters (s : string) : bool :=
  match s with
  | EmptyString => true
  | String c s' => negb (isLetter c) && withoutLetters s'
  end.

(** ** [uploadProfileImage]

    The profile-photo controller works on the user table alone.  A row
    carries the columns of the [select] of the update; the environment
    is the three variables the handler reads; of the uploaded file only
    the stored file name is used. *)

Local Open Scope string_scope.

Record User := mkUser {
  user_id : Id;
  user_avatar : option string;
  user_firstName : string;
  user_lastName : string
}.

Record Environment := mkEnvironment {
  UPLOAD_STORAGE : option string;
  NODE_ENV : option string;
  BASE_URL : option string
}.

Record UploadedFile := mkUploadedFile {
  file_filename : string
}.

(** What the [catch] of the handler can receive. *)
Inductive UploadError :=
| NotDefined (name : string)   (* ReferenceError: the name is not defined *)
| RecordNotFound.              (* the update found no user *)

(** The three bodies the handler sends: the success body with the new
    avatar and the user, a bare message, and the failure body with the
    error. *)
Inductive UploadResponse :=
| UploadSuccess (message : string) (avatar : option string) (user : User)
| UploadMessage (status : nat) (message : string)
| UploadFailure (status : nat) (message : string) (error : UploadError).

(** [process.env.X === value]. *)
Definition envIs (x : option string) (value : string) : bool :=
  match x with
  | Some v => (v =? value)%string
  | None => false
  end.

(** [process.env.X || fallback]. *)
Definition envOr (x : option string) (fallback : string) : string :=
  if truthy x then match x with Some v => v | None => fallback end
  else fallback.

(** The file imports nothing but the Prisma client, so the call of
    [uploadToCloudinary] on the cloud branch throws before anything is
    written. *)
Definition uploadProfileImage (env : Environment) (userId : Id)
  (file : option UploadedFile) (users : list User)
  : list User * UploadResponse :=
  match file with
  | None => (users, UploadMessage 400 "No file uploaded")
  | Some file =>
      if envIs (UPLOAD_STORAGE env) "cloud"
      then (users,
            UploadFailure 500 "Image upload failed"
              (NotDefined "uploadToCloudinary"))
      else
        let baseUrl :=
          if envIs (NODE_ENV env) "production"
          then envOr (BASE_URL env) "https://digitalcrm.abacusdesk.com"
          else envOr (BASE_URL env) "http://localhost:5000" in
        let imageUrl := "/uploads/" ++ file_filename file in
        match find (fun u => (user_id u =? userId)%nat) users with
        | None =>
            (users, UploadFailure 500 "Image upload failed" RecordNotFound)
        | Some u =>
            let updated :=
              mkUser (user_id u) (Some imageUrl) (user_firstName u)
                (user_lastName u) in
            (map (fun x => if (user_id x =? userId)%nat
                           then mkUser (user_id x) (Some imageUrl)
                                  (user_firstName x) (user_lastName x)
                           else x)
               users,
             UploadSuccess "Profile photo updated" (user_avatar updated) updated)
        end
  end.

Local Close Scope string_scope.

(** ** Calendar days between a publish date and its default due date

    How many calendar days [calculateBusinessDueDate] goes back for the
    default of two business days, by the weekday of the publish date:
    three from a Sunday, four from a Monday or a Tuesday, two from any
    other day. *)
Definition defaultDueOffset (day : Z) : Z :=
  if day =? 0 then 3
  else if (day =? 1) || (day =? 2) then 4
  else 2.

(* ================================================================== *)
(** * Part II: properties *)
(* ================================================================== *)

(** ** Calendar arithmetic *)

Lemma MS_PER_DAY_value : MS_PER_DAY = 86400000.
Proof. reflexivity. Qed.

Lemma MS_PER_HOUR_value : MS_PER_HOUR = 3600000.
Proof. reflexivity. Qed.

Ltac zdm :=
  cbv [dayNumber timeOfDay getDay setHoursNoon addDays mkDate noonOfDay
       MS_PER_DAY MS_PER_HOUR] in *;
  Z.div_mod_to_equations; lia.

Lemma dayNumber_addDays t k : dayNumber (addDays t k) = dayNumber t + k.
Proof.
  unfold dayNumber, addDays. apply Z.div_add. unfold MS_PER_DAY, MS_PER_HOUR. lia.
Qed.

Lemma timeOfDay_addDays t k : timeOfDay (addDays t k) = timeOfDay t.
Proof.
  unfold timeOfDay, addDays. apply Z.mod_add. unfold MS_PER_DAY, MS_PER_HOUR. lia.
Qed.

Lemma dayNumber_setHoursNoon t : dayNumber (setHoursNoon t) = dayNumber t.
Proof. zdm. Qed.

Lemma timeOfDay_setHoursNoon t : timeOfDay (setHoursNoon t) = 12 * MS_PER_HOUR.
Proof. zdm. Qed.

Lemma getDay_setHoursNoon t : getDay (setHoursNoon t) = getDay t.
Proof. unfold getDay. now rewrite dayNumber_setHoursNoon. Qed.

Lemma getDay_bounds t : 0 <= getDay t < 7.
Proof. unfold getDay. apply Z.mod_pos_bound. lia. Qed.

Lemma notWeekend_true day :
  0 <= day < 7 -> notWeekend day = true <-> 1 <= day <= 5.
Proof.
  unfold notWeekend. intros Hd.
  rewrite andb_true_iff, !negb_true_iff, !Z.eqb_neq. lia.
Qed.

Lemma notWeekend_false day :
  0 <= day < 7 -> notWeekend day = false <-> day = 0 \/ day = 6.
Proof.
  unfold notWeekend. intros Hd.
  rewrite andb_false_iff, !negb_false_iff, !Z.eqb_eq. lia.
Qed.

Lemma isWeekdayNumber_dayNumber t :
  isWeekdayNumber (dayNumber t) = notWeekend (getDay t).
Proof. reflexivity. Qed.

Lemma isWeekday_notWeekend t : isWeekday t <-> notWeekend (getDay t) = true.
Proof. unfold isWeekday. now rewrite notWeekend_true by apply getDay_bounds. Qed.

Lemma dayNumber_lt_date r d : dayNumber r < dayNumber d -> r < d.
Proof. intros H. zdm. Qed.

(** ** Lists of consecutive days *)

Lemma daysFrom_length lo len : length (daysFrom lo len) = len.
Proof. revert lo; induction len; simpl; intros; [reflexivity | now rewrite IHlen]. Qed.

Lemma daysFrom_snoc lo len :
  daysFrom lo (S len) = daysFrom lo len ++ [lo + Z.of_nat len].
Proof.
  revert lo; induction len as [|len IH]; intros lo.
  - simpl. now rewrite Z.add_0_r.
  - change (daysFrom lo (S (S len))) with (lo :: daysFrom (lo + 1) (S len)).
    rewrite IH. simpl. do 3 f_equal. lia.
Qed.

Lemma daysFrom_In lo len k :
  In k (daysFrom lo len) <-> lo <= k < lo + Z.of_nat len.
Proof.
  revert lo; induction len as [|len IH]; intros lo; simpl.
  - lia.
  - rewrite IH. lia.
Qed.


Lemma weekdaysBetween_same lo : weekdaysBetween lo lo = 0%nat.
Proof. unfold weekdaysBetween. now rewrite Z.sub_diag. Qed.

(** Moving the lower end of the interval one day back adds that day
    when it is a weekday. *)
Lemma weekdaysBetween_pred lo hi :
  lo <= hi ->
  weekdaysBetween (lo - 1) hi =
  ((if isWeekdayNumber (lo - 1) then 1 else 0) + weekdaysBetween lo hi)%nat.
Proof.
  intros Hle. unfold weekdaysBetween.
  replace (Z.to_nat (hi - (lo - 1))) with (S (Z.to_nat (hi - lo))) by lia.
  simpl. replace (lo - 1 + 1) with lo by lia.
  now destruct (isWeekdayNumber (lo - 1)).
Qed.

(** Moving the upper end one day forward adds the day it passes. *)
Lemma weekdaysBetween_succ lo mid :
  lo <= mid ->
  weekdaysBetween lo (mid + 1) =
  (weekdaysBetween lo mid + (if isWeekdayNumber mid then 1 else 0))%nat.
Proof.
  intros Hle. unfold weekdaysBetween.
  replace (Z.to_nat (mid + 1 - lo)) with (S (Z.to_nat (mid - lo))) by lia.
  rewrite daysFrom_snoc, filter_app, length_app. simpl.
  replace (lo + Z.of_nat (Z.to_nat (mid - lo))) with mid by lia.
  now destruct (isWeekdayNumber mid).
Qed.

(** ** [calculateBusinessDueDate] *)

Lemma dueDateLoop_done fuel date count n :
  n <= count -> dueDateLoop fuel date count n = Some date.
Proof.
  intros H. destruct fuel; simpl; now replace (count <? n) with false by lia.
Qed.

Lemma getDay_pred date :
  getDay (addDays date (-1)) = (getDay date - 1) mod 7.
Proof. unfold getDay. rewrite dayNumber_addDays. Z.div_mod_to_equations. lia. Qed.

Lemma dueDateLoop_spec fuel : forall date count n,
  count < n ->
  stepsToCount date + 3 * (n - count - 1) <= Z.of_nat fuel ->
  exists r,
    dueDateLoop fuel date count n = Some r /\
    isWeekday r /\
    dayNumber r < dayNumber date /\
    timeOfDay r = timeOfDay date /\
    count + Z.of_nat (weekdaysBetween (dayNumber r) (dayNumber date)) = n.
Proof.
  induction fuel as [|fuel IH]; intros date count n Hlt Hfuel.
  - exfalso. unfold stepsToCount in Hfuel.
    destruct (getDay date =? 1), (getDay date =? 0); lia.
  - simpl. replace (count <? n) with true by lia.
    set (date' := addDays date (-1)).
    assert (Hday : dayNumber date' = dayNumber date - 1)
      by (unfold date'; rewrite dayNumber_addDays; lia).
    assert (Htod : timeOfDay date' = timeOfDay date)
      by apply timeOfDay_addDays.
    assert (Hgd : getDay date' = (getDay date - 1) mod 7) by apply getDay_pred.
    pose proof (getDay_bounds date) as Hb.
    pose proof (getDay_bounds date') as Hb'.
    destruct (notWeekend (getDay date')) eqn:Hw.
    + assert (Hwd : isWeekday date') by now apply isWeekday_notWeekend.
      destruct (Z.eq_dec (count + 1) n) as [Hn | Hn].
      * exists date'. rewrite dueDateLoop_done by lia.
        repeat split; try apply Hwd; try lia; auto.
        rewrite Hday, weekdaysBetween_pred by lia.
        replace (dayNumber date - 1) with (dayNumber date') by lia.
        rewrite isWeekdayNumber_dayNumber, Hw, weekdaysBetween_same. lia.
      * destruct (IH date' (count + 1) n) as (r & Hr & Hrw & Hrd & Hrt & Hrc).
        { lia. }
        { unfold stepsToCount in *.
          destruct (getDay date' =? 1), (getDay date' =? 0),
            (getDay date =? 1), (getDay date =? 0); lia. }
        exists r. repeat split; try apply Hrw; try lia; auto.
        rewrite <- Hrc. rewrite Hday.
        replace (dayNumber date) with (dayNumber date - 1 + 1) at 1 by lia.
        replace (dayNumber date - 1) with (dayNumber date') by lia.
        rewrite weekdaysBetween_succ by lia.
        rewrite isWeekdayNumber_dayNumber, Hw. lia.
    + apply notWeekend_false in Hw; [|assumption].
      destruct (IH date' count n) as (r & Hr & Hrw & Hrd & Hrt & Hrc).
      { lia. }
      { unfold stepsToCount in *.
        destruct (Z.eqb_spec (getDay date') 1), (Z.eqb_spec (getDay date') 0),
          (Z.eqb_spec (getDay date) 1), (Z.eqb_spec (getDay date) 0);
          Z.div_mod_to_equations; lia. }
      exists r. repeat split; try apply Hrw; try lia; auto.
      rewrite <- Hrc. f_equal. f_equal.
      replace (dayNumber date) with (dayNumber date' + 1) by lia.
      rewrite weekdaysBetween_succ by lia.
      rewrite isWeekdayNumber_dayNumber.
      replace (notWeekend (getDay date')) with false; [lia|].
      symmetry. apply notWeekend_false; assumption.
Qed.

(** C6, as amended: for an offset of at least one business day the
    calculator returns (it never runs out of iterations) a date at noon
    of a Monday-to-Friday day, strictly before the publish date, such
    that exactly [n] weekdays lie from its day up to, and not
    including, the publish day. *)
Theorem calculateBusinessDueDate_nth_weekday_before (d : Date) (n : Z) :
  1 <= n ->
  exists r,
    calculateBusinessDueDate d n = Some r /\
    isWeekday r /\
    r < d /\
    timeOfDay r = 12 * MS_PER_HOUR /\
    Z.of_nat (weekdaysBetween (dayNumber r) (dayNumber d)) = n.
Proof.
  intros Hn. unfold calculateBusinessDueDate.
  destruct (dueDateLoop_spec (3 * Z.to_nat n) (setHoursNoon d) 0 n)
    as (r & Hr & Hw & Hd & Ht & Hc).
  - lia.
  - unfold stepsToCount.
    destruct (getDay (setHoursNoon d) =? 1), (getDay (setHoursNoon d) =? 0); lia.
  - exists r. rewrite dayNumber_setHoursNoon in *.
    rewrite timeOfDay_setHoursNoon in Ht.
    split; [exact Hr|]. split; [exact Hw|].
    split; [now apply dayNumber_lt_date|].
    split; [exact Ht|lia].
Qed.

Lemma calculateBusinessDueDate_nth_weekday_before_witness :
  exists r,
    calculateBusinessDueDate (mkDate 19724 9 30) 2 = Some r /\
    isWeekday r /\
    r < mkDate 19724 9 30 /\
    timeOfDay r = 12 * MS_PER_HOUR /\
    Z.of_nat (weekdaysBetween (dayNumber r) (dayNumber (mkDate 19724 9 30))) = 2.
Proof.
  apply (calculateBusinessDueDate_nth_weekday_before (mkDate 19724 9 30) 2).
  lia.
Defined.

(** Tuesday 2 January 2024: the loop counts Monday 1 January, skips
    the weekend and stops on Friday 29 December 2023. *)
Example calculateBusinessDueDate_tuesday :
  calculateBusinessDueDate_default (mkDate 19724 9 30) = Some (mkDate 19720 12 0)
  /\ getDay (mkDate 19724 9 30) = 2 /\ getDay (mkDate 19720 12 0) = 5.
Proof. repeat split; vm_compute; reflexivity. Qed.

(** C6 as stated fails for the offset 0: the loop body never runs and
    the publish date comes back, here Saturday 6 January 2024 at noon,
    which is neither a weekday nor before itself. *)
Lemma calculateBusinessDueDate_zero_offset_counterexample :
  ~ (exists r,
       calculateBusinessDueDate (mkDate 19728 12 0) 0 = Some r /\
       isWeekday r /\ r < mkDate 19728 12 0).
Proof.
  intros (r & Hr & Hw & Hlt).
  vm_compute in Hr. injection Hr as <-.
  cbv [mkDate MS_PER_DAY MS_PER_HOUR] in Hlt. lia.
Qed.

(** ** [getRandomWeekdayDates] *)

Lemma firstn_incl {A} n (l : list A) : incl (firstn n l) l.
Proof.
  intros x Hx. rewrite <- (firstn_skipn n l). apply in_or_app. now left.
Qed.

Lemma firstn_NoDup {A} n (l : list A) : NoDup l -> NoDup (firstn n l).
Proof.
  intros H. rewrite <- (firstn_skipn n l) in H.
  now apply NoDup_app_remove_r in H.
Qed.

Lemma noonOfDay_dayNumber k : dayNumber (noonOfDay k) = k.
Proof. zdm. Qed.


Lemma setHoursNoon_noonOfDay t : setHoursNoon t = noonOfDay (dayNumber t).
Proof. reflexivity. Qed.

(** The loop visits [current], [current + 1 day], ... for as long as
    the time value does not pass [end_], and keeps the weekdays. *)
Lemma weekdayLoop_spec fuel : forall current end_,
  (Z.to_nat ((end_ - current) / MS_PER_DAY + 1) <= fuel)%nat ->
  weekdayLoop fuel current end_ =
  Some (map noonOfDay
          (filter isWeekdayNumber
             (daysFrom (dayNumber current)
                (Z.to_nat ((end_ - current) / MS_PER_DAY + 1))))).
Proof.
  induction fuel as [|fuel IH]; intros current end_ Hfuel.
  - destruct (Z.leb_spec current end_) as [Hle | Hgt].
    + exfalso. zdm.
    + simpl. replace (current <=? end_) with false by lia.
      replace (Z.to_nat ((end_ - current) / MS_PER_DAY + 1)) with 0%nat by zdm.
      reflexivity.
  - simpl. destruct (Z.leb_spec current end_) as [Hle | Hgt].
    + assert (Hiter : Z.to_nat ((end_ - current) / MS_PER_DAY + 1) =
                      S (Z.to_nat ((end_ - addDays current 1) / MS_PER_DAY + 1)))
        by zdm.
      rewrite Hiter in *. rewrite IH by lia.
      rewrite dayNumber_addDays. simpl.
      rewrite isWeekdayNumber_dayNumber.
      destruct (notWeekend (getDay current)); reflexivity.
    + replace (Z.to_nat ((end_ - current) / MS_PER_DAY + 1)) with 0%nat by zdm.
      reflexivity.
Qed.





(** January 2024 has 23 weekdays; with the reversing "shuffle" the last
    four come back, latest first. *)
Example getRandomWeekdayDates_january :
  getRandomWeekdayDates (@rev Date) (mkDate 19723 0 0) (mkDate 19753 0 0) 4
  = Some [mkDate 19753 12 0; mkDate 19752 12 0; mkDate 19751 12 0; mkDate 19748 12 0]
  /\ length (rangeWeekdays (mkDate 19723 0 0) (mkDate 19753 0 0)) = 23%nat.
Proof. split; vm_compute; reflexivity. Qed.


(** ** [updateTaskDate] *)

Lemma find_update_row id (data : Task -> Task) (l : list Task) :
  (forall x, task_id (data x) = task_id x) ->
  find (hasId id) (map (fun x => if hasId id x then data x else x) l)
  = option_map data (find (hasId id) l).
Proof.
  intros Hid. induction l as [|x l IH]; simpl; [reflexivity|].
  destruct (hasId id x) eqn:Hx.
  - unfold hasId in *. now rewrite Hid, Hx.
  - now rewrite Hx.
Qed.

Lemma timeClip_valid t : Z.abs t <= MAX_TIME -> timeClip t = Some t.
Proof.
  intros Ht. unfold timeClip. now replace (Z.abs t <=? MAX_TIME) with true by lia.
Qed.

Lemma timeClip_inv t u : timeClip t = Some u -> u = t /\ Z.abs t <= MAX_TIME.
Proof.
  unfold timeClip. destruct (Z.leb_spec (Z.abs t) MAX_TIME) as [Hle | Hgt];
    [|discriminate].
  intros Hu. inversion Hu. subst u. split; [reflexivity | exact Hle].
Qed.

(** A value that makes a valid date makes one within the range of time
    values. *)
Lemma newDateOf_range parse v date :
  newDateOf parse v = Some date -> Z.abs date <= MAX_TIME.
Proof.
  destruct v as [| |[]|n|s]; simpl; intros H;
    try discriminate; try (inversion H; subst; unfold MAX_TIME; lia).
  - apply timeClip_inv in H. destruct H as [-> Hn]. exact Hn.
  - destruct (parse s) as [u|]; [|discriminate].
    apply timeClip_inv in H. destruct H as [-> Hu]. exact Hu.
Qed.

(** The run of the handler on a date that is not rejected. *)
Lemma updateTaskDate_accepted zone parse taskId userId v date st t :
  find (hasId taskId) (tasks st) = Some t ->
  truthyValue v = true ->
  newDateOf parse v = Some date ->
  notWeekend (getDay (wallClock zone date)) = true ->
  - MAX_TIME <= date - 2 * MS_PER_DAY ->
  updateTaskDate zone parse taskId userId v st =
  (withActivityLog
     (withTasks st
        (map (fun x => if hasId taskId x
                       then withDates date (date - 2 * 24 * 60 * 60 * 1000) x
                       else x)
           (tasks st)))
     (activityLog st ++ [mkLog "UPDATE" "Task" (task_id t) userId]),
   Json 200 (withDates date (date - 2 * 24 * 60 * 60 * 1000) t)).
Proof.
  intros Hfind Hv Hdate Hday Hmin.
  assert (Hno : (getDay (wallClock zone date) =? 0)
                || (getDay (wallClock zone date) =? 6) = false).
  { unfold notWeekend in Hday. apply andb_true_iff in Hday.
    destruct Hday as [H0 H6]. apply negb_true_iff in H0, H6.
    now rewrite H0, H6. }
  assert (Hdue : timeClip (date - 2 * 24 * 60 * 60 * 1000)
                 = Some (date - 2 * 24 * 60 * 60 * 1000)).
  { apply timeClip_valid. apply newDateOf_range in Hdate.
    unfold MS_PER_DAY, MS_PER_HOUR in Hmin. lia. }
  unfold updateTaskDate, respond. rewrite Hv, Hdate.
  cbn [negb option_map isWeekendDay]. rewrite Hno, Hdue.
  unfold bind, task_update. rewrite Hfind.
  reflexivity.
Qed.

Lemma two_days_earlier zone date :
  zone (date - 2 * 24 * 60 * 60 * 1000) = zone date ->
  dayNumber (wallClock zone (date - 2 * 24 * 60 * 60 * 1000))
    = dayNumber (wallClock zone date) - 2 /\
  timeOfDay (wallClock zone (date - 2 * 24 * 60 * 60 * 1000))
    = timeOfDay (wallClock zone date).
Proof.
  intros Hzone. unfold wallClock. rewrite Hzone.
  generalize (zone date). intros o. split; zdm.
Qed.

(** C9, as amended: the date is what the request gives, a value that is
    truthy and makes a valid date.  On an existing task, a date that is
    a Saturday or a Sunday on the server's clock is answered with
    status 400 and nothing is written; any other date (whose due date
    is still a valid date) is stored as the task's publish date, with
    the time value 48 hours earlier as due date, and the other tasks
    are left as they were.  When the zone's offset is the same at both
    time values, the due date is the same time of day two calendar days
    earlier. *)
Theorem updateTaskDate_assigns_or_rejects zone parse taskId userId v date st t :
  find (hasId taskId) (tasks st) = Some t ->
  truthyValue v = true ->
  newDateOf parse v = Some date ->
  (getDay (wallClock zone date) = 0 \/ getDay (wallClock zone date) = 6 ->
     updateTaskDate zone parse taskId userId v st =
     (st, Message 400 "Cannot assign tasks to Saturday or Sunday")) /\
  (getDay (wallClock zone date) <> 0 /\ getDay (wallClock zone date) <> 6 ->
   - MAX_TIME <= date - 2 * MS_PER_DAY ->
     exists st' t' due,
       updateTaskDate zone parse taskId userId v st = (st', Json 200 t') /\
       find (hasId taskId) (tasks st') = Some t' /\
       task_publishDate t' = Some date /\
       task_dueDate t' = Some due /\
       due = date - 2 * MS_PER_DAY /\
       (zone due = zone date ->
        dayNumber (wallClock zone due) = dayNumber (wallClock zone date) - 2 /\
        timeOfDay (wallClock zone due) = timeOfDay (wallClock zone date)) /\
       length (tasks st') = length (tasks st) /\
       forall x, In x (tasks st) -> hasId taskId x = false -> In x (tasks st')).
Proof.
  intros Hfind Hv Hdate. split.
  - intros Hweekend. unfold updateTaskDate, respond. rewrite Hv, Hdate.
    cbn [negb option_map isWeekendDay].
    replace ((getDay (wallClock zone date) =? 0)
             || (getDay (wallClock zone date) =? 6)) with true; [reflexivity|].
    symmetry. apply orb_true_iff. rewrite !Z.eqb_eq. exact Hweekend.
  - intros [H0 H6] Hmin.
    assert (Hday : notWeekend (getDay (wallClock zone date)) = true).
    { unfold notWeekend. apply andb_true_iff.
      rewrite !negb_true_iff, !Z.eqb_neq. now split. }
    rewrite (updateTaskDate_accepted _ _ _ _ _ _ _ _ Hfind Hv Hdate Hday Hmin).
    do 3 eexists. split; [reflexivity|]. simpl.
    rewrite find_update_row by reflexivity. rewrite Hfind. simpl.
    split; [reflexivity|]. split; [reflexivity|]. split; [reflexivity|].
    split; [reflexivity|]. split; [apply two_days_earlier|].
    split; [apply length_map|].
    intros x Hx Hnot. apply in_map_iff. exists x. now rewrite Hnot.
Qed.

Lemma updateTaskDate_assigns_or_rejects_witness :
  (getDay (wallClock utc (mkDate 19725 9 0)) = 0
   \/ getDay (wallClock utc (mkDate 19725 9 0)) = 6 ->
     updateTaskDate utc (fun _ => None) 203 7 (JsNumber (mkDate 19725 9 0))
       Sample.blogOnly =
     (Sample.blogOnly, Message 400 "Cannot assign tasks to Saturday or Sunday")) /\
  (getDay (wallClock utc (mkDate 19725 9 0)) <> 0
   /\ getDay (wallClock utc (mkDate 19725 9 0)) <> 6 ->
   - MAX_TIME <= mkDate 19725 9 0 - 2 * MS_PER_DAY ->
     exists st' t' due,
       updateTaskDate utc (fun _ => None) 203 7 (JsNumber (mkDate 19725 9 0))
         Sample.blogOnly
         = (st', Json 200 t') /\
       find (hasId 203) (tasks st') = Some t' /\
       task_publishDate t' = Some (mkDate 19725 9 0) /\
       task_dueDate t' = Some due /\
       due = mkDate 19725 9 0 - 2 * MS_PER_DAY /\
       (utc due = utc (mkDate 19725 9 0) ->
        dayNumber (wallClock utc due)
          = dayNumber (wallClock utc (mkDate 19725 9 0)) - 2 /\
        timeOfDay (wallClock utc due)
          = timeOfDay (wallClock utc (mkDate 19725 9 0))) /\
       length (tasks st') = length (tasks Sample.blogOnly) /\
       forall x, In x (tasks Sample.blogOnly) -> hasId 203 x = false ->
                 In x (tasks st')).
Proof.
  apply (updateTaskDate_assigns_or_rejects utc (fun _ => None) 203 7
           (JsNumber (mkDate 19725 9 0)) (mkDate 19725 9 0)
           Sample.blogOnly (Sample.blogTask 203 3 "IN_PROGRESS" None)).
  - reflexivity.
  - reflexivity.
  - reflexivity.
Defined.

(** On a server on UTC, Saturday 6 January 2024 is refused; Wednesday
    3 January is taken, with Monday 1 January as due date. *)
Example updateTaskDate_saturday_wednesday :
  updateTaskDate utc (fun _ => None) 203 7 (JsNumber (mkDate 19728 9 0))
    Sample.blogOnly
    = (Sample.blogOnly, Message 400 "Cannot assign tasks to Saturday or Sunday")
  /\ option_map task_dueDate
       (find (hasId 203)
          (tasks (fst (updateTaskDate utc (fun _ => None) 203 7
                         (JsNumber (mkDate 19725 9 0)) Sample.blogOnly))))
     = Some (Some (mkDate 19723 9 0)).
Proof. split; vm_compute; reflexivity. Qed.

(** C9 as the specification states it fails twice.  On a server in New
    York, Monday 11 March 2024, 00:30 local time (04:30 UTC, the day
    after the clocks went forward) is accepted and the due date stored
    is Friday 8 March, 23:30 local time: three calendar days earlier,
    not two.  And the date given as the number 0, a Thursday, is not
    stored: the handler answers that the date is required. *)
Lemma updateTaskDate_calendar_days_counterexample :
  (getDay (wallClock newYork2024 (mkDate 19793 4 30)) = 1 /\
   exists st' t' due,
     updateTaskDate newYork2024 (fun _ => None) 203 7
       (JsNumber (mkDate 19793 4 30)) Sample.blogOnly = (st', Json 200 t') /\
     task_publishDate t' = Some (mkDate 19793 4 30) /\
     task_dueDate t' = Some due /\
     dayNumber (wallClock newYork2024 due)
       = dayNumber (wallClock newYork2024 (mkDate 19793 4 30)) - 3 /\
     dayNumber (wallClock newYork2024 due)
       <> dayNumber (wallClock newYork2024 (mkDate 19793 4 30)) - 2) /\
  (getDay (wallClock utc 0) = 4 /\
   updateTaskDate utc (fun _ => None) 203 7 (JsNumber 0) Sample.blogOnly
   = (Sample.blogOnly, Message 400 "Posting date is required")).
Proof.
  split.
  - split; [reflexivity|].
    do 3 eexists. split; [vm_compute; reflexivity|].
    split; [reflexivity|]. split; [reflexivity|].
    split; [reflexivity | discriminate].
  - split; reflexivity.
Qed.

(** C10, as amended: a publish date on a Monday or a Tuesday (on the
    server's clock) is accepted, and when the zone's offset 48 hours
    earlier is the same as at the publish date, the due date stored
    with it falls on the Saturday, respectively the Sunday, before. *)
Theorem updateTaskDate_weekend_due_date zone parse taskId userId v date st t :
  find (hasId taskId) (tasks st) = Some t ->
  truthyValue v = true ->
  newDateOf parse v = Some date ->
  getDay (wallClock zone date) = 1 \/ getDay (wallClock zone date) = 2 ->
  - MAX_TIME <= date - 48 * MS_PER_HOUR ->
  zone (date - 48 * MS_PER_HOUR) = zone date ->
  exists st' t' due,
    updateTaskDate zone parse taskId userId v st = (st', Json 200 t') /\
    find (hasId taskId) (tasks st') = Some t' /\
    task_publishDate t' = Some date /\
    task_dueDate t' = Some due /\
    due = date - 48 * MS_PER_HOUR /\
    (getDay (wallClock zone date) = 1 -> getDay (wallClock zone due) = 6) /\
    (getDay (wallClock zone date) = 2 -> getDay (wallClock zone due) = 0).
Proof.
  intros Hfind Hv Hdate Hday Hmin Hzone.
  assert (Hok : notWeekend (getDay (wallClock zone date)) = true).
  { apply notWeekend_true; [apply getDay_bounds | lia]. }
  rewrite (updateTaskDate_accepted _ _ _ _ _ _ _ _ Hfind Hv Hdate Hok)
    by (unfold MS_PER_DAY, MS_PER_HOUR in *; lia).
  do 3 eexists. split; [reflexivity|]. simpl.
  rewrite find_update_row by reflexivity. rewrite Hfind. simpl.
  split; [reflexivity|]. split; [reflexivity|]. split; [reflexivity|].
  split; [reflexivity|].
  unfold wallClock in *.
  match goal with
  | |- context [zone (date - ?k)] =>
      replace (zone (date - k)) with (zone date) by (symmetry; exact Hzone)
  end.
  clear Hzone. revert Hday. generalize (zone date). intros o Hday.
  split; intros Hd; zdm.
Qed.

Lemma updateTaskDate_weekend_due_date_witness :
  exists st' t' due,
    updateTaskDate utc (fun _ => None) 203 7 (JsNumber (mkDate 19723 9 0))
      Sample.blogOnly
      = (st', Json 200 t') /\
    find (hasId 203) (tasks st') = Some t' /\
    task_publishDate t' = Some (mkDate 19723 9 0) /\
    task_dueDate t' = Some due /\
    due = mkDate 19723 9 0 - 48 * MS_PER_HOUR /\
    (getDay (wallClock utc (mkDate 19723 9 0)) = 1
     -> getDay (wallClock utc due) = 6) /\
    (getDay (wallClock utc (mkDate 19723 9 0)) = 2
     -> getDay (wallClock utc due) = 0).
Proof.
  apply (updateTaskDate_weekend_due_date utc (fun _ => None) 203 7
           (JsNumber (mkDate 19723 9 0)) (mkDate 19723 9 0)
           Sample.blogOnly (Sample.blogTask 203 3 "IN_PROGRESS" None)).
  - reflexivity.
  - reflexivity.
  - reflexivity.
  - left. reflexivity.
  - vm_compute. discriminate.
  - reflexivity.
Defined.

(** C10 as the specification states it fails in a zone with daylight
    saving: in New York the Monday of the example above gets a due date
    on a Friday. *)
Lemma updateTaskDate_monday_friday_counterexample :
  getDay (wallClock newYork2024 (mkDate 19793 4 30)) = 1 /\
  exists st' t' due,
    updateTaskDate newYork2024 (fun _ => None) 203 7
      (JsNumber (mkDate 19793 4 30)) Sample.blogOnly = (st', Json 200 t') /\
    task_dueDate t' = Some due /\
    due = mkDate 19793 4 30 - 48 * MS_PER_HOUR /\
    getDay (wallClock newYork2024 due) = 5 /\
    getDay (wallClock newYork2024 due) <> 6.
Proof.
  split; [reflexivity|].
  do 3 eexists. split; [vm_compute; reflexivity|].
  split; [reflexivity|]. split; [reflexivity|].
  split; [reflexivity | discriminate].
Qed.

(** ** [updateScope]: the scope write and the conflict *)

Lemma calendarScope_findUnique_found scopeId st cur :
  calendarScope_findUnique scopeId st = (st, Ok (Some cur)) ->
  find (hasScopeId scopeId) (scopes st) = Some (sc_scope cur).
Proof.
  unfold calendarScope_findUnique. intros H.
  destruct (find (hasScopeId scopeId) (scopes st)) as [s|]; [|discriminate].
  destruct (findCalendar st (scope_calendarId s)) as [c|]; [|discriminate].
  destruct (findBrand st (calendar_brandId c)) as [b|]; [|discriminate].
  now inversion H.
Qed.

Lemma truthy_nonempty ct : ct <> ""%string -> truthy (Some ct) = true.
Proof. destruct ct; [congruence | reflexivity]. Qed.

(** C4: when the requested content type is already that of another
    scope of the same calendar, the handler answers with status 400 and
    the conflict message, and the store (scopes, tasks, log) is the one
    it started from: nothing after the refused scope write has run. *)
Theorem updateScope_conflict
  (nullsFirst : bool) (scopeId userId : Id) (quantity completed : option Z)
  (ct : string) (st : Store) (cur : ScopeWithCalendar) (other : CalendarScope) :
  scopesUnique st ->
  calendarScope_findUnique scopeId st = (st, Ok (Some cur)) ->
  ct <> ""%string ->
  In other (scopes st) ->
  scope_id other <> scopeId ->
  scope_calendarId other = scope_calendarId (sc_scope cur) ->
  scope_contentType other = ct ->
  updateScope nullsFirst scopeId userId quantity completed (Some ct) st =
  (st, Message 400 "A scope with this content type already exists.").
Proof.
  intros Huniq Hcur Hct Hin Hid Hcal Htype.
  pose proof (calendarScope_findUnique_found _ _ _ Hcur) as Hfind.
  destruct (find_some _ _ Hfind) as [Hcin Hcid].
  unfold hasScopeId in Hcid. apply Nat.eqb_eq in Hcid.
  assert (Hneq : (ct =? scope_contentType (sc_scope cur))%string = false).
  { apply String.eqb_neq. intros Heq. apply Hid.
    rewrite <- Hcid. f_equal. apply Huniq; auto. congruence. }
  assert (Htaken : scopeTaken st scopeId (scope_calendarId (sc_scope cur)) ct = true).
  { unfold scopeTaken. apply existsb_exists. exists other. split; [exact Hin|].
    unfold hasScopeId. rewrite Hcal, Htype, Nat.eqb_refl, String.eqb_refl.
    apply Nat.eqb_neq in Hid. now rewrite Hid. }
  unfold updateScope, respond, tryCatch, bind. rewrite Hcur.
  unfold updateDataOf, isTypeChangingOf, newContentTypeOf.
  rewrite (truthy_nonempty ct Hct), Hneq. simpl.
  unfold calendarScope_update. rewrite Hfind. simpl.
  rewrite Htaken. reflexivity.
Qed.

Lemma updateScope_conflict_witness :
  updateScope true 100 7 (Some 5) None (Some "VIDEO"%string) Sample.blogAndVideo =
  (Sample.blogAndVideo,
   Message 400 "A scope with this content type already exists.").
Proof.
  apply (updateScope_conflict true 100 7 (Some 5) None "VIDEO"
           Sample.blogAndVideo
           (mkScopeWithCalendar Sample.blogScope Sample.january Sample.acme)
           Sample.videoScope).
  - intros s1 s2 H1 H2 Hc Ht. simpl in H1, H2.
    destruct H1 as [<- | [<- | []]]; destruct H2 as [<- | [<- | []]];
      try reflexivity; discriminate.
  - reflexivity.
  - discriminate.
  - simpl. right. left. reflexivity.
  - simpl. lia.
  - reflexivity.
  - reflexivity.
Defined.

(** ** Creating tasks in a loop *)

Lemma freshId_not_used (used : list Id) : ~ In (freshId used) used.
Proof.
  intros Hin. unfold freshId in Hin.
  assert (H : Forall (fun k => (k <= list_max used)%nat) used)
    by (apply list_max_le; lia).
  rewrite Forall_forall in H. apply H in Hin. lia.
Qed.

(** A loop of [n] creations appends [n] rows, built from the indices
    [i], [i + 1], ... in turn, and keeps the ids distinct. *)
Lemma create_loop {T} (mk : nat -> Id -> Task) (g : T -> Task -> T)
  (mk_id : forall k id, task_id (mk k id) = id) :
  forall n i acc st,
  exists new,
    forRange i n
      (fun i acc => task <- task_create (mk i) ;; ret (g acc task)) acc st
    = (withTasks st (tasks st ++ new), Ok (fold_left g new acc)) /\
    length new = n /\
    (forall j t, nth_error new j = Some t -> exists id, t = mk (i + j)%nat id) /\
    (taskIdsUnique st -> NoDup (map task_id (tasks st ++ new))).
Proof.
  induction n as [|n IH]; intros i acc st.
  - exists []. simpl. unfold ret. destruct st; simpl. rewrite app_nil_r.
    repeat split; auto.
    intros j t Hj. destruct j; discriminate.
  - set (t0 := mk i (freshId (map task_id (tasks st)))).
    destruct (IH (S i) (g acc t0) (withTasks st (tasks st ++ [t0])))
      as (new & Hrun & Hlen & Hnth & Hnd).
    exists (t0 :: new). split; [|split; [|split]].
    + simpl. unfold bind at 1. unfold bind at 1. unfold task_create at 1.
      fold t0. unfold ret at 1. rewrite Hrun. simpl.
      now rewrite <- app_assoc.
    + simpl. now rewrite Hlen.
    + intros [|j] t Hj; simpl in Hj.
      * inversion Hj; subst. exists (freshId (map task_id (tasks st))).
        now rewrite Nat.add_0_r.
      * destruct (Hnth j t Hj) as (id & ->). exists id. f_equal. lia.
    + intros Huniq. simpl in Hnd.
      replace (tasks st ++ t0 :: new) with ((tasks st ++ [t0]) ++ new)
        by now rewrite <- app_assoc.
      apply Hnd. unfold taskIdsUnique. simpl.
      rewrite map_app. simpl. apply NoDup_app; [exact Huniq | | ].
      * constructor; [intros [] | constructor].
      * intros x Hx [<- | []]. unfold t0 in Hx. rewrite mk_id in Hx.
        now apply freshId_not_used in Hx.
Qed.

Lemma fold_left_push {A} (new acc : list A) :
  fold_left (fun acc t => acc ++ [t]) new acc = acc ++ new.
Proof.
  revert acc; induction new as [|x new IH]; intros acc; simpl.
  - now rewrite app_nil_r.
  - rewrite IH. now rewrite <- app_assoc.
Qed.

Lemma fold_left_unit {A} (new : list A) :
  fold_left (fun (_ : unit) (_ : A) => tt) new tt = tt.
Proof. induction new; simpl; auto. Qed.

Lemma newTask_id ct brand b c u k id : task_id (newTask ct brand b c u k id) = id.
Proof. reflexivity. Qed.

(** ** [generateTasks] *)

Lemma filter_filter {A} (f g : A -> bool) (l : list A) :
  filter f (filter g l) = filter (fun x => g x && f x) l.
Proof.
  induction l as [|x l IH]; simpl; [reflexivity|].
  destruct (g x); simpl; [destruct (f x)|]; now rewrite IH.
Qed.

Lemma calendar_findUnique_found calendarId st calendar :
  calendar_findUnique calendarId st = (st, Ok (Some calendar)) ->
  calendar_id (cw_calendar calendar) = calendarId /\
  forall ct,
    filter (fun t => (task_contentType t =? ct)%string) (cw_tasks calendar)
    = tasksOfType st calendarId ct.
Proof.
  unfold calendar_findUnique, findCalendar. intros H.
  destruct (find _ (calendars st)) as [c|] eqn:Hc; [|discriminate].
  destruct (findBrand st (calendar_brandId c)) as [b|]; [|discriminate].
  inversion H; subst; simpl. split.
  - apply find_some in Hc. now apply Nat.eqb_eq.
  - intros ct. unfold tasksOfType. now rewrite filter_filter.
Qed.

(** One round of the loop over the requested scopes. *)
Lemma generateForScope_run calendarId userId calendar sd created st :
  calendar_id (cw_calendar calendar) = calendarId ->
  let existing :=
    length (filter (fun t => (task_contentType t =? sd_contentType sd)%string)
              (cw_tasks calendar)) in
  exists st' new,
    generateForScope calendarId userId calendar sd created st
      = (st', Ok (created ++ new)) /\
    length new = neededTasks existing (sd_quantity sd) /\
    Forall (fun t => task_contentType t = sd_contentType sd /\
                     task_calendarId t = calendarId) new /\
    tasks st' = tasks st ++ new /\
    scopes st' =
      (if (neededTasks existing (sd_quantity sd) =? 0)%nat then scopes st
       else fst (upsertScopeRows (scopes st) calendarId
                   (sd_contentType sd) (sd_quantity sd))) /\
    brands st' = brands st /\ calendars st' = calendars st /\
    activityLog st' = activityLog st /\
    (neededTasks existing (sd_quantity sd) = 0%nat -> st' = st).
Proof.
  intros Hcal existing. unfold generateForScope. fold existing.
  unfold neededTasks.
  set (tasksToCreate := Z.max 0 (sd_quantity sd - Z.of_nat existing)).
  destruct (Z.eqb_spec tasksToCreate 0) as [Hz | Hnz].
  - exists st, []. rewrite Hz, app_nil_r. simpl.
    rewrite app_nil_r. repeat split; auto.
  - unfold bind at 1. unfold calendarScope_upsert at 1.
    destruct (upsertScopeRows (scopes st) calendarId (sd_contentType sd)
                (sd_quantity sd)) as [rows s] eqn:Hup.
    destruct (create_loop
                (fun i =>
                   newTask (sd_contentType sd) (brand_name (cw_brand calendar))
                     (calendar_brandId (cw_calendar calendar))
                     (calendar_id (cw_calendar calendar)) userId
                     (existing + i + 1))
                (fun acc t => acc ++ [t])
                (fun k id => eq_refl)
                (Z.to_nat tasksToCreate) 0%nat created (withScopes st rows))
      as (new & Hrun & Hlen & Hnth & _).
    exists (withTasks (withScopes st rows) (tasks st ++ new)), new.
    split.
    { rewrite fold_left_push in Hrun. exact Hrun. }
    split; [exact Hlen|].
    split.
    { apply Forall_forall. intros t Ht.
      destruct (In_nth_error _ _ Ht) as (j & Hj).
      destruct (Hnth j t Hj) as (id & ->). simpl. now split. }
    split; [reflexivity|].
    split.
    { simpl. replace (Z.to_nat tasksToCreate =? 0)%nat with false; [reflexivity|].
      symmetry. apply Nat.eqb_neq. unfold tasksToCreate in *. lia. }
    repeat split; auto.
    intros Hzero. unfold tasksToCreate in *. lia.
Qed.

(** The whole loop: one group of new tasks per requested scope, sized
    against the tasks the calendar had before the loop started. *)
Lemma generate_loop calendarId userId calendar st0 :
  calendar_id (cw_calendar calendar) = calendarId ->
  (forall ct,
     filter (fun t => (task_contentType t =? ct)%string) (cw_tasks calendar)
     = tasksOfType st0 calendarId ct) ->
  forall requests created st,
  exists st' groups,
    forOf requests (generateForScope calendarId userId calendar) created st
      = (st', Ok (created ++ concat groups)) /\
    Forall2
      (fun sd group =>
         length group =
           neededTasks (length (tasksOfType st0 calendarId (sd_contentType sd)))
             (sd_quantity sd) /\
         Forall (fun t => task_contentType t = sd_contentType sd /\
                          task_calendarId t = calendarId) group)
      requests groups /\
    tasks st' = tasks st ++ concat groups /\
    scopes st' = scopesAfterGenerate st0 calendarId requests (scopes st) /\
    brands st' = brands st /\ calendars st' = calendars st /\
    activityLog st' = activityLog st.
Proof.
  intros Hcal Hsnap requests.
  induction requests as [|sd requests IH]; intros created st.
  - exists st, []. simpl. rewrite !app_nil_r. repeat split; auto.
  - destruct (generateForScope_run calendarId userId calendar sd created st Hcal)
      as (st1 & new & Hrun & Hlen & Hall & Ht & Hs & Hb & Hc & Ha & _).
    rewrite Hsnap in Hlen, Hs.
    destruct (IH (created ++ new) st1)
      as (st2 & groups & Hrun2 & Hgroups & Ht2 & Hs2 & Hb2 & Hc2 & Ha2).
    exists st2, (new :: groups). simpl.
    split; [unfold bind; rewrite Hrun, Hrun2; now rewrite <- app_assoc|].
    split; [constructor; [split|]; assumption|].
    split; [rewrite Ht2, Ht; now rewrite <- app_assoc|].
    split; [rewrite Hs2, Hs; reflexivity|].
    repeat split; congruence.
Qed.

(** C5: for a calendar that exists, the bulk generation answers 201
    with the created tasks, which fall into one group per requested
    entry, in order; the group of an entry holds
    [max(0, quantity - existing)] tasks of its content type, [existing]
    being the calendar's count of that type before the request; the
    task table afterwards is the old one followed by the created tasks,
    so nothing is deleted; the scope rows are upserted for exactly the
    entries with a non-zero number, and the loop body leaves the store
    and the list of created tasks untouched for an entry whose number
    is zero. *)
Theorem generateTasks_additive calendarId userId requests st calendar :
  calendar_findUnique calendarId st = (st, Ok (Some calendar)) ->
  exists st' groups,
    generateTasks calendarId userId (Some requests) st =
      (st',
       Json 201
         (mkGenerated
            ("Generated " ++ numberToString (length (concat groups))
             ++ " new tasks")%string
            (concat groups))) /\
    Forall2
      (fun sd group =>
         Z.of_nat (length group) =
           Z.max 0
             (sd_quantity sd
              - Z.of_nat (length (tasksOfType st calendarId (sd_contentType sd))))
         /\ Forall (fun t => task_contentType t = sd_contentType sd /\
                             task_calendarId t = calendarId) group)
      requests groups /\
    tasks st' = tasks st ++ concat groups /\
    scopes st' = scopesAfterGenerate st calendarId requests (scopes st) /\
    (forall sd s created,
       Z.max 0
         (sd_quantity sd
          - Z.of_nat (length (tasksOfType st calendarId (sd_contentType sd)))) = 0 ->
       generateForScope calendarId userId calendar sd created s
       = (s, Ok created)).
Proof.
  intros Hfind.
  destruct (calendar_findUnique_found _ _ _ Hfind) as [Hcal Hsnap].
  destruct (generate_loop calendarId userId calendar st Hcal Hsnap requests [] st)
    as (st1 & groups & Hrun & Hgroups & Ht & Hs & _).
  exists (withActivityLog st1
            (activityLog st1 ++ [mkLog "GENERATE" "CalendarTasks" calendarId userId])),
         groups.
  split.
  { unfold generateTasks, respond, bind. rewrite Hfind, Hrun. reflexivity. }
  split.
  { eapply Forall2_impl; [|exact Hgroups].
    intros sd group [Hlen Hall]. split; [|exact Hall].
    rewrite Hlen. unfold neededTasks. lia. }
  split; [exact Ht|]. split; [exact Hs|].
  intros sd s created Hzero. unfold generateForScope.
  rewrite Hsnap, Hzero. reflexivity.
Qed.

Lemma generateTasks_additive_witness :
  exists st' groups,
    generateTasks 10 7
      (Some [mkScopeData "BLOG_POST" 4; mkScopeData "VIDEO" 0;
             mkScopeData "BLOG_POST" 5])
      Sample.blogOnly =
      (st',
       Json 201
         (mkGenerated
            ("Generated " ++ numberToString (length (concat groups))
             ++ " new tasks")%string
            (concat groups))) /\
    Forall2
      (fun sd group =>
         Z.of_nat (length group) =
           Z.max 0
             (sd_quantity sd
              - Z.of_nat (length (tasksOfType Sample.blogOnly 10
                                    (sd_contentType sd))))
         /\ Forall (fun t => task_contentType t = sd_contentType sd /\
                             task_calendarId t = 10%nat) group)
      [mkScopeData "BLOG_POST" 4; mkScopeData "VIDEO" 0;
       mkScopeData "BLOG_POST" 5]
      groups /\
    tasks st' = tasks Sample.blogOnly ++ concat groups /\
    scopes st' =
      scopesAfterGenerate Sample.blogOnly 10
        [mkScopeData "BLOG_POST" 4; mkScopeData "VIDEO" 0;
         mkScopeData "BLOG_POST" 5]
        (scopes Sample.blogOnly) /\
    (forall sd s created,
       Z.max 0
         (sd_quantity sd
          - Z.of_nat (length (tasksOfType Sample.blogOnly 10
                                (sd_contentType sd)))) = 0 ->
       generateForScope 10 7
         (mkCalendarWithTasks Sample.january Sample.acme
            (tasks Sample.blogOnly))
         sd created s
       = (s, Ok created)).
Proof.
  apply (generateTasks_additive 10 7
           [mkScopeData "BLOG_POST" 4; mkScopeData "VIDEO" 0;
            mkScopeData "BLOG_POST" 5]
           Sample.blogOnly
           (mkCalendarWithTasks Sample.january Sample.acme
              (tasks Sample.blogOnly))).
  reflexivity.
Defined.

(** Three blog posts exist: asking for four, then no video, then five
    blog posts creates one and then two tasks (both groups are counted
    from the three tasks found at the start), and only the blog scope
    is written. *)
Example generateTasks_sample :
  let st' := fst (generateTasks 10 7
                    (Some [mkScopeData "BLOG_POST" 4; mkScopeData "VIDEO" 0;
                           mkScopeData "BLOG_POST" 5])
                    Sample.blogOnly) in
  map task_title (tasks st') =
    ["BLOG POST #1"; "BLOG POST #2"; "BLOG POST #3";
     "BLOG POST #4"; "BLOG POST #4"; "BLOG POST #5"]%string
  /\ scopes st' = [mkScope 100 10 "BLOG_POST" 5 0].
Proof. split; vm_compute; reflexivity. Qed.

(** ** The migration batch *)

Lemma map_task_id_preserved (f : Task -> Task) (rows : list Task) :
  (forall x, task_id (f x) = task_id x) ->
  map task_id (map f rows) = map task_id rows.
Proof.
  intros Hf. rewrite map_map. apply map_ext. exact Hf.
Qed.

Lemma find_hasId_present id (rows : list Task) :
  In id (map task_id rows) -> exists t, find (hasId id) rows = Some t.
Proof.
  intros Hin. apply in_map_iff in Hin. destruct Hin as (t & Hid & Ht).
  destruct (find (hasId id) rows) as [t'|] eqn:Hfind; [now exists t'|].
  exfalso. apply (find_none _ _ Hfind) in Ht.
  unfold hasId in Ht. rewrite Hid, Nat.eqb_refl in Ht. discriminate.
Qed.

(** A selection of rows still has distinct ids. *)
Lemma filter_ids_distinct (keep : Task -> bool) (rows : list Task) :
  NoDup (map task_id rows) -> NoDup (map task_id (filter keep rows)).
Proof.
  intros Hnd. induction rows as [|r rows IH]; [exact Hnd|].
  simpl in Hnd. apply NoDup_cons_iff in Hnd. destruct Hnd as [Hr Hrows].
  simpl. destruct (keep r); [|now apply IH].
  simpl. apply NoDup_cons; [|now apply IH].
  intros Hin. apply Hr. apply in_map_iff in Hin.
  destruct Hin as (y & Hy & Hyin). apply filter_In in Hyin.
  apply in_map_iff. exists y. tauto.
Qed.

Lemma NoDup_app_disjoint {A} (l1 l2 : list A) (x : A) :
  NoDup (l1 ++ l2) -> In x l1 -> In x l2 -> False.
Proof.
  induction l1 as [|y l1 IH]; simpl; intros Hnd H1 H2; [contradiction|].
  inversion Hnd as [|? ? Hy Hrest]; subst.
  destruct H1 as [-> | H1]; [|now apply IH].
  apply Hy. apply in_or_app. now right.
Qed.

(** Rows with the same id are the same row. *)
Lemma same_id_same_row (rows : list Task) (x y : Task) :
  NoDup (map task_id rows) -> In x rows -> In y rows ->
  task_id x = task_id y -> x = y.
Proof.
  induction rows as [|r rows IH]; simpl; intros Hnd Hx Hy Hid; [contradiction|].
  inversion Hnd as [|? ? Hr Hrows]; subst.
  destruct Hx as [<- | Hx], Hy as [<- | Hy]; auto.
  - exfalso. apply Hr. rewrite Hid. now apply in_map.
  - exfalso. apply Hr. rewrite <- Hid. now apply in_map.
Qed.

Section Batch.

(** The [data] each update of the batch carries, computed from the
    task as it was fetched. *)
Variable data : Task -> Task -> Task.
Hypothesis data_id : forall m x, task_id (data m x) = task_id x.

Lemma applyUpdate_id x m : task_id (applyUpdate data x m) = task_id x.
Proof. unfold applyUpdate. destruct (hasId (task_id m) x); auto. Qed.

Lemma runAll_updates : forall (ms : list Task) (st : Store),
  incl (map task_id ms) (map task_id (tasks st)) ->
  exists results,
    runAll (map (fun m => task_update (task_id m) (data m)) ms) st =
    (withTasks st (map (fun x => fold_left (applyUpdate data) ms x) (tasks st)),
     Ok results).
Proof.
  induction ms as [|m ms IH]; intros st Hincl.
  - exists []. simpl. unfold ret. destruct st; simpl. now rewrite map_id.
  - assert (Hm : In (task_id m) (map task_id (tasks st)))
      by (apply Hincl; now left).
    destruct (find_hasId_present _ _ Hm) as (t & Hfind).
    set (st1 := withTasks st (map (fun x => applyUpdate data x m) (tasks st))).
    destruct (IH st1) as (results & Hrun).
    { unfold st1. simpl. rewrite map_task_id_preserved.
      - intros id Hid. apply Hincl. now right.
      - intros x. apply applyUpdate_id. }
    exists (data m t :: results).
    assert (Hupd : task_update (task_id m) (data m) st = (st1, Ok (data m t)))
      by (unfold task_update; rewrite Hfind; reflexivity).
    simpl. unfold bind. rewrite Hupd, Hrun. unfold ret. simpl.
    now rewrite map_map.
Qed.

Lemma fold_no_match (ms : list Task) (x : Task) :
  (forall m, In m ms -> task_id m <> task_id x) ->
  fold_left (applyUpdate data) ms x = x.
Proof.
  revert x. induction ms as [|m ms IH]; intros x Hno; simpl; [reflexivity|].
  unfold applyUpdate at 2. unfold hasId.
  replace (task_id x =? task_id m)%nat with false.
  - apply IH. intros m' Hm'. apply Hno. now right.
  - symmetry. apply Nat.eqb_neq. intros Heq. apply (Hno m); [now left | auto].
Qed.

Lemma fold_match (ms : list Task) (x : Task) :
  NoDup (map task_id ms) -> In x ms ->
  fold_left (applyUpdate data) ms x = data x x.
Proof.
  revert x. induction ms as [|m ms IH]; intros x Hnd Hin; [contradiction|].
  simpl in Hnd. inversion Hnd as [|? ? Hm Hms]; subst.
  simpl. destruct Hin as [-> | Hin].
  - unfold applyUpdate at 2. unfold hasId. rewrite Nat.eqb_refl.
    apply fold_no_match. intros m' Hm' Heq. rewrite data_id in Heq.
    apply Hm. rewrite <- Heq. now apply in_map.
  - unfold applyUpdate at 2. unfold hasId.
    replace (task_id x =? task_id m)%nat with false; [now apply IH|].
    symmetry. apply Nat.eqb_neq. intros Heq. apply Hm.
    rewrite <- Heq. now apply in_map.
Qed.

End Batch.

(** [$transaction] is all-or-nothing. *)
Lemma transaction_atomic {A} (ops : list (Prisma A)) (st : Store) :
  (exists st' results,
     runAll ops st = (st', Ok results) /\
     transaction ops st = (st', Ok results)) \/
  (exists e, transaction ops st = (st, Throw e)).
Proof.
  unfold transaction. destruct (runAll ops st) as [st' [results | e]].
  - left. now exists st', results.
  - right. now exists e.
Qed.

Lemma withMigration_id ct title desc row :
  task_id (withMigration ct title desc row) = task_id row.
Proof. reflexivity. Qed.

(** With distinct task ids the migration succeeds and rewrites exactly
    the rows of the calendar that have the old content type. *)
Lemma migrateTasks_run calendarId oldType newType st :
  taskIdsUnique st ->
  migrateTasks calendarId oldType newType st =
  (withTasks st (map (migrateRow calendarId oldType newType) (tasks st)), Ok tt).
Proof.
  intros Huniq.
  set (ms := filter (taskWhere calendarId oldType) (tasks st)).
  set (data := fun task : Task =>
         withMigration newType
           (migratedTitle oldType newType (task_title task))
           (migratedDescription oldType newType (task_description task))).
  destruct (runAll_updates data (fun m x => eq_refl) ms st) as (results & Hrun).
  { intros id Hid. apply in_map_iff in Hid. destruct Hid as (t & <- & Ht).
    apply in_map. unfold ms in Ht. now apply filter_In in Ht. }
  assert (Hstep : migrateTasks calendarId oldType newType st =
            match transaction
                    (map (fun m => task_update (task_id m) (data m)) ms) st with
            | (st', Ok _) => (st', Ok tt)
            | (st', Throw e) => (st', Throw e)
            end) by reflexivity.
  rewrite Hstep. unfold transaction. rewrite Hrun.
  f_equal. f_equal. apply map_ext_in. intros x Hx. unfold migrateRow.
  destruct (taskWhere calendarId oldType x) eqn:Hw.
  - apply (fold_match data (fun m x => eq_refl)).
    + unfold ms. now apply filter_ids_distinct.
    + unfold ms. apply filter_In. now split.
  - apply fold_no_match. intros m Hm Heq. unfold ms in Hm.
    apply filter_In in Hm. destruct Hm as [Hmin Hmw].
    assert (m = x) by (eapply same_id_same_row; eauto).
    subst. congruence.
Qed.

(** ** [updateScope] when the scope write goes through *)

(** The handler, cut after the migration: what remains is the quantity
    step, run on the store with the scope row written and the tasks
    migrated. *)
Lemma updateScope_steps nullsFirst scopeId userId quantity completed
  contentType st cur :
  taskIdsUnique st ->
  calendarScope_findUnique scopeId st = (st, Ok (Some cur)) ->
  (isTypeChangingOf contentType (sc_scope cur) = true ->
   scopeTaken st scopeId (scope_calendarId (sc_scope cur))
     (newContentTypeOf contentType (sc_scope cur)) = false) ->
  updateScope nullsFirst scopeId userId quantity completed contentType st =
  match reconcileQuantity nullsFirst cur
          (newContentTypeOf contentType (sc_scope cur)) userId
          (newQuantityOf quantity (sc_scope cur) - scope_quantity (sc_scope cur))
          (storeAfterMigration scopeId quantity completed contentType
             (sc_scope cur) st)
  with
  | (st3, Ok _) =>
      (st3, Json 200 (scopeAfterUpdate quantity completed contentType (sc_scope cur)))
  | (st3, Throw P2002) =>
      (st3, Message 400 "A scope with this content type already exists.")
  | (st3, Throw e) => (st3, Next e)
  end.
Proof.
  intros Huniq Hcur Hfree.
  pose proof (calendarScope_findUnique_found _ _ _ Hcur) as Hfind.
  set (current := sc_scope cur) in *.
  set (scope' := scopeAfterUpdate quantity completed contentType current).
  set (st1 := withScopes st
                (map (fun x => if hasScopeId scopeId x then scope' else x)
                   (scopes st))).
  assert (Hupd : calendarScope_update scopeId
                   (updateDataOf quantity completed contentType current) st
                 = (st1, Ok scope')).
  { unfold calendarScope_update. rewrite Hfind.
    unfold updateDataOf at 1. simpl upd_contentType.
    destruct (isTypeChangingOf contentType current);
      [rewrite Hfree by reflexivity|]; reflexivity. }
  assert (Hmig : (if isTypeChangingOf contentType current
                  then migrateTasks (scope_calendarId current)
                         (scope_contentType current)
                         (newContentTypeOf contentType current)
                  else ret tt) st1
                 = (storeAfterMigration scopeId quantity completed contentType
                      current st, Ok tt)).
  { unfold storeAfterMigration, tasksAfterMigration. fold scope'. fold st1.
    destruct (isTypeChangingOf contentType current).
    - now rewrite migrateTasks_run.
    - unfold ret, st1. destruct st; reflexivity. }
  unfold updateScope, respond, tryCatch. unfold bind at 1. rewrite Hcur.
  fold current. unfold bind at 1. rewrite Hupd.
  unfold bind at 1. rewrite Hmig.
  unfold bind at 1. fold (reconcileQuantity nullsFirst cur
    (newContentTypeOf contentType current) userId
    (newQuantityOf quantity current - scope_quantity current)).
  destruct (reconcileQuantity _ _ _ _ _ _) as [st3 [[] | e]]; [reflexivity|].
  destruct e; reflexivity.
Qed.

(** ** Case A: more tasks *)

Lemma charToLower_underscore c :
  Ascii.eqb "_" (charToLower c) = Ascii.eqb "_" c.
Proof. destruct c as [[] [] [] [] [] [] [] []]; reflexivity. Qed.

(** The description lower-cases before it replaces the underscore; the
    outcome is the lower-cased label. *)
Lemma typeString_toLowerCase ct :
  replaceFirst "_" " " (toLowerCase ct) = toLowerCase (typeString ct).
Proof.
  unfold typeString. induction ct as [|c ct IH]; [reflexivity|].
  cbn [toLowerCase mapString replaceFirst startsWith].
  fold (toLowerCase ct).
  rewrite charToLower_underscore.
  destruct (Ascii.eqb "_" c) eqn:Hc.
  - reflexivity.
  - cbn [andb toLowerCase mapString]. f_equal. exact IH.
Qed.

Lemma underscoresToSpaces_none s :
  underscoreCount s = 0%nat -> underscoresToSpaces s = s.
Proof.
  unfold underscoresToSpaces.
  induction s as [|c s IH]; simpl; intros H; [reflexivity|].
  destruct (Ascii.eqb c "_"); [discriminate|]. now rewrite IH.
Qed.

(** With at most one underscore, replacing the first one replaces them
    all. *)
Lemma typeString_single_underscore s :
  (underscoreCount s <= 1)%nat -> typeString s = underscoresToSpaces s.
Proof.
  unfold typeString.
  induction s as [|c s IH]; intros H; [reflexivity|].
  cbn [replaceFirst startsWith]. simpl in H.
  rewrite Ascii.eqb_sym.
  unfold underscoresToSpaces. cbn [mapString]. fold (underscoresToSpaces s).
  destruct (Ascii.eqb c "_") eqn:Hc.
  - simpl. f_equal. symmetry. apply underscoresToSpaces_none. lia.
  - cbn [andb]. f_equal. apply IH. lia.
Qed.

Lemma addTasks_run cur newType userId quantityDiff st :
  let calendarId := scope_calendarId (sc_scope cur) in
  let existingCount := length (tasksOfType st calendarId newType) in
  exists new,
    addTasks cur newType userId quantityDiff st
      = (withTasks st (tasks st ++ new), Ok tt) /\
    length new = Z.to_nat quantityDiff /\
    (forall i t, nth_error new i = Some t ->
       exists id,
         t = newTask newType (brand_name (sc_brand cur))
               (calendar_brandId (sc_calendar cur)) calendarId userId
               (existingCount + i + 1) id) /\
    (taskIdsUnique st -> NoDup (map task_id (tasks st ++ new))).
Proof.
  intros calendarId existingCount.
  destruct (create_loop
              (fun i =>
                 newTask newType (brand_name (sc_brand cur))
                   (calendar_brandId (sc_calendar cur)) calendarId userId
                   (existingCount + i + 1))
              (fun (_ : unit) (_ : Task) => tt)
              (fun k id => eq_refl)
              (Z.to_nat quantityDiff) 0%nat tt st)
    as (new & Hrun & Hlen & Hnth & Hnd).
  exists new. rewrite fold_left_unit in Hrun.
  split; [exact Hrun|]. split; [exact Hlen|]. split; [exact Hnth|exact Hnd].
Qed.

(** C1, as amended: when the scope write goes through, the requested
    quantity exceeds the scope's previous quantity by [diff > 0] and
    the new content type has at most one underscore, the handler
    answers with the updated scope and the task table is the table
    after migration followed by exactly [diff] new rows; the [i]-th of
    them (from 0) is titled with the label, [" #"] and
    [existingCount + i + 1], where the label is the stored content type
    with its underscore turned into a space, in the letter case in
    which it is stored, and [existingCount] counts the tasks of the new
    type in the calendar after the migration; it is described as
    ["Create <lower-cased label> for <brand name>"], has status TODO,
    priority MEDIUM, no publish date and no due date, and carries the
    new content type. *)
Theorem updateScope_increase_creates nullsFirst scopeId userId q completed
  contentType st cur :
  taskIdsUnique st ->
  calendarScope_findUnique scopeId st = (st, Ok (Some cur)) ->
  (isTypeChangingOf contentType (sc_scope cur) = true ->
   scopeTaken st scopeId (scope_calendarId (sc_scope cur))
     (newContentTypeOf contentType (sc_scope cur)) = false) ->
  0 < q - scope_quantity (sc_scope cur) ->
  (underscoreCount (newContentTypeOf contentType (sc_scope cur)) <= 1)%nat ->
  let current := sc_scope cur in
  let newType := newContentTypeOf contentType current in
  let label := underscoresToSpaces newType in
  let migrated := tasksAfterMigration contentType current (tasks st) in
  let existingCount :=
    length (filter (taskWhere (scope_calendarId current) newType) migrated) in
  exists st' new,
    updateScope nullsFirst scopeId userId (Some q) completed contentType st
      = (st', Json 200 (scopeAfterUpdate (Some q) completed contentType current)) /\
    scope_quantity (scopeAfterUpdate (Some q) completed contentType current) = q /\
    tasks st' = migrated ++ new /\
    Z.of_nat (length new) = q - scope_quantity current /\
    forall i t, nth_error new i = Some t ->
      task_title t
        = (label ++ " #" ++ numberToString (existingCount + i + 1))%string /\
      task_description t
        = Some ("Create " ++ toLowerCase label ++ " for "
                ++ brand_name (sc_brand cur))%string /\
      task_status t = "TODO"%string /\
      task_priority t = "MEDIUM"%string /\
      task_publishDate t = None /\
      task_dueDate t = None /\
      task_contentType t = newType /\
      task_calendarId t = scope_calendarId current /\
      ~ In (task_id t) (map task_id migrated).
Proof.
  intros Huniq Hcur Hfree Hdiff Hone current newType label migrated
    existingCount.
  assert (Hlabel : typeString newType = label)
    by (apply typeString_single_underscore; exact Hone).
  rewrite (updateScope_steps _ _ _ _ _ _ _ _ Huniq Hcur Hfree).
  fold current newType. unfold reconcileQuantity.
  change (newQuantityOf (Some q) current) with q.
  replace (q - scope_quantity current >? 0) with true
    by (symmetry; apply Z.gtb_lt; exact Hdiff).
  set (st2 := storeAfterMigration scopeId (Some q) completed contentType current st).
  destruct (addTasks_run cur newType userId (q - scope_quantity current) st2)
    as (new & Hrun & Hlen & Hnth & Hnd).
  rewrite Hrun. exists (withTasks st2 (tasks st2 ++ new)), new.
  split; [reflexivity|]. split; [reflexivity|]. split; [reflexivity|].
  split; [rewrite Hlen; apply Z2Nat.id; unfold current; lia|].
  intros i t Hi. destruct (Hnth i t Hi) as (id & Ht).
  assert (Hfresh : ~ In (task_id t) (map task_id migrated)).
  { assert (Hu2 : taskIdsUnique st2).
    { unfold taskIdsUnique, st2. simpl. unfold tasksAfterMigration.
      destruct (isTypeChangingOf contentType current); [|exact Huniq].
      rewrite map_task_id_preserved; [exact Huniq|].
      intros x. unfold migrateRow. now destruct (taskWhere _ _ x). }
    specialize (Hnd Hu2). rewrite map_app in Hnd.
    intros Hin. apply (NoDup_app_disjoint _ _ _ Hnd Hin).
    apply in_map. eapply nth_error_In; eassumption. }
  subst t. simpl. rewrite typeString_toLowerCase, Hlabel.
  repeat split; auto.
Qed.

Lemma sample_blogOnly_ids : taskIdsUnique Sample.blogOnly.
Proof.
  unfold taskIdsUnique. simpl.
  repeat constructor; simpl; intuition discriminate.
Qed.

Lemma updateScope_increase_creates_witness :
  let cur := mkScopeWithCalendar Sample.blogScope Sample.january Sample.acme in
  let current := sc_scope cur in
  let newType := newContentTypeOf None current in
  let label := underscoresToSpaces newType in
  let migrated := tasksAfterMigration None current (tasks Sample.blogOnly) in
  let existingCount :=
    length (filter (taskWhere (scope_calendarId current) newType) migrated) in
  exists st' new,
    updateScope true 100 7 (Some 5) None None Sample.blogOnly
      = (st', Json 200 (scopeAfterUpdate (Some 5) None None current)) /\
    scope_quantity (scopeAfterUpdate (Some 5) None None current) = 5 /\
    tasks st' = migrated ++ new /\
    Z.of_nat (length new) = 5 - scope_quantity current /\
    forall i t, nth_error new i = Some t ->
      task_title t
        = (label ++ " #" ++ numberToString (existingCount + i + 1))%string /\
      task_description t
        = Some ("Create " ++ toLowerCase label ++ " for "
                ++ brand_name (sc_brand cur))%string /\
      task_status t = "TODO"%string /\
      task_priority t = "MEDIUM"%string /\
      task_publishDate t = None /\
      task_dueDate t = None /\
      task_contentType t = newType /\
      task_calendarId t = scope_calendarId current /\
      ~ In (task_id t) (map task_id migrated).
Proof.
  apply (updateScope_increase_creates true 100 7 5 None None Sample.blogOnly
           (mkScopeWithCalendar Sample.blogScope Sample.january Sample.acme)).
  - exact sample_blogOnly_ids.
  - reflexivity.
  - intros _. reflexivity.
  - simpl. lia.
  - simpl. lia.
Defined.

(** C1 as the specification states it fails on its own scenario: with
    three blog posts and the quantity raised from 3 to 5 the two tasks
    created are titled in capitals, as the content type is stored, and
    not ["Blog post #4"] and ["Blog post #5"]. *)
Lemma updateScope_increase_title_counterexample :
  map task_title
    (skipn 3 (tasks (fst (updateScope true 100 7 (Some 5) None None
                            Sample.blogOnly))))
  = ["BLOG POST #4"; "BLOG POST #5"]%string
  /\ map task_title
       (skipn 3 (tasks (fst (updateScope true 100 7 (Some 5) None None
                               Sample.blogOnly))))
     <> ["Blog post #4"; "Blog post #5"]%string.
Proof.
  assert (H : map task_title
                (skipn 3 (tasks (fst (updateScope true 100 7 (Some 5) None None
                                        Sample.blogOnly))))
              = ["BLOG POST #4"; "BLOG POST #5"]%string)
    by (vm_compute; reflexivity).
  split; [exact H|]. rewrite H. discriminate.
Qed.

(** The scenario of the specification: three blog posts, quantity
    raised from 3 to 5.  Two tasks are added, numbered 4 and 5; the
    label is the stored content type with its underscore turned into a
    space, in capitals. *)
Example updateScope_increase_sample :
  let st' := fst (updateScope true 100 7 (Some 5) None None Sample.blogOnly) in
  map task_title (tasks st') =
    ["BLOG POST #1"; "BLOG POST #2"; "BLOG POST #3";
     "BLOG POST #4"; "BLOG POST #5"]%string
  /\ map task_description (skipn 3 (tasks st')) =
       [Some "Create blog post for Acme"; Some "Create blog post for Acme"]%string
  /\ map scope_quantity (scopes st') = [5].
Proof. repeat split; vm_compute; reflexivity. Qed.

(** A type change and an increase in one request: the three blog tasks
    are first turned into video tasks, so with the video task already
    there the count is four and the two new tasks are numbered 5
    and 6. *)
Example updateScope_increase_after_migration :
  let st' := fst (updateScope true 100 7 (Some 5) None (Some "VIDEO"%string)
                    Sample.blogAndStrayVideo) in
  map task_title (tasks st') =
    ["Video #1"; "Video #2"; "Video #3"; "VIDEO #1"; "VIDEO #5"; "VIDEO #6"]%string
  /\ map task_contentType (tasks st') =
       ["VIDEO"; "VIDEO"; "VIDEO"; "VIDEO"; "VIDEO"; "VIDEO"]%string.
Proof. split; vm_compute; reflexivity. Qed.

(** A content type with two underscores keeps the second one in the
    title. *)
Example newTask_two_underscores :
  task_title (newTask "SOCIAL_MEDIA_POST" "Acme" 1 10 7 1 300)
  = "SOCIAL MEDIA_POST #1"%string.
Proof. reflexivity. Qed.

(** ** Case B: fewer tasks *)

Lemma insertSorted_perm {A} (cmp : A -> A -> Z) x l :
  Permutation (x :: l) (insertSorted cmp x l).
Proof.
  induction l as [|y l IH]; simpl; [apply Permutation_refl|].
  destruct (cmp x y <=? 0); [apply Permutation_refl|].
  eapply perm_trans; [apply perm_swap|]. now apply perm_skip.
Qed.

Lemma jsSort_perm {A} (cmp : A -> A -> Z) l : Permutation l (jsSort cmp l).
Proof.
  induction l as [|x l IH]; simpl; [constructor|].
  eapply perm_trans; [apply perm_skip, IH | apply insertSorted_perm].
Qed.

Lemma insertSorted_front {A} (cmp : A -> A -> Z) x l :
  Forall (fun y => cmp x y <= 0) l -> insertSorted cmp x l = x :: l.
Proof.
  destruct l as [|y l]; simpl; [reflexivity|].
  intros H. inversion H; subst. now replace (cmp x y <=? 0) with true by lia.
Qed.

Lemma insertSorted_skip {A} (cmp : A -> A -> Z) x l1 l2 :
  Forall (fun y => 0 < cmp x y) l1 ->
  insertSorted cmp x (l1 ++ l2) = l1 ++ insertSorted cmp x l2.
Proof.
  induction l1 as [|y l1 IH]; simpl; intros H; [reflexivity|].
  inversion H; subst. replace (cmp x y <=? 0) with false by lia.
  now rewrite IH.
Qed.

Lemma statusScore_range t :
  statusScore t = 2 \/ statusScore t = 1 \/ statusScore t = 0.
Proof.
  unfold statusScore.
  destruct (task_status t =? "TODO")%string; [now left|].
  destruct (task_status t =? "IN_PROGRESS")%string; [right; now left|].
  right; now right.
Qed.

Lemma hasScore_filter_Forall k (P : Task -> Prop) l :
  (forall t, statusScore t = k -> P t) -> Forall P (filter (hasScore k) l).
Proof.
  intros H. apply Forall_forall. intros t Ht. apply filter_In in Ht.
  apply H. destruct Ht as [_ Ht]. unfold hasScore in Ht. lia.
Qed.

(** The stable sort by descending score lines up the three groups. *)
Lemma jsSort_byScoreDesc l : jsSort byScoreDesc l = deletionOrder l.
Proof.
  unfold deletionOrder. induction l as [|x l IH]; [reflexivity|].
  simpl jsSort. rewrite IH. simpl filter.
  assert (Hk : forall k, hasScore k x = (statusScore x =? k)) by reflexivity.
  rewrite !Hk.
  assert (Hcmp : forall y, byScoreDesc x y = statusScore y - statusScore x)
    by reflexivity.
  destruct (statusScore_range x) as [Hx | [Hx | Hx]]; rewrite Hx; simpl.
  - apply insertSorted_front.
    repeat (apply Forall_app; split); apply hasScore_filter_Forall;
      intros t Ht; rewrite Hcmp; lia.
  - rewrite insertSorted_skip, insertSorted_front; [reflexivity| |].
    + apply Forall_app; split; apply hasScore_filter_Forall;
        intros t Ht; rewrite Hcmp; lia.
    + apply hasScore_filter_Forall; intros t Ht; rewrite Hcmp; lia.
  - rewrite app_assoc, insertSorted_skip, insertSorted_front.
    + now rewrite <- app_assoc.
    + apply hasScore_filter_Forall; intros t Ht; rewrite Hcmp; lia.
    + apply Forall_app; split; apply hasScore_filter_Forall;
        intros t Ht; rewrite Hcmp; lia.
Qed.

Lemma idIn_spec ids t : idIn ids t = true <-> In (task_id t) ids.
Proof.
  unfold idIn. rewrite existsb_exists. split.
  - intros (id & Hin & Heq). apply Nat.eqb_eq in Heq. now rewrite Heq.
  - intros Hin. exists (task_id t). split; [exact Hin | apply Nat.eqb_refl].
Qed.

Lemma filter_split_perm {A} (p : A -> bool) (l : list A) :
  Permutation l (filter p l ++ filter (fun x => negb (p x)) l).
Proof.
  induction l as [|x l IH]; simpl; [constructor|].
  destruct (p x); simpl.
  - now apply perm_skip.
  - now apply Permutation_cons_app.
Qed.

Lemma NoDup_of_ids (rows : list Task) : NoDup (map task_id rows) -> NoDup rows.
Proof. apply NoDup_map_inv. Qed.

(** Deleting by the ids of rows of the table removes exactly those
    rows, provided ids are not shared. *)
Lemma delete_exactly (rows doomed : list Task) :
  NoDup (map task_id rows) -> NoDup doomed -> incl doomed rows ->
  Permutation rows
    (doomed ++ filter (fun t => negb (idIn (map task_id doomed) t)) rows).
Proof.
  intros Hids Hnd Hincl.
  eapply perm_trans; [apply (filter_split_perm (idIn (map task_id doomed)))|].
  apply Permutation_app_tail. apply NoDup_Permutation.
  - apply NoDup_filter. now apply NoDup_of_ids.
  - exact Hnd.
  - intros x. rewrite filter_In, idIn_spec. split.
    + intros [Hx Hid]. apply in_map_iff in Hid. destruct Hid as (d & Hd & Hdin).
      assert (d = x) by (eapply same_id_same_row; eauto). now subst.
    + intros Hx. split; [now apply Hincl | now apply in_map].
Qed.

Lemma filter_keep_all (rows : list Task) :
  filter (fun t => negb (idIn [] t)) rows = rows.
Proof.
  induction rows as [|x rows IH]; [reflexivity|].
  simpl. f_equal. exact IH.
Qed.

Lemma removeTasks_run nullsFirst cur newType quantityDiff st :
  let calendarId := scope_calendarId (sc_scope cur) in
  let retrieved :=
    jsSort (publishDateDesc nullsFirst) (tasksOfType st calendarId newType) in
  let doomed := firstn (Z.to_nat (Z.abs quantityDiff)) (deletionOrder retrieved) in
  removeTasks nullsFirst cur newType quantityDiff st =
  (withTasks st (filter (fun t => negb (idIn (map task_id doomed) t)) (tasks st)),
   Ok tt).
Proof.
  intros calendarId retrieved doomed.
  unfold removeTasks, bind, task_findMany_publishDateDesc, slice0.
  fold calendarId. fold (tasksOfType st calendarId newType). fold retrieved.
  rewrite jsSort_byScoreDesc. fold doomed.
  destruct (map task_id doomed) as [|id ids] eqn:Hids.
  - simpl. unfold ret. destruct st; simpl. now rewrite filter_keep_all.
  - reflexivity.
Qed.

(** The retrieval query returns its rows by publish date, latest
    first. *)
Lemma publishDateDesc_total nullsFirst a b :
  publishDateDesc nullsFirst a b <= 0 \/ publishDateDesc nullsFirst b a <= 0.
Proof.
  unfold publishDateDesc.
  destruct (task_publishDate a), (task_publishDate b), nullsFirst; lia.
Qed.

Lemma publishDateDesc_trans nullsFirst a b c :
  publishDateDesc nullsFirst a b <= 0 -> publishDateDesc nullsFirst b c <= 0 ->
  publishDateDesc nullsFirst a c <= 0.
Proof.
  unfold publishDateDesc.
  destruct (task_publishDate a), (task_publishDate b), (task_publishDate c),
    nullsFirst; lia.
Qed.

Section SortedOutput.

Context {A : Type} (cmp : A -> A -> Z).
Hypothesis cmp_total : forall a b, cmp a b <= 0 \/ cmp b a <= 0.
Hypothesis cmp_trans :
  forall a b c, cmp a b <= 0 -> cmp b c <= 0 -> cmp a c <= 0.

Lemma insertSorted_sorted x l :
  StronglySorted (fun a b => cmp a b <= 0) l ->
  StronglySorted (fun a b => cmp a b <= 0) (insertSorted cmp x l).
Proof.
  induction l as [|y l IH]; simpl; intros Hs.
  - repeat constructor.
  - inversion Hs as [|? ? Hl Hy]; subst.
    destruct (Z.leb_spec (cmp x y) 0) as [Hle | Hgt].
    + constructor; [exact Hs|]. constructor; [exact Hle|].
      rewrite Forall_forall in *. intros z Hz. eauto.
    + constructor; [now apply IH|].
      apply Forall_forall. intros z Hz.
      apply (Permutation_in _ (Permutation_sym (insertSorted_perm cmp x l))) in Hz.
      destruct Hz as [<- | Hz].
      * destruct (cmp_total x y); lia.
      * rewrite Forall_forall in Hy. auto.
Qed.

Lemma jsSort_sorted l : StronglySorted (fun a b => cmp a b <= 0) (jsSort cmp l).
Proof.
  induction l as [|x l IH]; simpl; [constructor | now apply insertSorted_sorted].
Qed.

End SortedOutput.

Lemma taskWhere_spec calendarId contentType t :
  taskWhere calendarId contentType t = true <->
  task_calendarId t = calendarId /\ task_contentType t = contentType.
Proof.
  unfold taskWhere. now rewrite andb_true_iff, Nat.eqb_eq, String.eqb_eq.
Qed.

Lemma tasksAfterMigration_ids contentType current rows :
  map task_id (tasksAfterMigration contentType current rows) = map task_id rows.
Proof.
  unfold tasksAfterMigration.
  destruct (isTypeChangingOf contentType current); [|reflexivity].
  apply map_task_id_preserved. intros x. unfold migrateRow.
  now destruct (taskWhere _ _ x).
Qed.

Lemma deletionOrder_perm l : Permutation l (deletionOrder l).
Proof. rewrite <- jsSort_byScoreDesc. apply jsSort_perm. Qed.

(** C2: when the scope write goes through and the requested quantity
    is below the scope's previous quantity, the tasks deleted are the
    first [|diff|] of the candidates (the calendar's tasks of the new
    content type, after migration) taken TODO first, then IN_PROGRESS,
    then the rest, each group in the order of the retrieval by publish
    date descending.  Exactly those rows leave the table, there are
    [min(|diff|, number of candidates)] of them, all of the new content
    type, and no task of another content type is removed. *)
Theorem updateScope_decrease_deletes nullsFirst scopeId userId q completed
  contentType st cur :
  taskIdsUnique st ->
  calendarScope_findUnique scopeId st = (st, Ok (Some cur)) ->
  (isTypeChangingOf contentType (sc_scope cur) = true ->
   scopeTaken st scopeId (scope_calendarId (sc_scope cur))
     (newContentTypeOf contentType (sc_scope cur)) = false) ->
  q - scope_quantity (sc_scope cur) < 0 ->
  let current := sc_scope cur in
  let newType := newContentTypeOf contentType current in
  let migrated := tasksAfterMigration contentType current (tasks st) in
  let candidates := filter (taskWhere (scope_calendarId current) newType) migrated in
  let retrieved := jsSort (publishDateDesc nullsFirst) candidates in
  let deleted :=
    firstn (Z.to_nat (scope_quantity current - q)) (deletionOrder retrieved) in
  exists st',
    updateScope nullsFirst scopeId userId (Some q) completed contentType st
      = (st', Json 200 (scopeAfterUpdate (Some q) completed contentType current)) /\
    tasks st' = filter (fun t => negb (idIn (map task_id deleted) t)) migrated /\
    Permutation migrated (deleted ++ tasks st') /\
    length deleted
      = Nat.min (Z.to_nat (scope_quantity current - q)) (length candidates) /\
    Forall (fun t => task_contentType t = newType /\
                     task_calendarId t = scope_calendarId current) deleted /\
    (forall t, In t migrated -> task_contentType t <> newType -> In t (tasks st')) /\
    Permutation candidates retrieved /\
    StronglySorted (fun a b => publishDateDesc nullsFirst a b <= 0) retrieved /\
    (forall t, (task_status t = "TODO"%string -> statusScore t = 2) /\
               (task_status t = "IN_PROGRESS"%string -> statusScore t = 1) /\
               (task_status t = "COMPLETED"%string -> statusScore t = 0)).
Proof.
  intros Huniq Hcur Hfree Hdiff current newType migrated candidates retrieved
    deleted.
  rewrite (updateScope_steps _ _ _ _ _ _ _ _ Huniq Hcur Hfree).
  fold current newType. unfold reconcileQuantity.
  change (newQuantityOf (Some q) current) with q.
  replace (q - scope_quantity current >? 0) with false
    by (symmetry; rewrite Z.gtb_ltb; apply Z.ltb_ge; unfold current; lia).
  replace (q - scope_quantity current <? 0) with true
    by (symmetry; apply Z.ltb_lt; exact Hdiff).
  rewrite removeTasks_run.
  replace (Z.abs (q - scope_quantity current)) with (scope_quantity current - q)
    by (unfold current; lia).
  set (st2 := storeAfterMigration scopeId (Some q) completed contentType current st).
  change (tasksOfType st2 (scope_calendarId (sc_scope cur)) newType)
    with candidates.
  fold retrieved. fold deleted.
  change (tasks st2) with migrated.
  assert (Hids : NoDup (map task_id migrated)).
  { unfold migrated. rewrite tasksAfterMigration_ids. exact Huniq. }
  assert (Hretr : Permutation candidates retrieved) by apply jsSort_perm.
  assert (Hord : Permutation candidates (deletionOrder retrieved)).
  { eapply perm_trans; [exact Hretr | apply deletionOrder_perm]. }
  assert (Hincl : incl deleted candidates).
  { intros x Hx. apply firstn_incl in Hx.
    now apply (Permutation_in _ (Permutation_sym Hord)). }
  assert (Hcand : incl candidates migrated).
  { intros x Hx. unfold candidates in Hx. now apply filter_In in Hx. }
  assert (Hnd : NoDup deleted).
  { apply firstn_NoDup. apply (Permutation_NoDup Hord).
    apply NoDup_filter. now apply NoDup_of_ids. }
  assert (Hall : Forall (fun t => task_contentType t = newType /\
                           task_calendarId t = scope_calendarId current) deleted).
  { apply Forall_forall. intros t Ht. apply Hincl in Ht.
    unfold candidates in Ht. apply filter_In in Ht. destruct Ht as [_ Hw].
    apply taskWhere_spec in Hw. tauto. }
  eexists. split; [reflexivity|]. simpl tasks.
  split; [reflexivity|].
  split.
  { apply delete_exactly; auto. intros x Hx. auto. }
  split.
  { unfold deleted. rewrite length_firstn.
    now rewrite <- (Permutation_length Hord). }
  split; [exact Hall|].
  split.
  { intros t Ht Hother. apply filter_In. split; [exact Ht|].
    apply negb_true_iff. destruct (idIn (map task_id deleted) t) eqn:Hin; [|reflexivity].
    exfalso. apply idIn_spec in Hin. apply in_map_iff in Hin.
    destruct Hin as (d & Hd & Hdin).
    assert (d = t) by (eapply same_id_same_row; eauto). subst d.
    rewrite Forall_forall in Hall. apply Hother. now apply Hall. }
  split; [exact Hretr|].
  split.
  { apply jsSort_sorted.
    - apply publishDateDesc_total.
    - apply publishDateDesc_trans. }
  intros t. unfold statusScore. repeat split; intros ->; reflexivity.
Qed.

Lemma updateScope_decrease_deletes_witness :
  let cur := mkScopeWithCalendar Sample.blogScope Sample.january Sample.acme in
  let current := sc_scope cur in
  let newType := newContentTypeOf None current in
  let migrated := tasksAfterMigration None current (tasks Sample.blogOnly) in
  let candidates := filter (taskWhere (scope_calendarId current) newType) migrated in
  let retrieved := jsSort (publishDateDesc true) candidates in
  let deleted :=
    firstn (Z.to_nat (scope_quantity current - 1)) (deletionOrder retrieved) in
  exists st',
    updateScope true 100 7 (Some 1) None None Sample.blogOnly
      = (st', Json 200 (scopeAfterUpdate (Some 1) None None current)) /\
    tasks st' = filter (fun t => negb (idIn (map task_id deleted) t)) migrated /\
    Permutation migrated (deleted ++ tasks st') /\
    length deleted
      = Nat.min (Z.to_nat (scope_quantity current - 1)) (length candidates) /\
    Forall (fun t => task_contentType t = newType /\
                     task_calendarId t = scope_calendarId current) deleted /\
    (forall t, In t migrated -> task_contentType t <> newType -> In t (tasks st')) /\
    Permutation candidates retrieved /\
    StronglySorted (fun a b => publishDateDesc true a b <= 0) retrieved /\
    (forall t, (task_status t = "TODO"%string -> statusScore t = 2) /\
               (task_status t = "IN_PROGRESS"%string -> statusScore t = 1) /\
               (task_status t = "COMPLETED"%string -> statusScore t = 0)).
Proof.
  apply (updateScope_decrease_deletes true 100 7 1 None None Sample.blogOnly
           (mkScopeWithCalendar Sample.blogScope Sample.january Sample.acme)).
  - exact sample_blogOnly_ids.
  - reflexivity.
  - intros _. reflexivity.
  - simpl. lia.
Defined.

(** The scenario of the specification: quantity lowered from 3 to 1.
    The TODO task goes first, then the one in progress; the completed
    task stays.  The video task of the larger sample is not touched. *)
Example updateScope_decrease_sample :
  map task_id (tasks (fst (updateScope true 100 7 (Some 1) None None
                             Sample.blogOnly))) = [201%nat]
  /\ map task_id (tasks (fst (updateScope false 100 7 (Some 0) None None
                                Sample.blogAndVideo))) = [204%nat].
Proof. split; vm_compute; reflexivity. Qed.

(** ** Type change alone *)







(** The scenario of the specification: BLOG_POST becomes VIDEO with the
    quantity left at 3.  The three tasks are relabelled and renamed in
    place. *)
Example updateScope_type_change_sample :
  let st' := fst (updateScope true 100 7 None None (Some "VIDEO"%string)
                    Sample.blogOnly) in
  map (fun t => (task_id t, task_contentType t, task_title t, task_description t))
      (tasks st')
  = [(201%nat, "VIDEO", "Video #1", Some "Create video for Acme");
     (202%nat, "VIDEO", "Video #2", Some "Create video for Acme");
     (203%nat, "VIDEO", "Video #3", Some "Create video for Acme")]%string.
Proof. vm_compute. reflexivity. Qed.

(** The batch for the three blog tasks, run after task 202 has been
    deleted by someone else: the update of task 201 is undone as well,
    the table is as the batch found it. *)
Example transaction_rolls_back :
  transaction
    (migrationUpdates "BLOG_POST" "VIDEO" (tasks Sample.blogOnly))
    (withTasks Sample.blogOnly
       (filter (fun t => negb (hasId 202 t)) (tasks Sample.blogOnly)))
  = (withTasks Sample.blogOnly
       (filter (fun t => negb (hasId 202 t)) (tasks Sample.blogOnly)),
     Throw P2025)
  /\ map task_title
       (tasks (fst (runAll
                      (migrationUpdates "BLOG_POST" "VIDEO"
                         (tasks Sample.blogOnly))
                      (withTasks Sample.blogOnly
                         (filter (fun t => negb (hasId 202 t))
                            (tasks Sample.blogOnly))))))
     = ["Video #1"; "BLOG POST #3"]%string.
Proof. split; vm_compute; reflexivity. Qed.

(** ** Rewriting titles and descriptions *)

Local Open Scope string_scope.

Lemma takeStr_dropStr n s : takeStr n s ++ dropStr n s = s.
Proof.
  revert s; induction n as [|n IH]; intros [|c s]; simpl; try reflexivity.
  now rewrite IH.
Qed.

Lemma dropStr_length n s : (String.length (dropStr n s) <= String.length s)%nat.
Proof.
  revert s; induction n as [|n IH]; intros [|c s]; simpl; auto.
Qed.

Lemma matchesAtCI_takeStr p : forall s,
  matchesAtCI p s = true -> sameIgnoringCase (takeStr (String.length p) s) p.
Proof.
  unfold sameIgnoringCase.
  induction p as [|a p IH]; intros s Hm; [reflexivity|].
  destruct s as [|b s]; [discriminate|].
  simpl in Hm. apply andb_true_iff in Hm. destruct Hm as [Hab Hm].
  apply Ascii.eqb_eq in Hab. simpl.
  unfold toUpperCase in *. simpl. now rewrite Hab, (IH s Hm).
Qed.

Lemma occursAtHead_matchesAtCI p : forall s,
  occursAtHead p s -> matchesAtCI p s = true.
Proof.
  unfold occursAtHead, sameIgnoringCase, toUpperCase.
  induction p as [|a p IH]; intros s (m & rest & Hs & Hm); [reflexivity|].
  destruct m as [|b m]; [discriminate|].
  simpl in Hm. injection Hm as Hb Hm.
  subst s. simpl. rewrite Hb, Ascii.eqb_refl. simpl.
  apply IH. now exists m, rest.
Qed.

Lemma regexReplaceFrom_skip p f : forall s k,
  regexReplaceFrom p f k s = regexReplaceFrom p f 0 (dropStr k s).
Proof.
  induction s as [|c s IH]; intros [|k]; try reflexivity.
  simpl dropStr. rewrite <- IH. reflexivity.
Qed.

Lemma regexReplaceGI_Rewritten p f :
  p <> "" -> forall s, Rewritten p f s (regexReplaceGI p f s).
Proof.
  intros Hp s. unfold regexReplaceGI.
  remember (String.length s) as n eqn:Hn.
  assert (Hle : (String.length s <= n)%nat) by lia. clear Hn.
  revert s Hle. induction n as [|n IH]; intros s Hle.
  - destruct s; [constructor | simpl in Hle; lia].
  - destruct s as [|c s]; [constructor|].
    simpl in Hle.
    change (regexReplaceFrom p f 0 (String c s)) with
      (if matchesAtCI p (String c s)
       then f (takeStr (String.length p) (String c s))
              ++ regexReplaceFrom p f (String.length p - 1) s
       else String c (regexReplaceFrom p f 0 s)).
    destruct (matchesAtCI p (String c s)) eqn:Hm.
    + rewrite regexReplaceFrom_skip.
      assert (Hdrop : dropStr (String.length p - 1) s
                      = dropStr (String.length p) (String c s)).
      { destruct p as [|a p]; [congruence|]. simpl. now rewrite Nat.sub_0_r. }
      rewrite Hdrop.
      rewrite <- (takeStr_dropStr (String.length p) (String c s)) at 1.
      apply Rewritten_match.
      * now apply matchesAtCI_takeStr.
      * apply IH. rewrite <- Hdrop.
        pose proof (dropStr_length (String.length p - 1) s). lia.
    + apply Rewritten_keep.
      * intros Hocc. apply occursAtHead_matchesAtCI in Hocc. congruence.
      * apply IH. lia.
Qed.

Lemma typeString_nonempty s : s <> "" -> typeString s <> "".
Proof.
  unfold typeString. destruct s as [|c s]; [congruence|]. intros _.
  cbn [replaceFirst startsWith]. destruct (Ascii.eqb "_" c); discriminate.
Qed.

(** C8, as amended: with the label of a content type being the stored
    name with its first underscore turned into a space (all of them,
    when the name has at most one), the new title is the old one with
    every occurrence of the old label, in any case, replaced: by the new
    label capitalized (first letter upper-case, the rest lower-case)
    when the first character of the occurrence is its own upper-case,
    by the lower-cased new label otherwise.  In the description every
    occurrence is replaced by the lower-cased new label whatever its
    case, and a missing description gives the empty string. *)
Theorem migration_rewrites_title_and_description
  (oldType newType title : string) (description : option string) :
  oldType <> "" ->
  let oldLabel := typeString oldType in
  let newLabel := typeString newType in
  let capitalized :=
    toUpperCase (charAt0 newLabel) ++ toLowerCase (slice1 newLabel) in
  Rewritten oldLabel
    (fun m => if (charAt0 m =? toUpperCase (charAt0 m))%string
              then capitalized else toLowerCase newLabel)
    title (migratedTitle oldType newType title) /\
  (forall d, description = Some d ->
     Rewritten oldLabel (fun _ => toLowerCase newLabel)
       d (migratedDescription oldType newType description)) /\
  (description = None -> migratedDescription oldType newType description = "") /\
  ((underscoreCount oldType <= 1)%nat -> oldLabel = underscoresToSpaces oldType) /\
  ((underscoreCount newType <= 1)%nat -> newLabel = underscoresToSpaces newType).
Proof.
  intros Hold oldLabel newLabel capitalized.
  assert (Hlabel : oldLabel <> "") by now apply typeString_nonempty.
  split; [apply (regexReplaceGI_Rewritten oldLabel _ Hlabel)|].
  split.
  { intros d ->. destruct d as [|c d]; [constructor|].
    apply (regexReplaceGI_Rewritten oldLabel _ Hlabel). }
  split; [intros ->; reflexivity|].
  split; apply typeString_single_underscore.
Qed.

Lemma migration_rewrites_title_and_description_witness :
  let oldLabel := typeString "BLOG_POST" in
  let newLabel := typeString "VIDEO" in
  let capitalized :=
    toUpperCase (charAt0 newLabel) ++ toLowerCase (slice1 newLabel) in
  Rewritten oldLabel
    (fun m => if (charAt0 m =? toUpperCase (charAt0 m))%string
              then capitalized else toLowerCase newLabel)
    "Blog Post draft" (migratedTitle "BLOG_POST" "VIDEO" "Blog Post draft") /\
  (forall d, Some "Create blog post for Acme" = Some d ->
     Rewritten oldLabel (fun _ => toLowerCase newLabel)
       d (migratedDescription "BLOG_POST" "VIDEO"
            (Some "Create blog post for Acme"))) /\
  (Some "Create blog post for Acme" = None ->
   migratedDescription "BLOG_POST" "VIDEO" (Some "Create blog post for Acme") = "") /\
  ((underscoreCount "BLOG_POST" <= 1)%nat ->
   oldLabel = underscoresToSpaces "BLOG_POST") /\
  ((underscoreCount "VIDEO" <= 1)%nat -> newLabel = underscoresToSpaces "VIDEO").
Proof.
  apply (migration_rewrites_title_and_description "BLOG_POST" "VIDEO"
           "Blog Post draft" (Some "Create blog post for Acme")).
  discriminate.
Defined.

(** The two rewrites the specification lists, and a missing
    description. *)
Example migratedTitle_samples :
  migratedTitle "BLOG_POST" "VIDEO" "Blog Post draft" = "Video draft"
  /\ migratedTitle "BLOG_POST" "VIDEO" "a blog post" = "a video"
  /\ migratedDescription "BLOG_POST" "VIDEO" None = ""
  /\ migratedDescription "BLOG_POST" "VIDEO" (Some "Create blog post for Acme")
     = "Create video for Acme".
Proof. repeat split; vm_compute; reflexivity. Qed.

(** C8 as stated fails for the description: its replacement is the
    lower-cased label whatever the case of the occurrence, so a
    description does not come out as the title's rewriting would make
    it. *)
Lemma migratedDescription_case_counterexample :
  migratedDescription "BLOG_POST" "VIDEO" (Some "Blog Post draft") = "video draft"
  /\ regexReplaceGI (typeString "BLOG_POST") (titleReplacement (typeString "VIDEO"))
       "Blog Post draft" = "Video draft"
  /\ migratedDescription "BLOG_POST" "VIDEO" (Some "Blog Post draft")
     <> regexReplaceGI (typeString "BLOG_POST")
          (titleReplacement (typeString "VIDEO")) "Blog Post draft".
Proof.
  split; [vm_compute; reflexivity|].
  split; [vm_compute; reflexivity|].
  vm_compute. discriminate.
Qed.

(** Only the first underscore of a content type becomes a space. *)
Example typeString_two_underscores :
  typeString "SOCIAL_MEDIA_POST" = "SOCIAL MEDIA_POST".
Proof. reflexivity. Qed.

Local Close Scope string_scope.

(* ================================================================== *)
(** * Part III: further properties of the handlers *)
(* ================================================================== *)

(** ** [updateScope]: every way the handler can end *)

Lemma calendarScope_findUnique_reads scopeId st :
  exists found, calendarScope_findUnique scopeId st = (st, Ok found).
Proof. unfold calendarScope_findUnique. eexists. reflexivity. Qed.

(** A scope that is not there (the lookup gives nothing) is answered
    with 404 and the store is the one the handler started from. *)
Lemma updateScope_missing nullsFirst scopeId userId quantity completed
  contentType st :
  calendarScope_findUnique scopeId st = (st, Ok None) ->
  updateScope nullsFirst scopeId userId quantity completed contentType st
  = (st, Message 404 "Scope not found").
Proof.
  intros Hnone. unfold updateScope, respond, tryCatch, bind.
  rewrite Hnone. reflexivity.
Qed.

(** The refused scope write, whatever the rest of the request. *)
Lemma updateScope_refused nullsFirst scopeId userId quantity completed
  contentType st cur :
  calendarScope_findUnique scopeId st = (st, Ok (Some cur)) ->
  isTypeChangingOf contentType (sc_scope cur) = true ->
  scopeTaken st scopeId (scope_calendarId (sc_scope cur))
    (newContentTypeOf contentType (sc_scope cur)) = true ->
  updateScope nullsFirst scopeId userId quantity completed contentType st
  = (st, Message 400 "A scope with this content type already exists.").
Proof.
  intros Hcur Hchg Htaken.
  pose proof (calendarScope_findUnique_found _ _ _ Hcur) as Hfind.
  unfold updateScope, respond, tryCatch, bind. rewrite Hcur.
  unfold calendarScope_update. rewrite Hfind.
  unfold updateDataOf at 1. cbn [upd_contentType]. rewrite Hchg, Htaken.
  reflexivity.
Qed.

(** The quantity step never throws; it leaves every table but the
    tasks alone, and the tasks change by appending rows of the scope's
    calendar and new type, by deleting rows by id, or not at all. *)
Lemma reconcileQuantity_run nullsFirst cur newType userId quantityDiff st :
  let calendarId := scope_calendarId (sc_scope cur) in
  exists rows,
    reconcileQuantity nullsFirst cur newType userId quantityDiff st
      = (withTasks st rows, Ok tt) /\
    ((0 < quantityDiff /\
      exists new,
        rows = tasks st ++ new /\
        length new = Z.to_nat quantityDiff /\
        Forall (fun t => taskWhere calendarId newType t = true /\
                         task_publishDate t = None /\
                         task_dueDate t = None) new /\
        (taskIdsUnique st -> NoDup (map task_id rows)))
     \/
     (quantityDiff < 0 /\
      exists deleted,
        deleted = firstn (Z.to_nat (- quantityDiff))
                    (deletionOrder
                       (jsSort (publishDateDesc nullsFirst)
                          (tasksOfType st calendarId newType))) /\
        rows = filter (fun t => negb (idIn (map task_id deleted) t)) (tasks st))
     \/
     (quantityDiff = 0 /\ rows = tasks st)).
Proof.
  intros calendarId. unfold reconcileQuantity.
  destruct (Z.gtb_spec quantityDiff 0) as [Hpos | Hle].
  - destruct (addTasks_run cur newType userId quantityDiff st)
      as (new & Hrun & Hlen & Hnth & Hnd).
    exists (tasks st ++ new). split; [exact Hrun|]. left.
    split; [exact Hpos|]. exists new.
    split; [reflexivity|]. split; [exact Hlen|]. split; [|exact Hnd].
    apply Forall_forall. intros t Ht.
    destruct (In_nth_error _ _ Ht) as (i & Hi).
    destruct (Hnth i t Hi) as (id & ->). simpl.
    unfold taskWhere. simpl. fold calendarId.
    now rewrite Nat.eqb_refl, String.eqb_refl.
  - destruct (Z.ltb_spec quantityDiff 0) as [Hneg | Hge].
    + rewrite removeTasks_run. eexists. split; [reflexivity|].
      right. left. split; [exact Hneg|]. eexists. split; [reflexivity|].
      replace (Z.abs quantityDiff) with (- quantityDiff) by lia. reflexivity.
    + exists (tasks st). split.
      * unfold ret. destruct st; reflexivity.
      * right. right. split; [lia | reflexivity].
Qed.

(** The ways [updateScope] ends on a store with distinct task ids: with
    a 404 or the 400 of the conflict and the store untouched, or with
    the scope row written, the tasks migrated and the quantity step
    done. *)
Lemma updateScope_outcome nullsFirst scopeId userId quantity completed
  contentType st :
  taskIdsUnique st ->
  (exists message status,
     updateScope nullsFirst scopeId userId quantity completed contentType st
     = (st, Message status message))
  \/
  (exists cur rows,
     calendarScope_findUnique scopeId st = (st, Ok (Some cur)) /\
     (isTypeChangingOf contentType (sc_scope cur) = true ->
      scopeTaken st scopeId (scope_calendarId (sc_scope cur))
        (newContentTypeOf contentType (sc_scope cur)) = false) /\
     let st2 := storeAfterMigration scopeId quantity completed contentType
                  (sc_scope cur) st in
     updateScope nullsFirst scopeId userId quantity completed contentType st
     = (withTasks st2 rows,
        Json 200 (scopeAfterUpdate quantity completed contentType (sc_scope cur))) /\
     reconcileQuantity nullsFirst cur
       (newContentTypeOf contentType (sc_scope cur)) userId
       (newQuantityOf quantity (sc_scope cur) - scope_quantity (sc_scope cur))
       st2
     = (withTasks st2 rows, Ok tt)).
Proof.
  intros Huniq.
  destruct (calendarScope_findUnique_reads scopeId st) as ([cur|] & Hread).
  - destruct (isTypeChangingOf contentType (sc_scope cur)) eqn:Hchg.
    + destruct (scopeTaken st scopeId (scope_calendarId (sc_scope cur))
                  (newContentTypeOf contentType (sc_scope cur))) eqn:Htaken.
      * left. do 2 eexists. now apply updateScope_refused with (cur := cur).
      * right.
        destruct (reconcileQuantity_run nullsFirst cur
                    (newContentTypeOf contentType (sc_scope cur)) userId
                    (newQuantityOf quantity (sc_scope cur)
                     - scope_quantity (sc_scope cur))
                    (storeAfterMigration scopeId quantity completed contentType
                       (sc_scope cur) st)) as (rows & Hrun & _).
        exists cur, rows. split; [exact Hread|].
        split; [intros _; exact Htaken|]. intros st2. split; [|exact Hrun].
        rewrite (updateScope_steps _ _ _ _ _ _ _ _ Huniq Hread)
          by (intros _; exact Htaken).
        unfold st2. now rewrite Hrun.
    + right.
      destruct (reconcileQuantity_run nullsFirst cur
                  (newContentTypeOf contentType (sc_scope cur)) userId
                  (newQuantityOf quantity (sc_scope cur)
                   - scope_quantity (sc_scope cur))
                  (storeAfterMigration scopeId quantity completed contentType
                     (sc_scope cur) st)) as (rows & Hrun & _).
      exists cur, rows. split; [exact Hread|].
      split; [intros H; rewrite Hchg in H; discriminate H|].
      intros st2. split; [|exact Hrun].
      rewrite (updateScope_steps _ _ _ _ _ _ _ _ Huniq Hread)
        by (intros H; rewrite Hchg in H; discriminate H).
      unfold st2. now rewrite Hrun.
  - left. do 2 eexists. now apply updateScope_missing.
Qed.

(** Task ids stay distinct through [updateScope], however it ends. *)
Theorem updateScope_keeps_task_ids_distinct nullsFirst scopeId userId quantity
  completed contentType st :
  taskIdsUnique st ->
  taskIdsUnique
    (fst (updateScope nullsFirst scopeId userId quantity completed contentType st)).
Proof.
  intros Huniq.
  destruct (updateScope_outcome nullsFirst scopeId userId quantity completed
              contentType st Huniq)
    as [(message & status & ->) | (cur & rows & Hcur & _ & Hrun & Hstep)];
    [exact Huniq|].
  rewrite Hrun. unfold taskIdsUnique. simpl.
  set (st2 := storeAfterMigration scopeId quantity completed contentType
                (sc_scope cur) st) in *.
  assert (Hu2 : taskIdsUnique st2).
  { unfold taskIdsUnique, st2. simpl. now rewrite tasksAfterMigration_ids. }
  destruct (reconcileQuantity_run nullsFirst cur
              (newContentTypeOf contentType (sc_scope cur)) userId
              (newQuantityOf quantity (sc_scope cur)
               - scope_quantity (sc_scope cur)) st2)
    as (rows' & Hrun' & Hcases).
  rewrite Hstep in Hrun'. injection Hrun' as Hrows. subst rows'.
  destruct Hcases as [(_ & new & _ & _ & _ & Hnd)
                     | [(_ & deleted & _ & ->) | (_ & ->)]].
  - now apply Hnd.
  - now apply filter_ids_distinct.
  - exact Hu2.
Qed.

Lemma updateScope_keeps_task_ids_distinct_witness :
  taskIdsUnique
    (fst (updateScope true 100 7 (Some 5) None (Some "VIDEO"%string)
            Sample.blogAndStrayVideo)).
Proof.
  apply (updateScope_keeps_task_ids_distinct true 100 7 (Some 5) None
           (Some "VIDEO"%string) Sample.blogAndStrayVideo).
  unfold taskIdsUnique. simpl.
  repeat constructor; simpl; intuition discriminate.
Defined.

Lemma scopeAfterUpdate_key quantity completed contentType current :
  scope_id (scopeAfterUpdate quantity completed contentType current)
    = scope_id current /\
  scope_calendarId (scopeAfterUpdate quantity completed contentType current)
    = scope_calendarId current /\
  scope_contentType (scopeAfterUpdate quantity completed contentType current)
    = newContentTypeOf contentType current.
Proof.
  unfold scopeAfterUpdate, applyScopeUpdate, updateDataOf. simpl.
  repeat split.
  unfold isTypeChangingOf, newContentTypeOf.
  destruct contentType as [ct|]; [|reflexivity].
  destruct (truthy (Some ct)); [|reflexivity]. simpl.
  destruct (String.eqb_spec ct (scope_contentType current)); simpl; congruence.
Qed.

(** The unique index on (calendarId, contentType) of scopes survives
    [updateScope], however it ends. *)
Theorem updateScope_keeps_scopes_unique nullsFirst scopeId userId quantity
  completed contentType st :
  scopesUnique st ->
  taskIdsUnique st ->
  scopesUnique
    (fst (updateScope nullsFirst scopeId userId quantity completed contentType st)).
Proof.
  intros Hsu Huniq.
  destruct (updateScope_outcome nullsFirst scopeId userId quantity completed
              contentType st Huniq)
    as [(message & status & ->) | (cur & rows & Hcur & Hfree & Hrun & _)];
    [exact Hsu|].
  rewrite Hrun. clear Hrun.
  pose proof (calendarScope_findUnique_found _ _ _ Hcur) as Hfind.
  destruct (find_some _ _ Hfind) as [Hcin Hcid].
  set (current := sc_scope cur) in *.
  set (scope' := scopeAfterUpdate quantity completed contentType current).
  destruct (scopeAfterUpdate_key quantity completed contentType current)
    as (_ & Hcal' & Htype'). fold scope' in Hcal', Htype'.
  assert (Hclash : forall x, In x (scopes st) -> hasScopeId scopeId x = false ->
            scope_calendarId x = scope_calendarId scope' ->
            scope_contentType x = scope_contentType scope' -> False).
  { intros x Hx Hnot Hc Ht. rewrite Hcal' in Hc. rewrite Htype' in Ht.
    destruct (isTypeChangingOf contentType current) eqn:Hchg.
    - specialize (Hfree eq_refl).
      assert (Htaken : scopeTaken st scopeId (scope_calendarId current)
                         (newContentTypeOf contentType current) = true).
      { unfold scopeTaken. apply existsb_exists. exists x. split; [exact Hx|].
        rewrite Hnot, Hc, Ht, Nat.eqb_refl, String.eqb_refl. reflexivity. }
      congruence.
    - assert (Hsame : newContentTypeOf contentType current
                      = scope_contentType current).
      { unfold isTypeChangingOf, newContentTypeOf in *.
        destruct contentType as [ct|]; [|reflexivity].
        destruct (truthy (Some ct)); [|reflexivity]. simpl in Hchg.
        apply negb_false_iff, String.eqb_eq in Hchg. exact Hchg. }
      rewrite Hsame in Ht.
      assert (x = current) by (apply Hsu; auto).
      subst x. congruence. }
  intros s1 s2 H1 H2 Hc Ht. simpl in H1, H2.
  apply in_map_iff in H1. destruct H1 as (x1 & <- & Hx1).
  apply in_map_iff in H2. destruct H2 as (x2 & <- & Hx2).
  fold scope' in Hc, Ht |- *.
  destruct (hasScopeId scopeId x1) eqn:E1, (hasScopeId scopeId x2) eqn:E2.
  - reflexivity.
  - exfalso. now apply (Hclash x2).
  - exfalso. now apply (Hclash x1).
  - now apply Hsu.
Qed.

Lemma sample_blogAndVideo_scopes : scopesUnique Sample.blogAndVideo.
Proof.
  intros s1 s2 H1 H2 Hc Ht. simpl in H1, H2.
  destruct H1 as [<- | [<- | []]]; destruct H2 as [<- | [<- | []]];
    try reflexivity; discriminate.
Qed.

Lemma sample_blogAndVideo_ids : taskIdsUnique Sample.blogAndVideo.
Proof.
  unfold taskIdsUnique. simpl.
  repeat constructor; simpl; intuition discriminate.
Qed.

Lemma updateScope_keeps_scopes_unique_witness :
  scopesUnique
    (fst (updateScope true 101 7 (Some 2) None (Some "REEL"%string)
            Sample.blogAndVideo)).
Proof.
  apply (updateScope_keeps_scopes_unique true 101 7 (Some 2) None
           (Some "REEL"%string) Sample.blogAndVideo).
  - exact sample_blogAndVideo_scopes.
  - exact sample_blogAndVideo_ids.
Defined.

(** ** [updateScope]: what is left alone, and how many tasks remain *)

Lemma filter_perm {A} (p : A -> bool) (l l' : list A) :
  Permutation l l' -> Permutation (filter p l) (filter p l').
Proof.
  induction 1 as [|x l l' _ IH|x y l|l l' l'' _ IH1 _ IH2]; simpl.
  - constructor.
  - destruct (p x); [now constructor | exact IH].
  - destruct (p x), (p y); try apply Permutation_refl. apply perm_swap.
  - eapply perm_trans; eassumption.
Qed.

Lemma filter_all {A} (p : A -> bool) (l : list A) :
  Forall (fun x => p x = true) l -> filter p l = l.
Proof.
  induction 1 as [|x l Hx _ IH]; simpl; [reflexivity|]. now rewrite Hx, IH.
Qed.

Lemma filter_none {A} (p : A -> bool) (l : list A) :
  Forall (fun x => p x = false) l -> filter p l = [].
Proof.
  induction 1 as [|x l Hx _ IH]; simpl; [reflexivity|]. now rewrite Hx.
Qed.

Lemma filter_through {A} (f keep : A -> bool) (l : list A) :
  (forall x, In x l -> f x = true -> keep x = true) ->
  filter f (filter keep l) = filter f l.
Proof.
  induction l as [|x l IH]; simpl; intros H; [reflexivity|].
  destruct (keep x) eqn:Hk; simpl.
  - destruct (f x); rewrite IH; auto.
  - destruct (f x) eqn:Hf.
    + rewrite (H x) in Hk; auto. discriminate.
    + apply IH. auto.
Qed.

(** The rows the decrease branch picks: some of the candidates, each
    once, as many as asked for when there are that many. *)
Lemma deleted_rows nullsFirst (k : nat) (candidates : list Task) :
  NoDup candidates ->
  let deleted :=
    firstn k (deletionOrder (jsSort (publishDateDesc nullsFirst) candidates)) in
  incl deleted candidates /\ NoDup deleted /\
  length deleted = Nat.min k (length candidates).
Proof.
  intros Hnd deleted.
  assert (Hord : Permutation candidates
            (deletionOrder (jsSort (publishDateDesc nullsFirst) candidates))).
  { eapply perm_trans; [apply jsSort_perm | apply deletionOrder_perm]. }
  split; [|split].
  - intros x Hx. apply firstn_incl in Hx.
    now apply (Permutation_in _ (Permutation_sym Hord)).
  - apply firstn_NoDup. now apply (Permutation_NoDup Hord).
  - unfold deleted. rewrite length_firstn.
    now rewrite <- (Permutation_length Hord).
Qed.

(** Tasks of another calendar than the scope's. *)
Lemma migrateRow_elsewhere calendarId oldType newType (rows : list Task) :
  filter (fun t => negb (task_calendarId t =? calendarId)%nat)
    (map (migrateRow calendarId oldType newType) rows)
  = filter (fun t => negb (task_calendarId t =? calendarId)%nat) rows.
Proof.
  induction rows as [|x rows IH]; [reflexivity|].
  simpl. rewrite IH. unfold migrateRow.
  destruct (taskWhere calendarId oldType x) eqn:Hw; [|reflexivity].
  apply taskWhere_spec in Hw. destruct Hw as [Hc _].
  simpl. rewrite Hc, Nat.eqb_refl. reflexivity.
Qed.

Lemma tasksAfterMigration_elsewhere contentType current rows :
  filter (fun t => negb (task_calendarId t =? scope_calendarId current)%nat)
    (tasksAfterMigration contentType current rows)
  = filter (fun t => negb (task_calendarId t =? scope_calendarId current)%nat)
      rows.
Proof.
  unfold tasksAfterMigration.
  destruct (isTypeChangingOf contentType current); [|reflexivity].
  apply migrateRow_elsewhere.
Qed.

(** However [updateScope] ends, the tasks of the other calendars are
    afterwards what they were, row for row and in the same order. *)
Theorem updateScope_other_calendars_untouched nullsFirst scopeId userId
  quantity completed contentType st cur :
  taskIdsUnique st ->
  calendarScope_findUnique scopeId st = (st, Ok (Some cur)) ->
  let elsewhere t :=
    negb (task_calendarId t =? scope_calendarId (sc_scope cur))%nat in
  filter elsewhere
    (tasks (fst (updateScope nullsFirst scopeId userId quantity completed
                   contentType st)))
  = filter elsewhere (tasks st).
Proof.
  intros Huniq Hcur elsewhere.
  destruct (updateScope_outcome nullsFirst scopeId userId quantity completed
              contentType st Huniq)
    as [(message & status & ->) | (cur' & rows & Hcur' & _ & Hrun & Hstep)];
    [reflexivity|].
  rewrite Hcur in Hcur'. injection Hcur' as <-.
  rewrite Hrun. simpl fst. clear Hrun.
  set (st2 := storeAfterMigration scopeId quantity completed contentType
                (sc_scope cur) st) in *.
  assert (Hu2 : NoDup (map task_id (tasks st2))).
  { unfold st2. simpl. now rewrite tasksAfterMigration_ids. }
  assert (Hmig : filter elsewhere (tasks st2) = filter elsewhere (tasks st)).
  { unfold st2, elsewhere. simpl. apply tasksAfterMigration_elsewhere. }
  destruct (reconcileQuantity_run nullsFirst cur
              (newContentTypeOf contentType (sc_scope cur)) userId
              (newQuantityOf quantity (sc_scope cur)
               - scope_quantity (sc_scope cur)) st2)
    as (rows' & Hrun' & Hcases).
  rewrite Hstep in Hrun'. injection Hrun' as Hrows. subst rows'.
  change (tasks (withTasks st2 rows)) with rows. rewrite <- Hmig.
  destruct Hcases as [(_ & new & -> & _ & Hnew & _)
                     | [(_ & deleted & Hdel & ->) | (_ & ->)]].
  - rewrite filter_app. rewrite (filter_none elsewhere new).
    + apply app_nil_r.
    + eapply Forall_impl; [|exact Hnew]. intros t (Hw & _).
      apply taskWhere_spec in Hw. destruct Hw as [Hc _].
      unfold elsewhere. now rewrite Hc, Nat.eqb_refl.
  - apply filter_through. intros x Hx Hel.
    apply negb_true_iff. destruct (idIn (map task_id deleted) x) eqn:Hin;
      [|reflexivity].
    exfalso. apply idIn_spec in Hin. apply in_map_iff in Hin.
    destruct Hin as (d & Hd & Hdin).
    destruct (deleted_rows nullsFirst
                (Z.to_nat (- (newQuantityOf quantity (sc_scope cur)
                              - scope_quantity (sc_scope cur))))
                (tasksOfType st2 (scope_calendarId (sc_scope cur))
                   (newContentTypeOf contentType (sc_scope cur))))
      as (Hincl & _ & _).
    { apply NoDup_filter. now apply NoDup_of_ids. }
    rewrite <- Hdel in Hincl. apply Hincl in Hdin.
    unfold tasksOfType in Hdin. apply filter_In in Hdin.
    destruct Hdin as [Hdrow Hw].
    assert (d = x) by (eapply same_id_same_row; eauto). subst d.
    apply taskWhere_spec in Hw. destruct Hw as [Hc _].
    unfold elsewhere in Hel. rewrite Hc, Nat.eqb_refl in Hel. discriminate.
  - reflexivity.
Qed.

Lemma sample_twoCalendars_ids : taskIdsUnique SampleTwo.twoCalendars.
Proof.
  unfold taskIdsUnique. simpl.
  repeat constructor; simpl; intuition discriminate.
Qed.

Lemma updateScope_other_calendars_untouched_witness :
  let elsewhere t := negb (task_calendarId t =? 10)%nat in
  filter elsewhere
    (tasks (fst (updateScope true 100 7 (Some 1) None (Some "VIDEO"%string)
                   SampleTwo.twoCalendars)))
  = filter elsewhere (tasks SampleTwo.twoCalendars).
Proof.
  apply (updateScope_other_calendars_untouched true 100 7 (Some 1) None
           (Some "VIDEO"%string) SampleTwo.twoCalendars
           (mkScopeWithCalendar Sample.blogScope Sample.january Sample.acme)).
  - exact sample_twoCalendars_ids.
  - reflexivity.
Defined.

(** After an accepted [updateScope] the calendar holds
    [max(0, before + diff)] tasks of the scope's (new) content type,
    [before] being their number once the migration is done and [diff]
    the change of quantity.  So when that number agreed with the
    scope's old quantity and the new quantity is not negative, the
    number of tasks agrees with the new quantity. *)
Theorem updateScope_task_count nullsFirst scopeId userId quantity completed
  contentType st cur :
  taskIdsUnique st ->
  calendarScope_findUnique scopeId st = (st, Ok (Some cur)) ->
  (isTypeChangingOf contentType (sc_scope cur) = true ->
   scopeTaken st scopeId (scope_calendarId (sc_scope cur))
     (newContentTypeOf contentType (sc_scope cur)) = false) ->
  let current := sc_scope cur in
  let calendarId := scope_calendarId current in
  let newType := newContentTypeOf contentType current in
  let newQuantity := newQuantityOf quantity current in
  let before :=
    Z.of_nat (length (filter (taskWhere calendarId newType)
                        (tasksAfterMigration contentType current (tasks st)))) in
  let after :=
    Z.of_nat (length (tasksOfType
                        (fst (updateScope nullsFirst scopeId userId quantity
                                completed contentType st))
                        calendarId newType)) in
  after = Z.max 0 (before + (newQuantity - scope_quantity current)) /\
  (before = scope_quantity current -> 0 <= newQuantity -> after = newQuantity).
Proof.
  intros Huniq Hcur Hfree current calendarId newType newQuantity before after.
  assert (Hmain : after = Z.max 0 (before + (newQuantity - scope_quantity current)));
    [|split; [exact Hmain | intros; lia]].
  unfold after, before.
  rewrite (updateScope_steps _ _ _ _ _ _ _ _ Huniq Hcur Hfree).
  fold current newType newQuantity.
  set (st2 := storeAfterMigration scopeId quantity completed contentType current st).
  change (tasksAfterMigration contentType current (tasks st)) with (tasks st2).
  assert (Hu2 : NoDup (map task_id (tasks st2))).
  { unfold st2. simpl. now rewrite tasksAfterMigration_ids. }
  destruct (reconcileQuantity_run nullsFirst cur newType userId
              (newQuantity - scope_quantity current) st2)
    as (rows & Hrun & Hcases).
  rewrite Hrun. simpl fst. unfold tasksOfType.
  change (tasks (withTasks st2 rows)) with rows.
  fold calendarId in Hcases. fold current in Hcases.
  destruct Hcases as [(Hpos & new & -> & Hlen & Hnew & _)
                     | [(Hneg & deleted & Hdel & ->) | (Hzero & ->)]].
  - rewrite filter_app, length_app.
    rewrite (filter_all (taskWhere calendarId newType) new).
    + rewrite Hlen. lia.
    + eapply Forall_impl; [|exact Hnew]. now intros t (Hw & _).
  - assert (Hd : incl deleted (tasksOfType st2 calendarId newType) /\
                 NoDup deleted /\
                 length deleted
                 = Nat.min (Z.to_nat (- (newQuantity - scope_quantity current)))
                     (length (tasksOfType st2 calendarId newType))).
    { rewrite Hdel. apply deleted_rows.
      apply NoDup_filter. now apply NoDup_of_ids. }
    destruct Hd as (Hincl & Hnd & Hlen).
    assert (Hperm : Permutation (tasks st2)
              (deleted ++ filter (fun t => negb (idIn (map task_id deleted) t))
                            (tasks st2))).
    { apply delete_exactly; auto.
      intros x Hx. apply Hincl in Hx. unfold tasksOfType in Hx.
      now apply filter_In in Hx. }
    apply (filter_perm (taskWhere calendarId newType)) in Hperm.
    apply Permutation_length in Hperm.
    rewrite filter_app, length_app in Hperm.
    rewrite (filter_all (taskWhere calendarId newType) deleted) in Hperm.
    + unfold tasksOfType in Hlen. lia.
    + apply Forall_forall. intros x Hx. apply Hincl in Hx.
      unfold tasksOfType in Hx. now apply filter_In in Hx.
  - lia.
Qed.

Lemma updateScope_task_count_witness :
  let cur := mkScopeWithCalendar Sample.blogScope Sample.january Sample.acme in
  let current := sc_scope cur in
  let calendarId := scope_calendarId current in
  let newType := newContentTypeOf (Some "VIDEO"%string) current in
  let newQuantity := newQuantityOf (Some 2) current in
  let before :=
    Z.of_nat (length (filter (taskWhere calendarId newType)
                        (tasksAfterMigration (Some "VIDEO"%string) current
                           (tasks Sample.blogOnly)))) in
  let after :=
    Z.of_nat (length (tasksOfType
                        (fst (updateScope true 100 7 (Some 2) None
                                (Some "VIDEO"%string) Sample.blogOnly))
                        calendarId newType)) in
  after = Z.max 0 (before + (newQuantity - scope_quantity current)) /\
  (before = scope_quantity current -> 0 <= newQuantity -> after = newQuantity).
Proof.
  apply (updateScope_task_count true 100 7 (Some 2) None (Some "VIDEO"%string)
           Sample.blogOnly
           (mkScopeWithCalendar Sample.blogScope Sample.january Sample.acme)).
  - exact sample_blogOnly_ids.
  - reflexivity.
  - intros _. reflexivity.
Defined.

Lemma isTypeChangingOf_true contentType current :
  isTypeChangingOf contentType current = true ->
  newContentTypeOf contentType current <> scope_contentType current.
Proof.
  unfold isTypeChangingOf, newContentTypeOf.
  destruct contentType as [ct|]; [|discriminate].
  destruct (truthy (Some ct)); [|discriminate]. simpl.
  intros H. apply negb_true_iff in H. now apply String.eqb_neq.
Qed.

Lemma migrateRow_leaves_no_old calendarId oldType newType (rows : list Task) :
  newType <> oldType ->
  filter (taskWhere calendarId oldType)
    (map (migrateRow calendarId oldType newType) rows) = [].
Proof.
  intros Hneq. apply filter_none. apply Forall_forall. intros t Ht.
  apply in_map_iff in Ht. destruct Ht as (x & <- & _).
  unfold migrateRow. destruct (taskWhere calendarId oldType x) eqn:Hw;
    [|exact Hw].
  unfold taskWhere. simpl. apply andb_false_iff. right.
  now apply String.eqb_neq.
Qed.

(** After an accepted change of content type, whatever the quantity
    asked for, the calendar has no task of the old content type left. *)
Theorem updateScope_type_change_leaves_no_old_type nullsFirst scopeId userId
  quantity completed contentType st cur :
  taskIdsUnique st ->
  calendarScope_findUnique scopeId st = (st, Ok (Some cur)) ->
  isTypeChangingOf contentType (sc_scope cur) = true ->
  scopeTaken st scopeId (scope_calendarId (sc_scope cur))
    (newContentTypeOf contentType (sc_scope cur)) = false ->
  tasksOfType
    (fst (updateScope nullsFirst scopeId userId quantity completed contentType st))
    (scope_calendarId (sc_scope cur)) (scope_contentType (sc_scope cur))
  = [].
Proof.
  intros Huniq Hcur Hchg Hfree.
  rewrite (updateScope_steps _ _ _ _ _ _ _ _ Huniq Hcur (fun _ => Hfree)).
  set (current := sc_scope cur) in *.
  set (newType := newContentTypeOf contentType current) in *.
  set (st2 := storeAfterMigration scopeId quantity completed contentType current st).
  assert (Hneq : newType <> scope_contentType current)
    by now apply isTypeChangingOf_true.
  assert (Hnone : filter (taskWhere (scope_calendarId current)
                            (scope_contentType current)) (tasks st2) = []).
  { unfold st2. simpl. unfold tasksAfterMigration. rewrite Hchg.
    now apply migrateRow_leaves_no_old. }
  destruct (reconcileQuantity_run nullsFirst cur newType userId
              (newQuantityOf quantity current - scope_quantity current) st2)
    as (rows & Hrun & Hcases).
  rewrite Hrun. simpl fst. unfold tasksOfType.
  change (tasks (withTasks st2 rows)) with rows.
  fold current in Hcases.
  destruct Hcases as [(_ & new & -> & _ & Hnew & _)
                     | [(_ & deleted & _ & ->) | (_ & ->)]].
  - rewrite filter_app, Hnone. simpl. apply filter_none.
    eapply Forall_impl; [|exact Hnew]. intros t (Hw & _).
    apply taskWhere_spec in Hw. destruct Hw as [Hc Ht].
    unfold taskWhere. rewrite Ht. apply andb_false_iff. right.
    now apply String.eqb_neq.
  - rewrite filter_filter. apply filter_none. apply Forall_forall.
    intros t Ht.
    assert (Hin : ~ In t (filter (taskWhere (scope_calendarId current)
                                   (scope_contentType current)) (tasks st2)))
      by (rewrite Hnone; intros []).
    destruct (taskWhere (scope_calendarId current) (scope_contentType current) t)
      eqn:Hw; [|apply andb_false_r].
    exfalso. apply Hin. apply filter_In. now split.
  - exact Hnone.
Qed.

Lemma updateScope_type_change_leaves_no_old_type_witness :
  tasksOfType
    (fst (updateScope true 100 7 (Some 1) None (Some "VIDEO"%string)
            Sample.blogOnly))
    10 "BLOG_POST"
  = [].
Proof.
  apply (updateScope_type_change_leaves_no_old_type true 100 7 (Some 1) None
           (Some "VIDEO"%string) Sample.blogOnly
           (mkScopeWithCalendar Sample.blogScope Sample.january Sample.acme)).
  - exact sample_blogOnly_ids.
  - reflexivity.
  - reflexivity.
  - reflexivity.
Defined.

(** A request that neither changes the content type nor the quantity
    (it sets [completed], repeats the current values, or is empty)
    writes the scope row and nothing else: tasks and log stay as they
    are. *)
Theorem updateScope_scope_row_only nullsFirst scopeId userId quantity completed
  contentType st cur :
  calendarScope_findUnique scopeId st = (st, Ok (Some cur)) ->
  isTypeChangingOf contentType (sc_scope cur) = false ->
  quantity = None \/ quantity = Some (scope_quantity (sc_scope cur)) ->
  let current := sc_scope cur in
  let scope' :=
    mkScope (scope_id current) (scope_calendarId current)
      (scope_contentType current) (scope_quantity current)
      (match completed with Some c => c | None => scope_completed current end) in
  updateScope nullsFirst scopeId userId quantity completed contentType st
  = (withScopes st
       (map (fun x => if hasScopeId scopeId x then scope' else x) (scopes st)),
     Json 200 scope').
Proof.
  intros Hcur Hchg Hq current scope'.
  pose proof (calendarScope_findUnique_found _ _ _ Hcur) as Hfind.
  fold current in Hfind, Hchg.
  assert (Hscope : applyScopeUpdate
                     (updateDataOf quantity completed contentType current) current
                   = scope').
  { unfold applyScopeUpdate, updateDataOf, scope'. rewrite Hchg. simpl.
    destruct Hq as [-> | ->]; reflexivity. }
  assert (Hdiff : newQuantityOf quantity current - scope_quantity current = 0).
  { destruct Hq as [-> | ->]; unfold newQuantityOf, current; lia. }
  unfold updateScope, respond, tryCatch. unfold bind at 1. rewrite Hcur.
  fold current. unfold bind at 1.
  unfold calendarScope_update. rewrite Hfind. rewrite Hscope.
  unfold updateDataOf at 1. cbn [upd_contentType]. rewrite Hchg.
  unfold bind at 1. unfold ret at 1.
  rewrite Hdiff. reflexivity.
Qed.

Lemma updateScope_scope_row_only_witness :
  let current := Sample.blogScope in
  let scope' :=
    mkScope (scope_id current) (scope_calendarId current)
      (scope_contentType current) (scope_quantity current)
      (match Some 2 with Some c => c | None => scope_completed current end) in
  updateScope true 100 7 None (Some 2) (Some "BLOG_POST"%string) Sample.blogOnly
  = (withScopes Sample.blogOnly
       (map (fun x => if hasScopeId 100 x then scope' else x)
          (scopes Sample.blogOnly)),
     Json 200 scope').
Proof.
  apply (updateScope_scope_row_only true 100 7 None (Some 2)
           (Some "BLOG_POST"%string) Sample.blogOnly
           (mkScopeWithCalendar Sample.blogScope Sample.january Sample.acme)).
  - reflexivity.
  - reflexivity.
  - left. reflexivity.
Defined.

(** ** [generateTasks]: rounds, errors, repetition *)

(** A loop over the requested entries whose every round appends its new
    tasks to the table and to the list of created tasks, and keeps an
    invariant of the store. *)
Lemma forOf_rounds {A} (body : A -> list Task -> Prisma (list Task))
  (Q : A -> list Task -> Prop) (I : Store -> Prop) :
  (forall x created st, I st ->
     exists st' new,
       body x created st = (st', Ok (created ++ new)) /\
       Q x new /\ I st' /\ tasks st' = tasks st ++ new) ->
  forall xs created st, I st ->
  exists st' groups,
    forOf xs body created st = (st', Ok (created ++ concat groups)) /\
    Forall2 Q xs groups /\ I st' /\ tasks st' = tasks st ++ concat groups.
Proof.
  intros Hround xs. induction xs as [|x xs IH]; intros created st Hinv.
  - exists st, []. simpl. rewrite !app_nil_r. repeat split; auto.
  - destruct (Hround x created st Hinv) as (st1 & new & Hrun & HQ & Hinv1 & Ht).
    destruct (IH (created ++ new) st1 Hinv1)
      as (st2 & groups & Hrun2 & HQs & Hinv2 & Ht2).
    exists st2, (new :: groups). simpl.
    split; [unfold bind; rewrite Hrun, Hrun2; now rewrite <- app_assoc|].
    split; [now constructor|]. split; [exact Hinv2|].
    rewrite Ht2, Ht. now rewrite <- app_assoc.
Qed.

(** One round in full: the new tasks are the ones [newTask] describes,
    numbered after the tasks found when the request came in, and ids
    stay distinct. *)
Lemma generateForScope_round calendarId userId calendar sd created st :
  let existing :=
    length (filter (fun t => (task_contentType t =? sd_contentType sd)%string)
              (cw_tasks calendar)) in
  exists st' new,
    generateForScope calendarId userId calendar sd created st
      = (st', Ok (created ++ new)) /\
    (length new = neededTasks existing (sd_quantity sd) /\
     forall i t, nth_error new i = Some t ->
       exists id,
         t = newTask (sd_contentType sd) (brand_name (cw_brand calendar))
               (calendar_brandId (cw_calendar calendar))
               (calendar_id (cw_calendar calendar)) userId
               (existing + i + 1) id) /\
    (taskIdsUnique st -> taskIdsUnique st') /\
    tasks st' = tasks st ++ new.
Proof.
  intros existing. unfold generateForScope. fold existing.
  unfold neededTasks.
  set (tasksToCreate := Z.max 0 (sd_quantity sd - Z.of_nat existing)).
  destruct (Z.eqb_spec tasksToCreate 0) as [Hz | Hnz].
  - exists st, []. rewrite Hz, !app_nil_r. simpl.
    split; [reflexivity|]. split; [|split; [auto | reflexivity]].
    split; [reflexivity|]. intros [|i] t Hi; discriminate.
  - unfold bind at 1. unfold calendarScope_upsert at 1.
    destruct (upsertScopeRows (scopes st) calendarId (sd_contentType sd)
                (sd_quantity sd)) as [rows s].
    destruct (create_loop
                (fun i =>
                   newTask (sd_contentType sd) (brand_name (cw_brand calendar))
                     (calendar_brandId (cw_calendar calendar))
                     (calendar_id (cw_calendar calendar)) userId
                     (existing + i + 1))
                (fun acc t => acc ++ [t])
                (fun k id => eq_refl)
                (Z.to_nat tasksToCreate) 0%nat created (withScopes st rows))
      as (new & Hrun & Hlen & Hnth & Hnd).
    rewrite fold_left_push in Hrun.
    exists (withTasks (withScopes st rows) (tasks st ++ new)), new.
    split; [exact Hrun|]. split; [split; [exact Hlen | exact Hnth]|].
    split; [|reflexivity]. exact Hnd.
Qed.

Lemma calendar_findUnique_reads calendarId st :
  exists found, calendar_findUnique calendarId st = (st, Ok found).
Proof. unfold calendar_findUnique. eexists. reflexivity. Qed.

(** The run of [generateTasks] on a calendar that exists. *)
Lemma generateTasks_run calendarId userId requests st calendar :
  calendar_findUnique calendarId st = (st, Ok (Some calendar)) ->
  forall st1 created,
  forOf requests (generateForScope calendarId userId calendar) [] st
    = (st1, Ok created) ->
  generateTasks calendarId userId (Some requests) st =
  (withActivityLog st1
     (activityLog st1 ++ [mkLog "GENERATE" "CalendarTasks" calendarId userId]),
   Json 201
     (mkGenerated
        ("Generated " ++ numberToString (length created) ++ " new tasks")%string
        created)).
Proof.
  intros Hfind st1 created Hrun.
  unfold generateTasks, respond, bind. rewrite Hfind, Hrun. reflexivity.
Qed.

(** Task ids stay distinct through [generateTasks], however it ends. *)
Theorem generateTasks_keeps_task_ids_distinct calendarId userId scopes st :
  taskIdsUnique st ->
  taskIdsUnique (fst (generateTasks calendarId userId scopes st)).
Proof.
  intros Huniq.
  destruct scopes as [requests|]; [|exact Huniq].
  destruct (calendar_findUnique_reads calendarId st) as ([calendar|] & Hfind).
  - destruct (forOf_rounds (generateForScope calendarId userId calendar)
                (fun _ _ => True) taskIdsUnique) with (xs := requests)
      (created := @nil Task) (st := st)
      as (st1 & groups & Hrun & _ & Hinv & _).
    + intros sd created s Hs.
      destruct (generateForScope_round calendarId userId calendar sd created s)
        as (s' & new & Hr & _ & Hi & Ht).
      exists s', new. auto.
    + exact Huniq.
    + rewrite (generateTasks_run _ _ _ _ _ Hfind _ _ Hrun). exact Hinv.
  - unfold generateTasks, respond, bind. rewrite Hfind. exact Huniq.
Qed.

Lemma generateTasks_keeps_task_ids_distinct_witness :
  taskIdsUnique
    (fst (generateTasks 10 7
            (Some [mkScopeData "BLOG_POST" 4; mkScopeData "VIDEO" 2])
            Sample.blogOnly)).
Proof.
  apply (generateTasks_keeps_task_ids_distinct 10 7
           (Some [mkScopeData "BLOG_POST" 4; mkScopeData "VIDEO" 2])
           Sample.blogOnly).
  exact sample_blogOnly_ids.
Defined.

(** The tasks [generateTasks] creates: in the group of an entry the
    [i]-th task (from 0) is titled with the type label, [" #"] and
    [existing + i + 1], [existing] counting the calendar's tasks of
    that type before the request; it is described for the calendar's
    brand, is TODO with priority MEDIUM, has neither publish nor due
    date, and belongs to the calendar, its brand and the caller. *)
Theorem generateTasks_created_rows calendarId userId requests st calendar :
  calendar_findUnique calendarId st = (st, Ok (Some calendar)) ->
  exists st' groups message,
    generateTasks calendarId userId (Some requests) st
      = (st', Json 201 (mkGenerated message (concat groups))) /\
    Forall2
      (fun sd group =>
         forall i t, nth_error group i = Some t ->
           task_title t
             = (typeString (sd_contentType sd) ++ " #"
                ++ numberToString
                     (length (tasksOfType st calendarId (sd_contentType sd))
                      + i + 1))%string /\
           task_description t
             = Some ("Create " ++ toLowerCase (typeString (sd_contentType sd))
                     ++ " for " ++ brand_name (cw_brand calendar))%string /\
           task_status t = "TODO"%string /\
           task_priority t = "MEDIUM"%string /\
           task_publishDate t = None /\
           task_dueDate t = None /\
           task_contentType t = sd_contentType sd /\
           task_calendarId t = calendarId /\
           task_brandId t = calendar_brandId (cw_calendar calendar) /\
           task_createdById t = userId)
      requests groups.
Proof.
  intros Hfind.
  destruct (calendar_findUnique_found _ _ _ Hfind) as [Hcal Hsnap].
  destruct (forOf_rounds (generateForScope calendarId userId calendar)
              (fun sd new =>
                 forall i t, nth_error new i = Some t ->
                   exists id,
                     t = newTask (sd_contentType sd)
                           (brand_name (cw_brand calendar))
                           (calendar_brandId (cw_calendar calendar))
                           calendarId userId
                           (length (tasksOfType st calendarId (sd_contentType sd))
                            + i + 1) id)
              (fun _ => True)) with (xs := requests) (created := @nil Task) (st := st)
    as (st1 & groups & Hrun & Hgroups & _ & _).
  - intros sd created s Hs.
    destruct (generateForScope_round calendarId userId calendar sd created s)
      as (s' & new & Hr & (_ & Hnth) & Hi & Ht).
    exists s', new. rewrite Hsnap, Hcal in Hnth. auto.
  - exact I.
  - rewrite (generateTasks_run _ _ _ _ _ Hfind _ _ Hrun).
    do 3 eexists. split; [reflexivity|].
    eapply Forall2_impl; [|exact Hgroups].
    intros sd group Hnth i t Hi. destruct (Hnth i t Hi) as (id & ->).
    simpl. rewrite typeString_toLowerCase. repeat split; reflexivity.
Qed.

Lemma generateTasks_created_rows_witness :
  exists st' groups message,
    generateTasks 10 7
      (Some [mkScopeData "BLOG_POST" 4; mkScopeData "VIDEO" 2]) Sample.blogOnly
      = (st', Json 201 (mkGenerated message (concat groups))) /\
    Forall2
      (fun sd group =>
         forall i t, nth_error group i = Some t ->
           task_title t
             = (typeString (sd_contentType sd) ++ " #"
                ++ numberToString
                     (length (tasksOfType Sample.blogOnly 10 (sd_contentType sd))
                      + i + 1))%string /\
           task_description t
             = Some ("Create " ++ toLowerCase (typeString (sd_contentType sd))
                     ++ " for "
                     ++ brand_name
                          (cw_brand
                             (mkCalendarWithTasks Sample.january Sample.acme
                                (tasks Sample.blogOnly))))%string /\
           task_status t = "TODO"%string /\
           task_priority t = "MEDIUM"%string /\
           task_publishDate t = None /\
           task_dueDate t = None /\
           task_contentType t = sd_contentType sd /\
           task_calendarId t = 10%nat /\
           task_brandId t
             = calendar_brandId
                 (cw_calendar
                    (mkCalendarWithTasks Sample.january Sample.acme
                       (tasks Sample.blogOnly))) /\
           task_createdById t = 7%nat)
      [mkScopeData "BLOG_POST" 4; mkScopeData "VIDEO" 2] groups.
Proof.
  apply (generateTasks_created_rows 10 7
           [mkScopeData "BLOG_POST" 4; mkScopeData "VIDEO" 2]
           Sample.blogOnly
           (mkCalendarWithTasks Sample.january Sample.acme
              (tasks Sample.blogOnly))).
  reflexivity.
Defined.

Lemma Forall2_pick {A B} (R : A -> B -> Prop) (xs : list A) (ys : list B) x :
  Forall2 R xs ys -> In x xs -> exists y, In y ys /\ R x y.
Proof.
  induction 1 as [|x0 y0 xs ys Hxy _ IH]; intros Hin; [contradiction|].
  destruct Hin as [-> | Hin].
  - exists y0. split; [now left | exact Hxy].
  - destruct (IH Hin) as (y & Hy & HR). exists y. split; [now right | exact HR].
Qed.

Lemma group_counted (p : Task -> bool) (groups : list (list Task)) g :
  In g groups -> Forall (fun t => p t = true) g ->
  (length g <= length (filter p (concat groups)))%nat.
Proof.
  induction groups as [|g0 groups IH]; intros Hin Hall; [contradiction|].
  simpl. rewrite filter_app, length_app. destruct Hin as [-> | Hin].
  - rewrite (filter_all p g Hall). lia.
  - specialize (IH Hin Hall). lia.
Qed.

Lemma scopesAfterGenerate_nothing st0 calendarId requests rows :
  (forall sd, In sd requests ->
     neededTasks (length (tasksOfType st0 calendarId (sd_contentType sd)))
       (sd_quantity sd) = 0%nat) ->
  scopesAfterGenerate st0 calendarId requests rows = rows.
Proof.
  unfold scopesAfterGenerate. revert rows.
  induction requests as [|sd requests IH]; intros rows Hzero; [reflexivity|].
  simpl. rewrite (Hzero sd) by now left. simpl.
  apply IH. intros sd' Hsd'. apply Hzero. now right.
Qed.

Lemma Forall2_all_empty {A B} (R : A -> list B -> Prop) xs groups :
  Forall2 R xs groups ->
  (forall x g, In x xs -> R x g -> g = []) ->
  concat groups = [].
Proof.
  induction 1 as [|x g xs groups HR _ IH]; intros Hempty; [reflexivity|].
  simpl. rewrite (Hempty x g) by (auto; now left). simpl.
  apply IH. intros x' g' Hx'. apply Hempty. now right.
Qed.

(** Asking [generateTasks] for the same scopes a second time creates no
    task and writes no scope: after the first call every requested
    quantity is met, so each entry is skipped and the answer lists
    zero new tasks. *)
Theorem generateTasks_again_creates_nothing calendarId userId requests st
  calendar :
  calendar_findUnique calendarId st = (st, Ok (Some calendar)) ->
  let st1 := fst (generateTasks calendarId userId (Some requests) st) in
  exists st2,
    generateTasks calendarId userId (Some requests) st1
      = (st2, Json 201 (mkGenerated "Generated 0 new tasks" [])) /\
    tasks st2 = tasks st1 /\
    scopes st2 = scopes st1.
Proof.
  intros Hfind st1.
  destruct (calendar_findUnique_found _ _ _ Hfind) as [Hcal Hsnap].
  destruct (generate_loop calendarId userId calendar st Hcal Hsnap requests [] st)
    as (s1 & groups & Hrun & Hgroups & Ht & _ & Hb & Hc & _).
  assert (Hst1 : st1 = withActivityLog s1
            (activityLog s1 ++ [mkLog "GENERATE" "CalendarTasks" calendarId userId])).
  { unfold st1. now rewrite (generateTasks_run _ _ _ _ _ Hfind _ _ Hrun). }
  set (calendar1 := mkCalendarWithTasks (cw_calendar calendar) (cw_brand calendar)
                      (filter (fun t => (task_calendarId t =? calendarId)%nat)
                         (tasks st1))).
  assert (Hfind1 : calendar_findUnique calendarId st1 = (st1, Ok (Some calendar1))).
  { assert (Hc1 : calendars st1 = calendars st) by (rewrite Hst1; exact Hc).
    assert (Hb1 : brands st1 = brands st) by (rewrite Hst1; exact Hb).
    unfold calendar_findUnique, findCalendar, findBrand in Hfind |- *.
    rewrite Hc1, Hb1.
    destruct (find _ (calendars st)) as [c|]; [|discriminate].
    destruct (find _ (brands st)) as [b|]; [|discriminate].
    inversion Hfind; subst calendar. reflexivity. }
  destruct (calendar_findUnique_found _ _ _ Hfind1) as [Hcal1 Hsnap1].
  destruct (generate_loop calendarId userId calendar1 st1 Hcal1 Hsnap1 requests
              [] st1)
    as (s2 & groups2 & Hrun2 & Hgroups2 & Ht2 & Hs2 & _).
  assert (Hmet : forall sd, In sd requests ->
            neededTasks (length (tasksOfType st1 calendarId (sd_contentType sd)))
              (sd_quantity sd) = 0%nat).
  { intros sd Hsd.
    destruct (Forall2_pick _ _ _ _ Hgroups Hsd) as (g & Hg & Hlen & Hall).
    assert (Hcount : (length (tasksOfType st calendarId (sd_contentType sd))
                      + length g
                      <= length (tasksOfType st1 calendarId (sd_contentType sd)))%nat).
    { unfold tasksOfType. rewrite Hst1. simpl tasks. rewrite Ht.
      rewrite filter_app, length_app. apply Nat.add_le_mono_l.
      apply group_counted; [exact Hg|].
      eapply Forall_impl; [|exact Hall]. intros t [Hty Hc'].
      apply taskWhere_spec. now split. }
    unfold neededTasks in *. lia. }
  assert (Hnone : concat groups2 = []).
  { eapply Forall2_all_empty; [exact Hgroups2|].
    intros sd g Hsd [Hlen _]. rewrite (Hmet sd Hsd) in Hlen.
    now apply length_zero_iff_nil. }
  rewrite Hnone in *. rewrite app_nil_r in Ht2.
  rewrite (generateTasks_run _ _ _ _ _ Hfind1 _ _ Hrun2).
  eexists. split; [reflexivity|]. simpl.
  split; [exact Ht2|].
  rewrite Hs2. now apply scopesAfterGenerate_nothing.
Qed.

Lemma generateTasks_again_creates_nothing_witness :
  let st1 :=
    fst (generateTasks 10 7
           (Some [mkScopeData "BLOG_POST" 4; mkScopeData "VIDEO" 2;
                  mkScopeData "BLOG_POST" 5])
           Sample.blogOnly) in
  exists st2,
    generateTasks 10 7
      (Some [mkScopeData "BLOG_POST" 4; mkScopeData "VIDEO" 2;
             mkScopeData "BLOG_POST" 5])
      st1
      = (st2, Json 201 (mkGenerated "Generated 0 new tasks" [])) /\
    tasks st2 = tasks st1 /\
    scopes st2 = scopes st1.
Proof.
  apply (generateTasks_again_creates_nothing 10 7
           [mkScopeData "BLOG_POST" 4; mkScopeData "VIDEO" 2;
            mkScopeData "BLOG_POST" 5]
           Sample.blogOnly
           (mkCalendarWithTasks Sample.january Sample.acme
              (tasks Sample.blogOnly))).
  reflexivity.
Defined.

(** ** [updateTaskDate]: repeated assignment *)

Lemma withDates_twice d1 due1 d2 due2 (rows : list Task) id :
  map (fun x => if hasId id x then withDates d2 due2 x else x)
    (map (fun x => if hasId id x then withDates d1 due1 x else x) rows)
  = map (fun x => if hasId id x then withDates d2 due2 x else x) rows.
Proof.
  rewrite map_map. apply map_ext. intros x.
  destruct (hasId id x) eqn:Hx; [|now rewrite Hx].
  unfold hasId in *. simpl. now rewrite Hx.
Qed.

(** Whatever the request, the task table afterwards is the one before,
    or the one before with the dates of the task set. *)
Lemma updateTaskDate_tasks zone parse taskId userId v st :
  tasks (fst (updateTaskDate zone parse taskId userId v st)) = tasks st \/
  exists d due,
    tasks (fst (updateTaskDate zone parse taskId userId v st))
    = map (fun x => if hasId taskId x then withDates d due x else x) (tasks st).
Proof.
  unfold updateTaskDate, respond.
  destruct (truthyValue v); cbn [negb]; [|left; reflexivity].
  destruct (newDateOf parse v) as [d|]; cbn [option_map isWeekendDay];
    [|left; reflexivity].
  destruct ((getDay (wallClock zone d) =? 0) || (getDay (wallClock zone d) =? 6));
    [left; reflexivity|].
  destruct (timeClip (d - 2 * 24 * 60 * 60 * 1000)) as [due|];
    [|left; reflexivity].
  unfold bind, task_update.
  destruct (find (hasId taskId) (tasks st)) as [t|];
    [right; exists d, due; reflexivity | left; reflexivity].
Qed.

(** The last assignment wins: whatever a first request did to a task,
    an accepted assignment of a date leaves the task table as it would
    have without the first request; nothing of an earlier date
    remains. *)
Theorem updateTaskDate_last_assignment_wins zone parse taskId userId1 userId2
  v1 v2 date2 st t :
  find (hasId taskId) (tasks st) = Some t ->
  truthyValue v2 = true ->
  newDateOf parse v2 = Some date2 ->
  notWeekend (getDay (wallClock zone date2)) = true ->
  - MAX_TIME <= date2 - 2 * MS_PER_DAY ->
  tasks (fst (updateTaskDate zone parse taskId userId2 v2
                (fst (updateTaskDate zone parse taskId userId1 v1 st))))
  = tasks (fst (updateTaskDate zone parse taskId userId2 v2 st)).
Proof.
  intros Hfind Hv Hdate Hday Hmin.
  set (st1 := fst (updateTaskDate zone parse taskId userId1 v1 st)).
  assert (Hfind1 : exists t1, find (hasId taskId) (tasks st1) = Some t1).
  { destruct (updateTaskDate_tasks zone parse taskId userId1 v1 st)
      as [H1 | (d & due & H1)]; fold st1 in H1; rewrite H1.
    - now exists t.
    - rewrite find_update_row by reflexivity. rewrite Hfind. now eexists. }
  destruct Hfind1 as (t1 & Hfind1).
  rewrite (updateTaskDate_accepted zone parse taskId userId2 v2 date2 st1 t1
             Hfind1 Hv Hdate Hday Hmin).
  rewrite (updateTaskDate_accepted zone parse taskId userId2 v2 date2 st t
             Hfind Hv Hdate Hday Hmin).
  cbn [fst tasks withActivityLog withTasks].
  destruct (updateTaskDate_tasks zone parse taskId userId1 v1 st)
    as [H1 | (d & due & H1)]; fold st1 in H1; rewrite H1.
  - reflexivity.
  - apply withDates_twice.
Qed.

Lemma updateTaskDate_last_assignment_wins_witness :
  tasks (fst (updateTaskDate utc (fun _ => None) 203 7
                (JsNumber (mkDate 19725 9 0))
                (fst (updateTaskDate utc (fun _ => None) 203 8
                        (JsNumber (mkDate 19723 9 0)) Sample.blogOnly))))
  = tasks (fst (updateTaskDate utc (fun _ => None) 203 7
                  (JsNumber (mkDate 19725 9 0)) Sample.blogOnly)).
Proof.
  apply (updateTaskDate_last_assignment_wins utc (fun _ => None) 203 8 7
           (JsNumber (mkDate 19723 9 0)) (JsNumber (mkDate 19725 9 0))
           (mkDate 19725 9 0) Sample.blogOnly
           (Sample.blogTask 203 3 "IN_PROGRESS" None)).
  - reflexivity.
  - reflexivity.
  - reflexivity.
  - reflexivity.
  - vm_compute. discriminate.
Defined.

(** ** The date helpers once more *)

Lemma isWeekdayNumber_true k :
  isWeekdayNumber k = true <-> 1 <= (k + 4) mod 7 <= 5.
Proof.
  unfold isWeekdayNumber. apply notWeekend_true. apply Z.mod_pos_bound. lia.
Qed.

Lemma isWeekdayNumber_false k :
  isWeekdayNumber k = false <-> (k + 4) mod 7 = 0 \/ (k + 4) mod 7 = 6.
Proof.
  unfold isWeekdayNumber. apply notWeekend_false. apply Z.mod_pos_bound. lia.
Qed.

Lemma dueDateLoop_noon_step fuel m count n :
  count < n ->
  dueDateLoop (S fuel) (noonOfDay m) count n =
  if isWeekdayNumber (m - 1)
  then dueDateLoop fuel (noonOfDay (m - 1)) (count + 1) n
  else dueDateLoop fuel (noonOfDay (m - 1)) count n.
Proof.
  intros Hlt. simpl. replace (count <? n) with true by lia.
  replace (addDays (noonOfDay m) (-1)) with (noonOfDay (m - 1)) by zdm.
  rewrite <- isWeekdayNumber_dayNumber, noonOfDay_dayNumber. reflexivity.
Qed.

Lemma dueDate_default_closed_form (d : Date) :
  calculateBusinessDueDate_default d
  = Some (noonOfDay (dayNumber d - defaultDueOffset (getDay d))).
Proof.
  unfold calculateBusinessDueDate_default, calculateBusinessDueDate.
  rewrite setHoursNoon_noonOfDay.
  change (3 * Z.to_nat 2)%nat with 6%nat.
  set (m := dayNumber d).
  assert (Hg : getDay d = (m + 4) mod 7) by reflexivity.
  pose proof (getDay_bounds d) as Hb.
  unfold defaultDueOffset.
  rewrite dueDateLoop_noon_step by lia.
  destruct (isWeekdayNumber (m - 1)) eqn:E1;
    [apply isWeekdayNumber_true in E1 | apply isWeekdayNumber_false in E1];
    rewrite dueDateLoop_noon_step by lia;
    (destruct (isWeekdayNumber (m - 1 - 1)) eqn:E2;
       [apply isWeekdayNumber_true in E2 | apply isWeekdayNumber_false in E2]);
    try (rewrite dueDateLoop_done by lia);
    try (rewrite dueDateLoop_noon_step by lia;
         (destruct (isWeekdayNumber (m - 1 - 1 - 1)) eqn:E3;
            [apply isWeekdayNumber_true in E3
            | apply isWeekdayNumber_false in E3]);
         try (rewrite dueDateLoop_done by lia);
         try (rewrite dueDateLoop_noon_step by lia;
              (destruct (isWeekdayNumber (m - 1 - 1 - 1 - 1)) eqn:E4;
                 [apply isWeekdayNumber_true in E4
                 | apply isWeekdayNumber_false in E4]);
              try (rewrite dueDateLoop_done by lia)));
    try (exfalso; Z.div_mod_to_equations; lia);
    (do 2 f_equal;
     destruct (Z.eqb_spec (getDay d) 0), (Z.eqb_spec (getDay d) 1),
       (Z.eqb_spec (getDay d) 2); simpl;
     Z.div_mod_to_equations; lia).
Qed.

(** With the default of two business days the due date is noon of the
    day [defaultDueOffset] calendar days before the publish day: two
    days for a publish date from Wednesday to Saturday, three for a
    Sunday, four for a Monday or a Tuesday. *)
Theorem calculateBusinessDueDate_default_offset (d : Date) :
  calculateBusinessDueDate_default d
  = Some (noonOfDay (dayNumber d - defaultDueOffset (getDay d))).
Proof. apply dueDate_default_closed_form. Qed.

(** The two due-date rules of the controller side by side: for a
    publish date that [updateTaskDate] accepts, in a zone whose offset
    is the same 48 hours earlier, the due date it stores falls on the
    local day [calculateBusinessDueDate] would give when the publish
    day is Wednesday, Thursday or Friday, and two days after it, on the
    weekend, when the publish day is Monday or Tuesday. *)
Theorem updateTaskDate_due_date_vs_business_days zone parse taskId userId v
  date st t :
  find (hasId taskId) (tasks st) = Some t ->
  truthyValue v = true ->
  newDateOf parse v = Some date ->
  notWeekend (getDay (wallClock zone date)) = true ->
  - MAX_TIME <= date - 2 * MS_PER_DAY ->
  zone (date - 2 * MS_PER_DAY) = zone date ->
  exists st' t' due business,
    updateTaskDate zone parse taskId userId v st = (st', Json 200 t') /\
    task_dueDate t' = Some due /\
    calculateBusinessDueDate_default (wallClock zone date) = Some business /\
    dayNumber (wallClock zone due) - dayNumber business
    = (if (getDay (wallClock zone date) =? 1)
          || (getDay (wallClock zone date) =? 2)
       then 2 else 0).
Proof.
  intros Hfind Hv Hdate Hday Hmin Hzone.
  rewrite (updateTaskDate_accepted _ _ _ _ _ _ _ _ Hfind Hv Hdate Hday Hmin).
  rewrite dueDate_default_closed_form.
  do 4 eexists. split; [reflexivity|]. split; [reflexivity|].
  split; [reflexivity|].
  rewrite noonOfDay_dayNumber.
  destruct (two_days_earlier zone date Hzone) as [Hd _]. rewrite Hd.
  apply notWeekend_true in Hday; [|apply getDay_bounds].
  unfold defaultDueOffset.
  destruct (Z.eqb_spec (getDay (wallClock zone date)) 0),
    (Z.eqb_spec (getDay (wallClock zone date)) 1),
    (Z.eqb_spec (getDay (wallClock zone date)) 2); simpl; lia.
Qed.

Lemma updateTaskDate_due_date_vs_business_days_witness :
  exists st' t' due business,
    updateTaskDate utc (fun _ => None) 203 7 (JsNumber (mkDate 19723 9 0))
      Sample.blogOnly
      = (st', Json 200 t') /\
    task_dueDate t' = Some due /\
    calculateBusinessDueDate_default (wallClock utc (mkDate 19723 9 0))
      = Some business /\
    dayNumber (wallClock utc due) - dayNumber business
    = (if (getDay (wallClock utc (mkDate 19723 9 0)) =? 1)
          || (getDay (wallClock utc (mkDate 19723 9 0)) =? 2)
       then 2 else 0).
Proof.
  apply (updateTaskDate_due_date_vs_business_days utc (fun _ => None) 203 7
           (JsNumber (mkDate 19723 9 0)) (mkDate 19723 9 0)
           Sample.blogOnly (Sample.blogTask 203 3 "IN_PROGRESS" None)).
  - reflexivity.
  - reflexivity.
  - reflexivity.
  - reflexivity.
  - vm_compute. discriminate.
  - reflexivity.
Defined.

(** In New York the Monday after the clocks go forward has its due date
    on the Friday: one day, not two, after the Thursday
    [calculateBusinessDueDate] gives. *)
Example updateTaskDate_due_date_vs_business_days_dst :
  match snd (updateTaskDate newYork2024 (fun _ => None) 203 7
               (JsNumber (mkDate 19793 4 30)) Sample.blogOnly),
        calculateBusinessDueDate_default
          (wallClock newYork2024 (mkDate 19793 4 30))
  with
  | Json _ t', Some business =>
      option_map (fun due => dayNumber (wallClock newYork2024 due))
        (task_dueDate t')
      = Some (dayNumber business + 1)
  | _, _ => False
  end.
Proof. vm_compute. reflexivity. Qed.

(** Whatever the shuffle does, every date [getRandomWeekdayDates]
    returns is at noon, on a day from the start's day to the end's day;
    an end before the start, or a count of zero, gives the empty
    list. *)
Theorem getRandomWeekdayDates_noon_within_range
  (shuffle : list Date -> list Date)
  (shuffle_permutes : forall l, Permutation l (shuffle l))
  (startDate endDate : Date) (count : nat) :
  exists dates,
    getRandomWeekdayDates shuffle startDate endDate count = Some dates /\
    Forall (fun d => timeOfDay d = 12 * MS_PER_HOUR /\
                     dayNumber startDate <= dayNumber d <= dayNumber endDate)
      dates /\
    (endDate < startDate -> dates = []) /\
    (count = 0%nat -> dates = []).
Proof.
  unfold getRandomWeekdayDates, weekdayLoopFuel, slice0.
  rewrite weekdayLoop_spec by lia.
  set (iterations := Z.to_nat ((endDate - startDate) / MS_PER_DAY + 1)).
  set (weekdays := map noonOfDay
                     (filter isWeekdayNumber
                        (daysFrom (dayNumber startDate) iterations))).
  pose proof (shuffle_permutes weekdays) as Hperm.
  eexists. split; [reflexivity|]. split; [|split].
  - apply Forall_forall. intros d Hd. apply firstn_incl in Hd.
    apply (Permutation_in _ (Permutation_sym Hperm)) in Hd.
    unfold weekdays in Hd. apply in_map_iff in Hd.
    destruct Hd as (k & <- & Hk). apply filter_In in Hk.
    destruct Hk as [Hk _]. apply daysFrom_In in Hk.
    rewrite noonOfDay_dayNumber. split; [zdm|].
    assert (Hiter : Z.of_nat iterations <= dayNumber endDate - dayNumber startDate + 1
                    \/ iterations = 0%nat).
    { unfold iterations. zdm. }
    lia.
  - intros Hlt.
    assert (Hzero : iterations = 0%nat) by (unfold iterations; zdm).
    assert (Hnil : weekdays = []) by (unfold weekdays; now rewrite Hzero).
    pose proof (Permutation_length Hperm) as Hlen.
    replace (length weekdays) with 0%nat in Hlen by now rewrite Hnil.
    symmetry in Hlen. apply length_zero_iff_nil in Hlen.
    rewrite Hlen. apply firstn_nil.
  - intros ->. reflexivity.
Qed.

Lemma getRandomWeekdayDates_noon_within_range_witness :
  exists dates,
    getRandomWeekdayDates (@rev Date) (mkDate 19723 15 0) (mkDate 19727 13 0) 3
      = Some dates /\
    Forall (fun d => timeOfDay d = 12 * MS_PER_HOUR /\
                     dayNumber (mkDate 19723 15 0) <= dayNumber d
                       <= dayNumber (mkDate 19727 13 0))
      dates /\
    (mkDate 19727 13 0 < mkDate 19723 15 0 -> dates = []) /\
    (3%nat = 0%nat -> dates = []).
Proof.
  apply (getRandomWeekdayDates_noon_within_range (@rev Date)).
  intros l. apply Permutation_rev.
Defined.

(** ** [deleteScope] *)

Lemma find_hasScopeId_present (rows : list CalendarScope) s :
  In s rows -> exists s', find (hasScopeId (scope_id s)) rows = Some s'.
Proof.
  intros Hin.
  destruct (find (hasScopeId (scope_id s)) rows) as [s'|] eqn:Hfind;
    [now exists s'|].
  exfalso. apply (find_none _ _ Hfind) in Hin.
  unfold hasScopeId in Hin. rewrite Nat.eqb_refl in Hin. discriminate.
Qed.

Lemma find_filtered_out (rows : list CalendarScope) scopeId :
  find (hasScopeId scopeId)
    (filter (fun x => negb (hasScopeId scopeId x)) rows) = None.
Proof.
  induction rows as [|x rows IH]; [reflexivity|]. simpl.
  destruct (hasScopeId scopeId x) eqn:Hx; simpl; [exact IH|].
  now rewrite Hx.
Qed.

(** Deleting a scope that exists answers with the success message,
    removes the rows with that id and no other scope, and leaves every
    task in place, those of the scope's content type included; a later
    [updateScope] on the same id is answered with 404.  A scope that
    does not exist goes to [next] with the store untouched. *)
Theorem deleteScope_removes_scope_keeps_tasks nullsFirst scopeId userId
  quantity completed contentType st :
  (forall s, find (hasScopeId scopeId) (scopes st) = Some s ->
     exists st',
       deleteScope scopeId st = (st', Message 200 "Scope deleted successfully") /\
       tasks st' = tasks st /\
       scopes st' = filter (fun x => negb (hasScopeId scopeId x)) (scopes st) /\
       (forall x, In x (scopes st') <-> In x (scopes st) /\ scope_id x <> scopeId) /\
       updateScope nullsFirst scopeId userId quantity completed contentType st'
       = (st', Message 404 "Scope not found")) /\
  (find (hasScopeId scopeId) (scopes st) = None ->
     deleteScope scopeId st = (st, Next P2025)).
Proof.
  split.
  - intros s Hfind.
    exists (withScopes st (filter (fun x => negb (hasScopeId scopeId x)) (scopes st))).
    split.
    { unfold deleteScope, respond, bind, calendarScope_delete.
      now rewrite Hfind. }
    split; [reflexivity|]. split; [reflexivity|].
    split.
    { intros x. simpl. rewrite filter_In, negb_true_iff.
      unfold hasScopeId. now rewrite Nat.eqb_neq. }
    apply updateScope_missing. unfold calendarScope_findUnique. simpl.
    now rewrite find_filtered_out.
  - intros Hnone. unfold deleteScope, respond, bind, calendarScope_delete.
    now rewrite Hnone.
Qed.

(** Once a scope is deleted its content type is free again: a change of
    another scope of that calendar to it is no longer refused. *)
Theorem deleteScope_frees_content_type nullsFirst userId quantity completed
  st other scopeId cur :
  scopesUnique st ->
  taskIdsUnique st ->
  In other (scopes st) ->
  calendarScope_findUnique scopeId (fst (deleteScope (scope_id other) st))
    = (fst (deleteScope (scope_id other) st), Ok (Some cur)) ->
  scope_calendarId (sc_scope cur) = scope_calendarId other ->
  exists st'' scope,
    updateScope nullsFirst scopeId userId quantity completed
      (Some (scope_contentType other)) (fst (deleteScope (scope_id other) st))
    = (st'', Json 200 scope).
Proof.
  intros Hsu Huniq Hin. set (st' := fst (deleteScope (scope_id other) st)).
  intros Hcur Hcal.
  destruct (find_hasScopeId_present _ _ Hin) as (s' & Hfind).
  assert (Hst' : st' = withScopes st
                   (filter (fun x => negb (hasScopeId (scope_id other) x))
                      (scopes st))).
  { unfold st', deleteScope, respond, bind, calendarScope_delete.
    now rewrite Hfind. }
  assert (Hfree : forall sid,
            scopeTaken st' sid (scope_calendarId other) (scope_contentType other)
            = false).
  { intros sid. unfold scopeTaken.
    destruct (existsb _ (scopes st')) eqn:Hex; [|reflexivity].
    exfalso. apply existsb_exists in Hex. destruct Hex as (x & Hx & Hmatch).
    rewrite Hst' in Hx. simpl in Hx. apply filter_In in Hx.
    destruct Hx as [Hxin Hxid].
    apply andb_true_iff in Hmatch. destruct Hmatch as [Hmatch Hty].
    apply andb_true_iff in Hmatch. destruct Hmatch as [_ Hc].
    apply Nat.eqb_eq in Hc. apply String.eqb_eq in Hty.
    assert (x = other) by (apply Hsu; auto). subst x.
    unfold hasScopeId in Hxid. rewrite Nat.eqb_refl in Hxid. discriminate. }
  assert (Huniq' : taskIdsUnique st') by (rewrite Hst'; exact Huniq).
  rewrite (updateScope_steps _ _ _ _ _ _ _ _ Huniq' Hcur).
  - destruct (reconcileQuantity_run nullsFirst cur
                (newContentTypeOf (Some (scope_contentType other)) (sc_scope cur))
                userId
                (newQuantityOf quantity (sc_scope cur)
                 - scope_quantity (sc_scope cur))
                (storeAfterMigration scopeId quantity completed
                   (Some (scope_contentType other)) (sc_scope cur) st'))
      as (rows & -> & _).
    do 2 eexists. reflexivity.
  - intros Hchg. rewrite Hcal.
    unfold isTypeChangingOf in Hchg. unfold newContentTypeOf.
    destruct (truthy (Some (scope_contentType other))); [apply Hfree|].
    discriminate Hchg.
Qed.

Lemma deleteScope_frees_content_type_witness :
  exists st'' scope,
    updateScope true 100 7 None None
      (Some (scope_contentType Sample.videoScope))
      (fst (deleteScope (scope_id Sample.videoScope) Sample.blogAndVideo))
    = (st'', Json 200 scope).
Proof.
  apply (deleteScope_frees_content_type true 7 None None Sample.blogAndVideo
           Sample.videoScope 100
           (mkScopeWithCalendar Sample.blogScope Sample.january Sample.acme)).
  - exact sample_blogAndVideo_scopes.
  - exact sample_blogAndVideo_ids.
  - simpl. right. left. reflexivity.
  - reflexivity.
  - reflexivity.
Defined.

(** ** Rewriting: texts the migration leaves alone, titles it renames *)

Local Open Scope string_scope.

Lemma regexReplaceGI_absent p f s :
  containsCI p s = false -> regexReplaceGI p f s = s.
Proof.
  unfold regexReplaceGI. induction s as [|c s IH]; intros Habs; [reflexivity|].
  cbn [containsCI] in Habs. apply orb_false_iff in Habs.
  destruct Habs as [Hhere Hlater].
  change (regexReplaceFrom p f 0 (String c s)) with
    (if matchesAtCI p (String c s)
     then f (takeStr (String.length p) (String c s))
            ++ regexReplaceFrom p f (String.length p - 1) s
     else String c (regexReplaceFrom p f 0 s)).
  rewrite Hhere. f_equal. now apply IH.
Qed.

(** A title, or a description, in which the old label does not occur
    in any case comes out of the migration unchanged. *)
Theorem migration_keeps_text_without_label (oldType newType text : string) :
  containsCI (typeString oldType) text = false ->
  migratedTitle oldType newType text = text /\
  migratedDescription oldType newType (Some text) = text.
Proof.
  intros Habs. split.
  - unfold migratedTitle. now apply regexReplaceGI_absent.
  - unfold migratedDescription. destruct text as [|c text]; [reflexivity|].
    now apply regexReplaceGI_absent.
Qed.

Lemma migration_keeps_text_without_label_witness :
  migratedTitle "BLOG_POST" "VIDEO" "Newsletter for March"
    = "Newsletter for March" /\
  migratedDescription "BLOG_POST" "VIDEO" (Some "Newsletter for March")
    = "Newsletter for March".
Proof.
  apply (migration_keeps_text_without_label "BLOG_POST" "VIDEO"
           "Newsletter for March").
  reflexivity.
Defined.

Lemma matchesAtCI_prefix p s : matchesAtCI p (p ++ s) = true.
Proof.
  induction p as [|a p IH]; [reflexivity|]. simpl.
  now rewrite Ascii.eqb_refl, IH.
Qed.

Lemma takeStr_prefix p s : takeStr (String.length p) (p ++ s) = p.
Proof. induction p as [|a p IH]; simpl; [now destruct s | now rewrite IH]. Qed.

Lemma dropStr_prefix p s : dropStr (String.length p) (p ++ s) = s.
Proof. induction p as [|a p IH]; simpl; [now destruct s | exact IH]. Qed.

(** A text that starts with the pattern: the pattern is replaced and
    the scan goes on behind it. *)
Lemma regexReplaceGI_prefix p f s :
  p <> "" -> regexReplaceGI p f (p ++ s) = f p ++ regexReplaceGI p f s.
Proof.
  intros Hp. unfold regexReplaceGI.
  destruct p as [|a p]; [congruence|].
  change (regexReplaceFrom (String a p) f 0 (String a p ++ s)) with
    (if matchesAtCI (String a p) (String a p ++ s)
     then f (takeStr (String.length (String a p)) (String a p ++ s))
            ++ regexReplaceFrom (String a p) f (String.length (String a p) - 1)
                 (p ++ s)
     else String a (regexReplaceFrom (String a p) f 0 (p ++ s))).
  rewrite matchesAtCI_prefix, takeStr_prefix, regexReplaceFrom_skip.
  simpl String.length. rewrite ?Nat.sub_0_r. simpl Nat.sub.
  rewrite ?Nat.sub_0_r, dropStr_prefix. reflexivity.
Qed.

Lemma upper_letter_is_upper c : isUpperLetter c = true -> charToUpper c = c.
Proof.
  unfold isUpperLetter, charToUpper. intros H.
  apply andb_true_iff in H. destruct H as [H1 H2].
  apply Nat.leb_le in H1, H2.
  replace (97 <=? nat_of_ascii c)%nat with false; [reflexivity|].
  symmetry. apply Nat.leb_gt. lia.
Qed.

Lemma upper_letter_differs c x :
  isUpperLetter c = true -> isLetter x = false ->
  Ascii.eqb (charToUpper c) (charToUpper x) = false.
Proof.
  intros Hc Hx. rewrite (upper_letter_is_upper c Hc).
  unfold isLetter in Hx. apply orb_false_iff in Hx. destruct Hx as [Hup Hlow].
  unfold charToUpper. rewrite Hlow.
  apply Ascii.eqb_neq. intros ->. congruence.
Qed.

Lemma regexReplaceGI_without_letters c p f s :
  isUpperLetter c = true -> withoutLetters s = true ->
  regexReplaceGI (String c p) f s = s.
Proof.
  intros Hc Hs. apply regexReplaceGI_absent.
  induction s as [|x s IH]; [reflexivity|].
  simpl in Hs. apply andb_true_iff in Hs. destruct Hs as [Hx Hs].
  apply negb_true_iff in Hx.
  cbn [containsCI matchesAtCI]. rewrite (upper_letter_differs c x Hc Hx).
  simpl. now apply IH.
Qed.

Lemma string_of_uint_without_letters d :
  withoutLetters (NilEmpty.string_of_uint d) = true.
Proof. induction d; simpl; auto. Qed.

Lemma numberToString_without_letters n : withoutLetters (numberToString n) = true.
Proof.
  unfold numberToString, NilZero.string_of_uint.
  destruct (Nat.to_uint n); try reflexivity;
    apply (string_of_uint_without_letters (_ _)).
Qed.

Lemma typeString_first_letter c rest :
  isUpperLetter c = true ->
  typeString (String c rest) = String c (typeString rest).
Proof.
  intros Hc. unfold typeString. cbn [replaceFirst startsWith].
  replace (Ascii.eqb "_" c) with false; [reflexivity|].
  symmetry. apply Ascii.eqb_neq. intros <-. discriminate Hc.
Qed.

(** Created, then migrated: the title [updateScope] and [generateTasks]
    give a task, label and number, comes out of a migration as the new
    label capitalized followed by the same number, provided the old
    content type starts with a capital letter. *)
Theorem migration_renames_created_title
  (c : ascii) (rest newType brandName : string)
  (brandId calendarId userId : Id) (n : nat) (id : Id) :
  isUpperLetter c = true ->
  let oldType := String c rest in
  let newLabel := typeString newType in
  migratedTitle oldType newType
    (task_title (newTask oldType brandName brandId calendarId userId n id))
  = toUpperCase (charAt0 newLabel) ++ toLowerCase (slice1 newLabel)
    ++ " #" ++ numberToString n.
Proof.
  intros Hc oldType newLabel. unfold migratedTitle. fold newLabel.
  cbn [task_title newTask]. unfold oldType.
  rewrite (typeString_first_letter c rest Hc).
  set (p := String c (typeString rest)).
  assert (Hsplit : forall a b d : string, (a ++ b) ++ d = a ++ (b ++ d)).
  { intros a b d. induction a as [|x a IH]; simpl; [reflexivity | now rewrite IH]. }
  rewrite regexReplaceGI_prefix by discriminate.
  unfold p at 2. rewrite regexReplaceGI_without_letters.
  - unfold titleReplacement, p. cbn [charAt0 takeStr toUpperCase mapString].
    rewrite (upper_letter_is_upper c Hc). rewrite String.eqb_refl.
    fold (toUpperCase (charAt0 newLabel)). apply Hsplit.
  - exact Hc.
  - simpl. apply numberToString_without_letters.
Qed.

Lemma migration_renames_created_title_witness :
  let oldType := String "B" "LOG_POST" in
  let newLabel := typeString "SOCIAL_POST" in
  migratedTitle oldType "SOCIAL_POST"
    (task_title (newTask oldType "Acme" 1 10 7 4 204))
  = toUpperCase (charAt0 newLabel) ++ toLowerCase (slice1 newLabel)
    ++ " #" ++ numberToString 4.
Proof.
  apply (migration_renames_created_title "B" "LOG_POST" "SOCIAL_POST" "Acme"
           1 10 7 4 204).
  reflexivity.
Defined.

(** A blog post numbered 4 becomes ["Social post #4"]. *)
Example migration_renames_created_title_sample :
  migratedTitle "BLOG_POST" "SOCIAL_POST"
    (task_title (newTask "BLOG_POST" "Acme" 1 10 7 4 204))
  = "Social post #4".
Proof. reflexivity. Qed.

Local Close Scope string_scope.

(** ** [uploadProfileImage] *)

(** A stored upload sets the user's avatar to ["/uploads/"] followed by
    the file name, whatever [NODE_ENV] and [BASE_URL] are: the base URL
    the handler computes never reaches the database or the answer.
    The names of the user, the other users and the number of users are
    as before. *)
Theorem uploadProfileImage_stores_relative_path env userId file users u :
  envIs (UPLOAD_STORAGE env) "cloud" = false ->
  find (fun x => (user_id x =? userId)%nat) users = Some u ->
  let avatar := Some ("/uploads/" ++ file_filename file)%string in
  let updated := mkUser (user_id u) avatar (user_firstName u) (user_lastName u) in
  exists users',
    uploadProfileImage env userId (Some file) users
      = (users', UploadSuccess "Profile photo updated" avatar updated) /\
    find (fun x => (user_id x =? userId)%nat) users' = Some updated /\
    map user_id users' = map user_id users /\
    (forall x, In x users -> user_id x <> userId -> In x users') /\
    (forall nodeEnv baseUrl,
       uploadProfileImage
         (mkEnvironment (UPLOAD_STORAGE env) nodeEnv baseUrl) userId (Some file)
         users
       = uploadProfileImage env userId (Some file) users).
Proof.
  intros Hlocal Hfind avatar updated.
  eexists. split.
  { unfold uploadProfileImage. rewrite Hlocal, Hfind. reflexivity. }
  split.
  { clear Hlocal. induction users as [|x users IH]; [discriminate|].
    simpl in Hfind |- *. destruct (user_id x =? userId)%nat eqn:Hx.
    - inversion Hfind; subst. simpl. now rewrite Hx.
    - rewrite Hx. now apply IH. }
  split.
  { rewrite map_map. apply map_ext. intros x.
    now destruct (user_id x =? userId)%nat. }
  split.
  { intros x Hx Hid. apply in_map_iff. exists x. split; [|exact Hx].
    apply Nat.eqb_neq in Hid. now rewrite Hid. }
  intros nodeEnv baseUrl. unfold uploadProfileImage. simpl UPLOAD_STORAGE.
  rewrite Hlocal, Hfind. reflexivity.
Qed.

Lemma uploadProfileImage_stores_relative_path_witness :
  let avatar := Some ("/uploads/" ++ "photo-1.png")%string in
  let updated := mkUser 7 avatar "Ada" "Lovelace" in
  exists users',
    uploadProfileImage (mkEnvironment None (Some "production"%string) None) 7
      (Some (mkUploadedFile "photo-1.png"))
      [mkUser 6 None "Alan" "Turing"; mkUser 7 None "Ada" "Lovelace"]
      = (users', UploadSuccess "Profile photo updated" avatar updated) /\
    find (fun x => (user_id x =? 7)%nat) users' = Some updated /\
    map user_id users'
      = map user_id [mkUser 6 None "Alan" "Turing"; mkUser 7 None "Ada" "Lovelace"] /\
    (forall x,
       In x [mkUser 6 None "Alan" "Turing"; mkUser 7 None "Ada" "Lovelace"] ->
       user_id x <> 7%nat -> In x users') /\
    (forall nodeEnv baseUrl,
       uploadProfileImage (mkEnvironment None nodeEnv baseUrl) 7
         (Some (mkUploadedFile "photo-1.png"))
         [mkUser 6 None "Alan" "Turing"; mkUser 7 None "Ada" "Lovelace"]
       = uploadProfileImage (mkEnvironment None (Some "production"%string) None) 7
           (Some (mkUploadedFile "photo-1.png"))
           [mkUser 6 None "Alan" "Turing"; mkUser 7 None "Ada" "Lovelace"]).
Proof.
  apply (uploadProfileImage_stores_relative_path
           (mkEnvironment None (Some "production"%string) None) 7
           (mkUploadedFile "photo-1.png")
           [mkUser 6 None "Alan" "Turing"; mkUser 7 None "Ada" "Lovelace"]
           (mkUser 7 None "Ada" "Lovelace")).
  - reflexivity.
  - reflexivity.
Defined.

(** Every failure of [uploadProfileImage] is answered by the handler
    itself and writes nothing: 400 without a file, 500 when the storage
    is set to ["cloud"] (with or without a known user), 500 for a user
    that does not exist. *)
Theorem uploadProfileImage_failure_writes_nothing env userId file users :
  (exists users' avatar user,
     uploadProfileImage env userId file users
     = (users', UploadSuccess "Profile photo updated" avatar user))
  \/ (file = None /\
      uploadProfileImage env userId file users
      = (users, UploadMessage 400 "No file uploaded"))
  \/ (envIs (UPLOAD_STORAGE env) "cloud" = true /\
      uploadProfileImage env userId file users
      = (users, UploadFailure 500 "Image upload failed"
                  (NotDefined "uploadToCloudinary")))
  \/ (find (fun x => (user_id x =? userId)%nat) users = None /\
      uploadProfileImage env userId file users
      = (users, UploadFailure 500 "Image upload failed" RecordNotFound)).
Proof.
  destruct file as [file|]; [|right; left; split; reflexivity].
  destruct (envIs (UPLOAD_STORAGE env) "cloud") eqn:Hcloud.
  - right. right. left. split; [reflexivity|].
    unfold uploadProfileImage. now rewrite Hcloud.
  - destruct (find (fun x => (user_id x =? userId)%nat) users) as [u|] eqn:Hfind.
    + left. unfold uploadProfileImage. rewrite Hcloud, Hfind.
      do 3 eexists. reflexivity.
    + right. right. right. split; [reflexivity|].
      unfold uploadProfileImage. now rewrite Hcloud, Hfind.
Qed.

(** ** [generateTasks]: one entry *)

Lemma upsertScopeRows_row rows calendarId contentType quantity :
  let s := snd (upsertScopeRows rows calendarId contentType quantity) in
  In s (fst (upsertScopeRows rows calendarId contentType quantity)) /\
  scope_calendarId s = calendarId /\
  scope_contentType s = contentType /\
  scope_quantity s = quantity.
Proof.
  unfold upsertScopeRows.
  destruct (find _ rows) as [s0|] eqn:Hfind; simpl.
  - destruct (find_some _ _ Hfind) as [Hin Hhit].
    apply andb_true_iff in Hhit. destruct Hhit as [Hc Ht].
    apply Nat.eqb_eq in Hc. apply String.eqb_eq in Ht.
    split; [|now repeat split].
    apply in_map_iff. exists s0. split; [|exact Hin].
    unfold hasScopeId. now rewrite Nat.eqb_refl.
  - split; [|now repeat split]. apply in_or_app. right. now left.
Qed.

(** A request with a single entry brings the calendar's number of tasks
    of that content type up to the requested quantity when it was
    below, and leaves it as it was otherwise; when tasks had to be
    created, the calendar afterwards has a scope of that content type
    with the requested quantity. *)
Theorem generateTasks_single_entry calendarId userId contentType quantity st
  calendar :
  calendar_findUnique calendarId st = (st, Ok (Some calendar)) ->
  let existing := Z.of_nat (length (tasksOfType st calendarId contentType)) in
  let st' :=
    fst (generateTasks calendarId userId
           (Some [mkScopeData contentType quantity]) st) in
  Z.of_nat (length (tasksOfType st' calendarId contentType))
    = Z.max existing quantity /\
  (existing < quantity ->
   exists s,
     In s (scopes st') /\ scope_calendarId s = calendarId /\
     scope_contentType s = contentType /\ scope_quantity s = quantity).
Proof.
  intros Hfind existing st'.
  destruct (calendar_findUnique_found _ _ _ Hfind) as [Hcal Hsnap].
  destruct (generate_loop calendarId userId calendar st Hcal Hsnap
              [mkScopeData contentType quantity] [] st)
    as (s1 & groups & Hrun & Hgroups & Ht & Hs & _).
  assert (Hst' : st' = withActivityLog s1
            (activityLog s1 ++ [mkLog "GENERATE" "CalendarTasks" calendarId userId])).
  { unfold st'. now rewrite (generateTasks_run _ _ _ _ _ Hfind _ _ Hrun). }
  clear Hcal Hsnap Hrun.
  inversion Hgroups as [|sd g reqs gs [Hlen Hall] Hrest]; subst sd reqs groups.
  inversion Hrest; subst gs. simpl in Hlen, Hall, Ht, Hs.
  rewrite app_nil_r in Ht.
  split.
  - unfold tasksOfType. rewrite Hst'. simpl tasks. rewrite Ht.
    rewrite filter_app, length_app.
    rewrite (filter_all (taskWhere calendarId contentType) g).
    + rewrite Hlen. unfold neededTasks, existing, tasksOfType. lia.
    + eapply Forall_impl; [|exact Hall]. intros t [Hty Hc].
      apply taskWhere_spec. now split.
  - intros Hbelow. rewrite Hst'. simpl scopes. rewrite Hs.
    replace (neededTasks (length (tasksOfType st calendarId contentType)) quantity
             =? 0)%nat with false.
    + destruct (upsertScopeRows_row (scopes st) calendarId contentType quantity)
        as (Hin & Hc & Hty & Hq).
      eexists. repeat split; eassumption.
    + symmetry. apply Nat.eqb_neq. unfold neededTasks, existing in *. lia.
Qed.

Lemma generateTasks_single_entry_witness :
  let existing := Z.of_nat (length (tasksOfType Sample.blogOnly 10 "VIDEO")) in
  let st' :=
    fst (generateTasks 10 7 (Some [mkScopeData "VIDEO" 2]) Sample.blogOnly) in
  Z.of_nat (length (tasksOfType st' 10 "VIDEO")) = Z.max existing 2 /\
  (existing < 2 ->
   exists s,
     In s (scopes st') /\ scope_calendarId s = 10%nat /\
     scope_contentType s = "VIDEO"%string /\ scope_quantity s = 2).
Proof.
  apply (generateTasks_single_entry 10 7 "VIDEO" 2 Sample.blogOnly
           (mkCalendarWithTasks Sample.january Sample.acme
              (tasks Sample.blogOnly))).
  reflexivity.
Defined.
